(** * BillingIntegration: account synchronisation and periodic settlement

    A shallow embedding of the abstract class [BillingIntegration] of
    ev-server (the orchestration half of the billing component) and the
    properties its specification states about it.

    Layout: JavaScript values and errors (a rejection may carry no
    value at all), the calendar operations of [moment] the class relies
    on, the billing data model, the effect monad (world state,
    exceptions, observable trace), the methods of the class in source
    order, in-memory fixtures, and then the theorems:
    first those of the specification, then further properties of the
    class (regular synchronisation, the accounting and the pagination of
    a settlement run, notifications, the purge of invoices and accounts,
    the guards) and of UserValidator. *)

From stdpp Require Import base list strings pretty gmap.
From Stdlib Require Import ZArith QArith Lia.

Set Default Proof Using "Type".
Open Scope Z_scope.

(* ===================================================================== *)
(** * JavaScript values *)
(* ===================================================================== *)

Module Js.

(** A member that holds a value, holds [null], or is [undefined]
    (absent).  The three are told apart by [===]. *)
Inductive nullable (A : Type) :=
| Undefined
| Null
| Value (a : A).
Arguments Undefined {A}.
Arguments Null {A}.
Arguments Value {A} a.

(** A nullable string of which the class only tests the truthiness:
    [None] is [null]/[undefined]. *)
Definition truthy_string (s : option string) : bool :=
  match s with
  | Some s => negb (String.eqb s "")
  | None => false
  end.

(** Truthiness of a string member. *)
Definition truthy (s : nullable string) : bool :=
  match s with
  | Value s => negb (String.eqb s "")
  | _ => false
  end.

(** [!x] for an object reference. *)
Definition truthy_ref {A : Type} (x : option A) : bool :=
  match x with Some _ => true | None => false end.

(** [a !== b] on string members: [null] and [undefined] differ. *)
Definition strict_neq (a b : nullable string) : bool :=
  match a, b with
  | Undefined, Undefined => false
  | Null, Null => false
  | Value x, Value y => negb (String.eqb x y)
  | _, _ => true
  end.

(** Optional chaining [x?.f] towards an object reference [f]. *)
Definition chain {A B : Type} (x : option A) (f : A -> option B)
  : option B :=
  match x with Some a => f a | None => None end.

(** Optional chaining [x?.f] towards a member [f]: [undefined] when [x]
    is [null] or [undefined], the member as it is otherwise. *)
Definition member {A B : Type} (x : option A) (f : A -> nullable B)
  : nullable B :=
  match x with Some a => f a | None => Undefined end.

(** Rendering of a string member inside a template literal. *)
Definition show (s : nullable string) : string :=
  match s with
  | Value s => s
  | Null => "null"
  | Undefined => "undefined"
  end.

End Js.

(* ===================================================================== *)
(** * Calendar: the operations of [moment] used by the class *)
(* ===================================================================== *)

Module Calendar.

(** A local date and time, as [moment()] exposes it: months are 0..11,
    days of the month 1..31. *)
Record DateTime := mkDateTime {
  year : Z; month : Z; day : Z;
  hour : Z; minute : Z; second : Z; millisecond : Z
}.

Definition isLeapYear (y : Z) : bool :=
  (y mod 4 =? 0) && (negb (y mod 100 =? 0) || (y mod 400 =? 0)).

Definition daysInMonth (y m : Z) : Z :=
  if m =? 1 then (if isLeapYear y then 29 else 28)
  else if (m =? 3) || (m =? 5) || (m =? 8) || (m =? 10) then 30
  else 31.

Definition prevMonth (y m : Z) : Z * Z :=
  if m =? 0 then (y - 1, 11) else (y, m - 1).

Definition nextMonth (y m : Z) : Z * Z :=
  if m =? 11 then (y + 1, 0) else (y, m + 1).

(** Day-of-month overflow, as [Date.prototype.setDate] resolves it:
    day 0 is the last day of the previous month, day -1 the day before,
    a day past the end of the month rolls into the next one. *)
Fixpoint rollDate (fuel : nat) (y m d : Z) : Z * Z * Z :=
  match fuel with
  | O => (y, m, d)
  | S fuel' =>
      if d <? 1 then
        let '(y', m') := prevMonth y m in
        rollDate fuel' y' m' (d + daysInMonth y' m')
      else if daysInMonth y m <? d then
        let '(y', m') := nextMonth y m in
        rollDate fuel' y' m' (d - daysInMonth y m)
      else (y, m, d)
  end.

(** [m.date(d)] *)
Definition date (d : Z) (m : DateTime) : DateTime :=
  let '(y', m', d') := rollDate (S (Z.to_nat (Z.abs d))) (year m) (month m) d in
  mkDateTime y' m' d' (hour m) (minute m) (second m) (millisecond m).

(** [m.startOf('day')] *)
Definition startOfDay (m : DateTime) : DateTime :=
  mkDateTime (year m) (month m) (day m) 0 0 0 0.

(** [m.endOf('day')] *)
Definition endOfDay (m : DateTime) : DateTime :=
  mkDateTime (year m) (month m) (day m) 23 59 59 999.

(** [a.isSame(b, 'day')] *)
Definition isSameDay (a b : DateTime) : bool :=
  (year a =? year b) && (month a =? month b) && (day a =? day b).

(** A date the calendar really has. *)
Definition valid (m : DateTime) : Prop :=
  0 <= month m <= 11 /\ 1 <= day m <= daysInMonth (year m) (month m).

(** First instant of the month [(y, m)]. *)
Definition firstInstantOfMonth (y m : Z) : DateTime :=
  mkDateTime y m 1 0 0 0 0.

End Calendar.

Import Calendar.

(* ===================================================================== *)
(** * Data model *)
(* ===================================================================== *)

(** Modelled from the spec: the enum [BillingInvoiceStatus] of
    types/Billing is not part of the sources at hand; the class names
    DRAFT, OPEN and PAID, every other status is kept by its name. *)
Inductive BillingInvoiceStatus :=
| DRAFT
| OPEN
| PAID
| OtherInvoiceStatus (name : string).

(** Modelled from the spec: the enum [BillingStatus] of types/Billing;
    the class only writes UNBILLED. *)
Inductive BillingStatus :=
| UNBILLED
| OtherBillingStatus (name : string).

(** Modelled from the spec: the members of [ServerAction] the class uses. *)
Inductive ServerAction :=
| BILLING_SYNCHRONIZE_USER
| BILLING_FORCE_SYNCHRONIZE_USER
| BILLING_PERFORM_OPERATIONS
| BILLING_TRANSACTION
| BILLING_CHARGE_INVOICE
| BILLING_TEST_DATA_CLEANUP.

(** Modelled from the spec: [TenantComponents]; the class asks for
    ORGANIZATION only. *)
Inductive TenantComponents :=
| ORGANIZATION
| OtherComponent (name : string).

(** What a JavaScript [throw] or a rejected promise carries: an error
    object of the server ([BackendError]) or of the language ([Error],
    [TypeError]), any other value of a collaborator, or no value at all
    ([Nullish]: [Promise.reject()], [throw undefined], [throw null]). *)
Inductive error :=
| BackendError (message method : string) (action : ServerAction)
| JsError (message : string)
| TypeError (message : string)
| ExternalError (origin message : string)
| Nullish.

Inductive result (A : Type) :=
| Ok (a : A)
| Throw (e : error).
Arguments Ok {A} a.
Arguments Throw {A} e.

Definition is_ok {A} (r : result A) : bool :=
  match r with Ok _ => true | Throw _ => false end.

Record BillingUserData := mkBillingUserData {
  customerID : Js.nullable string;
  bud_liveMode : bool
}.

Record User := mkUser {
  user_id : string;
  user_email : string;
  user_locale : string;
  freeAccess : bool;
  user_billingData : option BillingUserData
}.

Record BillingUser := mkBillingUser {
  bu_userID : string;
  bu_billingData : option BillingUserData
}.

Record ChargingStation := mkChargingStation { cs_id : string }.

Record SiteArea := mkSiteArea { sa_id : string; accessControl : bool }.

Record Tenant := mkTenant { tenant_id : string; subdomain : string }.

Record BillingSetting := mkBillingSetting {
  isTransactionBillingActivated : bool;
  periodicBillingAllowed : bool
}.

(** [billing] is a mandatory member of [BillingSettings]; the optional
    chaining the class sometimes applies to it never short-circuits. *)
Record BillingSettings := mkBillingSettings { billing : BillingSetting }.

Record BillingDataTransactionStop := mkBillingDataTransactionStop {
  bds_status : option BillingStatus;
  invoiceID : option string;
  invoiceNumber : option string;
  invoiceStatus : option BillingInvoiceStatus
}.

Record BillingData := mkBillingData {
  withBillingActive : bool;
  lastUpdate : DateTime;
  bd_stop : option BillingDataTransactionStop
}.

Record TransactionStop := mkTransactionStop {
  stop_timestamp : Z;            (* epoch milliseconds *)
  totalConsumptionWh : Z
}.

Record Consumption := mkConsumption { consumption_timestamp : Z }.

Record Transaction := mkTransaction {
  transaction_id : Z;
  userID : option string;
  transaction_user : option User;
  chargeBox : option ChargingStation;
  timestamp : Z;                 (* epoch milliseconds *)
  stop : option TransactionStop;
  lastConsumption : option Consumption;
  billingData : option BillingData
}.

Record BillingSession := mkBillingSession { transactionID : Z }.

Record BillingInvoice := mkBillingInvoice {
  invoice_id : string;
  invoice_user : option User;
  liveMode : bool;
  status : BillingInvoiceStatus;
  createdOn : DateTime;
  sessions : option (list BillingSession);
  amount : Z;                    (* minor units *)
  currency : option string;
  number : string;
  payInvoiceUrl : string
}.

Record BillingChargeInvoiceAction := mkAction {
  inSuccess : Z;
  inError : Z
}.

Record DataResult (A : Type) := mkDataResult {
  dr_count : Z;
  dr_result : list A
}.
Arguments mkDataResult {A}.
Arguments dr_count {A}.
Arguments dr_result {A}.

(** The query the periodic operation sends to the invoice store. *)
Record InvoiceFilter := mkInvoiceFilter {
  startDateTime : option DateTime;
  endDateTime : option DateTime;
  f_invoiceStatus : list BillingInvoiceStatus;
  f_liveMode : option bool
}.

Record SortSpec := mkSort { sort_field : string; sort_direction : Z }.

Record DbParams := mkDbParams {
  p_sort : option SortSpec;
  p_limit : Z;
  p_skip : Z
}.

Record QueryParameters := mkQueryParameters {
  qp_limit : Z;
  qp_sort : SortSpec;
  qp_filter : InvoiceFilter
}.

(** The payload handed to the notification framework. *)
Record NewInvoiceNotification := mkNewInvoiceNotification {
  n_user : User;
  evseDashboardInvoiceURL : string;
  evseDashboardURL : string;
  invoiceDownloadUrl : string;
  payInvoiceUrlShown : string;
  invoiceAmount : string;
  n_invoiceNumber : string;
  n_invoiceStatus : BillingInvoiceStatus
}.

Inductive LogLevel := LogInfo | LogWarning | LogError.

Record LogEntry := mkLog {
  log_level : LogLevel;
  log_action : ServerAction;
  log_method : string;
  log_message : string;
  log_detail : option error
}.

(** The state of the integration object ([this]). *)
Record Integration := mkIntegration {
  tenant : Tenant;
  settings : BillingSettings
}.

Definition MODULE_NAME : string := "BillingIntegration".

(* ===================================================================== *)
(** * Effects: world state, exceptions and the observable trace *)
(* ===================================================================== *)

(** Every interaction of the class with a collaborator (the provider
    behind the abstract methods, the stores, the notification framework,
    the logger) is recorded with its arguments and its outcome. *)
Inductive Event :=
| ECheckConnection (r : result unit)
| EIsUserSynchronized (u : User) (r : result bool)
| EGetUser (u : User) (r : result (option BillingUser))
| ECreateUser (u : User) (r : result (option BillingUser))
| EUpdateUser (u : User) (r : result (option BillingUser))
| ERepairUser (u : User) (r : result (option BillingUser))
| EChargeInvoice (i : BillingInvoice) (r : result BillingInvoice)
| EGetInvoices (f : InvoiceFilter) (p : DbParams)
    (r : result (DataResult BillingInvoice))
| EDeleteInvoice (id : string) (r : result unit)
| EGetTransaction (id : Z) (r : result (option Transaction))
| ESaveTransactionBillingData (id : Z) (bd : BillingData) (r : result unit)
| EGetTenant (id : string) (r : result (option Tenant))
| ENotify (invoiceID : string) (u : User) (payload : NewInvoiceNotification)
| ELog (entry : LogEntry).

(** An asynchronous computation over the world [W] of the collaborators:
    it returns or throws, leaves a new world, and emits a trace. *)
Definition Prog (W A : Type) : Type := W -> result A * W * list Event.

Section Prog.
Context {W : Type}.

Definition ret {A} (a : A) : Prog W A := fun w => (Ok a, w, []).

Definition throw {A} (e : error) : Prog W A := fun w => (Throw e, w, []).

Definition bind {A B} (m : Prog W A) (k : A -> Prog W B) : Prog W B :=
  fun w =>
    match m w with
    | (Ok a, w1, t1) => let '(r, w2, t2) := k a w1 in (r, w2, t1 ++ t2)
    | (Throw e, w1, t1) => (Throw e, w1, t1)
    end.

(** [try { m } catch (error) { h error }] *)
Definition try_catch {A} (m : Prog W A) (h : error -> Prog W A) : Prog W A :=
  fun w =>
    match m w with
    | (Ok a, w1, t1) => (Ok a, w1, t1)
    | (Throw e, w1, t1) => let '(r, w2, t2) := h e w1 in (r, w2, t1 ++ t2)
    end.

(** A call into a collaborator, recorded in the trace. *)
Definition call {A} (ev : result A -> Event) (op : W -> result A * W)
  : Prog W A :=
  fun w => let '(r, w1) := op w in (r, w1, [ev r]).

(** A synchronous helper that may throw. *)
Definition lift {A} (r : result A) : Prog W A := fun w => (r, w, []).

(** Dereferencing a reference that may be null. *)
Definition deref {A} (what : string) (x : option A) : Prog W A :=
  match x with
  | Some a => ret a
  | None => throw (TypeError ("Cannot read properties of undefined: " +:+ what))
  end.

(** [error.stack], as every logging handler of the class reads it while
    it builds the log entry: reading a member of [null] or [undefined]
    throws. *)
Definition stackError : error :=
  TypeError "Cannot read properties of undefined: stack".

Definition stack (e : error) : Prog W error :=
  match e with
  | Nullish => throw stackError
  | _ => ret e
  end.

Definition emit (e : Event) : Prog W unit := fun w => (Ok tt, w, [e]).

Definition read {A} (f : W -> A) : Prog W A := fun w => (Ok (f w), w, []).

End Prog.

Declare Scope prog_scope.
Delimit Scope prog_scope with prog.
Notation "x <- m ;; k" := (bind m (fun x => k))
  (at level 100, m at next level, right associativity) : prog_scope.
Notation "m ;; k" := (bind m (fun _ => k))
  (at level 100, right associativity) : prog_scope.
Open Scope prog_scope.

Section Loops.
Context {W : Type}.

(** [for (const x of l) { body }] over the loop-carried variables [s]. *)
Fixpoint forEach {A S} (body : A -> S -> Prog W S) (l : list A) (s : S)
  : Prog W S :=
  match l with
  | [] => ret s
  | x :: l' => s1 <- body x s ;; forEach body l' s1
  end.

(** [Promise.all(tasks)] over closures that have all been started:
    every one of them runs to its end whether or not another one
    rejects, and the aggregate rejects with the rejection of the first
    of them that rejects.  The closures are run here one after the
    other, in array order, each to its end; the scheduler of JavaScript
    interleaves them at their awaits.  What is proved of such runs is
    stated on the calls of the trace, whatever their order across
    closures, and on the order of the fetches, which are issued in
    array order under either schedule. *)
Fixpoint promiseAll {A} (tasks : list (Prog W A)) : Prog W (list A) :=
  fun w =>
    match tasks with
    | [] => (Ok [], w, [])
    | t :: ts =>
        let '(r, w1, t1) := t w in
        let '(rs, w2, t2) := promiseAll ts w1 in
        (match r, rs with
         | Ok a, Ok l => Ok (a :: l)
         | Throw e, _ => Throw e
         | Ok _, Throw e => Throw e
         end, w2, t1 ++ t2)
    end.

End Loops.

(* ===================================================================== *)
(** * Collaborators *)
(* ===================================================================== *)

(** The abstract methods a billing vendor implements, the stores, the
    notification framework, the clock and the helpers of [Utils] and
    [Constants]; none of them is defined by the class.  Each operation
    may change the world in any way and may reject with any error. *)
Class Environment (W : Type) := {
  checkConnection : W -> result unit * W;
  getUser : User -> W -> result (option BillingUser) * W;
  createUser : User -> W -> result (option BillingUser) * W;
  updateUser : User -> W -> result (option BillingUser) * W;
  repairUser : User -> W -> result (option BillingUser) * W;
  isUserSynchronized : User -> W -> result bool * W;
  chargeInvoice : BillingInvoice -> W -> result BillingInvoice * W;
  BillingStorage_getInvoices :
    Tenant -> InvoiceFilter -> DbParams -> W ->
    result (DataResult BillingInvoice) * W;
  BillingStorage_deleteInvoice : Tenant -> string -> W -> result unit * W;
  TransactionStorage_getTransaction :
    Tenant -> Z -> W -> result (option Transaction) * W;
  TransactionStorage_saveTransactionBillingData :
    Tenant -> Z -> BillingData -> W -> result unit * W;
  TenantStorage_getTenant : string -> W -> result (option Tenant) * W;
  NotificationHandler_sendBillingNewInvoiceNotification :
    Tenant -> string -> User -> NewInvoiceNotification -> W -> W;
  (** [moment()] and [new Date()] *)
  now : W -> DateTime;
  Utils_isDevelopmentEnv : bool;
  Utils_isTenantComponentActive : Tenant -> TenantComponents -> bool;
  Utils_convertLocaleForCurrency : string -> string;
  Utils_buildEvseBillingInvoicesURL : string -> string;
  Utils_buildEvseURL : string -> string;
  Utils_buildEvseBillingDownloadInvoicesURL : string -> string -> string;
  (** [new Intl.NumberFormat(locale, { style: 'currency', currency }).format(x)] *)
  Intl_formatCurrency : string -> string -> Q -> result string;
  Constants_BATCH_PAGE_SIZE : Z;
  Constants_DB_PARAMS_MAX_LIMIT : DbParams
}.

(** Modelled from the spec: [Utils.isEmptyArray], not part of the sources
    at hand ("stop when a page is empty"). *)
Definition Utils_isEmptyArray {A} (l : list A) : bool :=
  match l with [] => true | _ => false end.

Definition upperChar (c : Ascii.ascii) : Ascii.ascii :=
  let n := Ascii.nat_of_ascii c in
  if ((97 <=? n) && (n <=? 122))%nat then Ascii.ascii_of_nat (n - 32) else c.

(** [String.prototype.toUpperCase] on ASCII text. *)
Fixpoint toUpperCase (s : string) : string :=
  match s with
  | EmptyString => EmptyString
  | String c s' => String (upperChar c) (toUpperCase s')
  end.

(** Modelled from the spec: [Logging] is not part of the sources at hand.
    The specification has failures "logged" and relies on nothing else
    of the logger: [logInfo], [logWarning] and [logError] append their
    entry to the log and resolve. *)
Definition Logging_log {W} (level : LogLevel) (action : ServerAction)
    (method message : string) (detail : option error) : Prog W unit :=
  emit (ELog (mkLog level action method message detail)).

Definition Qlt_bool (x y : Q) : bool := negb (Qle_bool y x).

(** [transaction?.billingData?.stop], with the objects on the way to it. *)
Definition populatedStop (transaction : option Transaction)
  : option (Transaction * BillingData * BillingDataTransactionStop) :=
  match transaction with
  | Some t =>
      match billingData t with
      | Some bd =>
          match bd_stop bd with
          | Some st => Some (t, bd, st)
          | None => None
          end
      | None => None
      end
  | None => None
  end.

(* ===================================================================== *)
(** * The class *)
(* ===================================================================== *)

Section BillingIntegration.
Context {W : Type} `{Environment W}.
Variable this : Integration.

(** ** _synchronizeUser (declared after its callers in the source) *)
Definition _synchronizeUser (user : User) (forceMode : bool)
  : Prog W (option BillingUser) :=
  if negb forceMode then
    exists_ <- call (EIsUserSynchronized user) (isUserSynchronized user) ;;
    if negb exists_ then
      call (ECreateUser user) (createUser user)
    else
      call (EUpdateUser user) (updateUser user)
  else
    try_catch
      (billingUser <- call (EGetUser user) (getUser user) ;;
       if negb (Js.truthy_ref billingUser) then
         call (ECreateUser user) (createUser user)
       else
         call (EUpdateUser user) (updateUser user))
      (fun error =>
         (* Let's repair it *)
         call (ERepairUser user) (repairUser user)).

(** ** synchronizeUser

    [billingUser] is still [null] when the handler runs: the only
    statement of the try block that can reject is the right-hand side
    of its assignment.  The handler reads [error.stack] for the entry
    it logs. *)
Definition synchronizeUser (user : User) : Prog W (option BillingUser) :=
  try_catch
    (billingUser <- _synchronizeUser user false ;;
     Logging_log LogInfo BILLING_SYNCHRONIZE_USER "synchronizeUser"
       ("Successfully synchronized user: '" +:+ user_id user +:+ "' - '"
          +:+ user_email user +:+ "'") None ;;
     ret billingUser)
    (fun error =>
       detail <- stack error ;;
       Logging_log LogError BILLING_SYNCHRONIZE_USER "synchronizeUser"
         ("Failed to synchronize user: '" +:+ user_id user +:+ "' - '"
            +:+ user_email user +:+ "'") (Some detail) ;;
       ret None).

(** ** forceSynchronizeUser *)
Definition forceSynchronizeUser (user : User) : Prog W (option BillingUser) :=
  try_catch
    (billingUser <- _synchronizeUser user true (* !forceMode *) ;;
     let oldID := Js.member (user_billingData user) customerID in
     let newID :=
       Js.member (Js.chain billingUser bu_billingData) customerID in
     (if Js.strict_neq oldID newID then
        Logging_log LogWarning BILLING_FORCE_SYNCHRONIZE_USER
          "forceSynchronizeUser"
          ("CustomerID has been repaired - old value " +:+ Js.show oldID
             +:+ " - " +:+ Js.show newID) None
      else ret tt) ;;
     Logging_log LogInfo BILLING_FORCE_SYNCHRONIZE_USER "forceSynchronizeUser"
       ("Successfully forced the synchronization of user: '"
          +:+ user_id user +:+ "' - '" +:+ user_email user +:+ "'") None ;;
     ret billingUser)
    (fun error =>
       detail <- stack error ;;
       Logging_log LogError BILLING_FORCE_SYNCHRONIZE_USER
         "forceSynchronizeUser"
         ("Failed to force the synchronization of user: '"
            +:+ user_id user +:+ "' - '" +:+ user_email user +:+ "'")
         (Some detail) ;;
       ret None).

(** ** isInvoiceOutOfPeriodicOperationScope *)
Definition isInvoiceOutOfPeriodicOperationScope (invoice : BillingInvoice)
  : bool :=
  match status invoice with
  | DRAFT => if periodicBillingAllowed (billing (settings this)) then false
             else true
  | OPEN => false
  | _ => true
  end.

(** ** preparePeriodicBillingQueryParameters; [today] is [moment()]. *)
Definition preparePeriodicBillingQueryParameters (today : DateTime)
    (forceOperation : bool) : QueryParameters :=
  let '(limit, startDateTime, endDateTime) :=
    if forceOperation then
      (* Only used when running tests *)
      (1, startOfDay today, endOfDay today)
    else
      (* Used once a month *)
      (Constants_BATCH_PAGE_SIZE,
       startOfDay (date 1 (date 0 today)),
       startOfDay (date 1 today)) in
  let invoiceStatus :=
    if periodicBillingAllowed (billing (settings this)) then [DRAFT; OPEN]
    else [OPEN] in
  {| qp_filter := {| startDateTime := Some startDateTime;
                     endDateTime := Some endDateTime;
                     f_invoiceStatus := invoiceStatus;
                     f_liveMode := None |};
     qp_limit := limit;
     qp_sort := {| sort_field := "createdOn"; sort_direction := 1 |} |}.

(** ** chargeInvoices *)

(** The loop-carried variables of chargeInvoices. *)
Record ChargeState := mkChargeState {
  skip : Z;
  actionsDone : BillingChargeInvoiceAction
}.

Definition success (st : ChargeState) : ChargeState :=
  mkChargeState (skip st)
    (mkAction (inSuccess (actionsDone st) + 1) (inError (actionsDone st))).

Definition failure (st : ChargeState) : ChargeState :=
  mkChargeState (skip st)
    (mkAction (inSuccess (actionsDone st)) (inError (actionsDone st) + 1)).

Definition compensate (st : ChargeState) : ChargeState :=
  mkChargeState (skip st - 1) (actionsDone st).

(** The body of the inner [for] loop.  The call to [chargeInvoice] is
    the only statement of the try block that can reject, and it comes
    before every assignment to the counters: the handler finds them as
    they were on entry.  The handler counts the failure and then reads
    [error.stack] for the entry it logs; what it throws leaves the loops
    and the function. *)
Definition chargeInvoices_body (forceOperation : bool)
    (invoice : BillingInvoice) (st : ChargeState) : Prog W ChargeState :=
  try_catch
    (if isInvoiceOutOfPeriodicOperationScope invoice then
       ret st (* continue *)
     else
       today <- read now ;;
       if negb forceOperation && isSameDay (createdOn invoice) today then
         Logging_log LogWarning BILLING_PERFORM_OPERATIONS "chargeInvoices"
           ("Invoice is too new - Operation has been skipped - '"
              +:+ invoice_id invoice +:+ "'") None ;;
         ret (success st) (* continue *)
       else
         newInvoice <- call (EChargeInvoice invoice) (chargeInvoice invoice) ;;
         let st1 :=
           if isInvoiceOutOfPeriodicOperationScope newInvoice then
             compensate st (* skip--; This is very important! *)
           else st in
         Logging_log LogInfo BILLING_PERFORM_OPERATIONS "chargeInvoices"
           ("Successfully charged invoice '" +:+ invoice_id invoice +:+ "'")
           None ;;
         ret (success st1))
    (fun error =>
       let st1 := failure st (* actionsDone.inError++ *) in
       detail <- stack error ;;
       Logging_log LogError BILLING_PERFORM_OPERATIONS "chargeInvoices"
         ("Failed to charge invoice '" +:+ invoice_id invoice +:+ "'")
         (Some detail) ;;
       ret st1).

(** The [while (true)] loop; [None] when [fuel] pages were not enough
    to reach the [break]. *)
Fixpoint chargeInvoices_loop (fuel : nat) (forceOperation : bool)
    (q : QueryParameters) (st : ChargeState) : Prog W (option ChargeState) :=
  match fuel with
  | O => ret None
  | S fuel' =>
      let params := mkDbParams (Some (qp_sort q)) (qp_limit q) (skip st) in
      invoices <- call (EGetInvoices (qp_filter q) params)
                    (BillingStorage_getInvoices (tenant this) (qp_filter q)
                       params) ;;
      if Utils_isEmptyArray (dr_result invoices) then
        ret (Some st) (* break *)
      else
        st1 <- forEach (chargeInvoices_body forceOperation)
                 (dr_result invoices)
                 (mkChargeState (skip st + qp_limit q) (actionsDone st)) ;;
        chargeInvoices_loop fuel' forceOperation q st1
  end.

Definition chargeInvoices_run (fuel : nat) (forceOperation : bool)
  : Prog W (option ChargeState) :=
  (* Check connection *)
  call ECheckConnection checkConnection ;;
  (* Prepare filtering and sorting *)
  today <- read now ;;
  chargeInvoices_loop fuel forceOperation
    (preparePeriodicBillingQueryParameters today forceOperation)
    (mkChargeState 0 (mkAction 0 0)).

Definition chargeInvoices (fuel : nat) (forceOperation : bool)
  : Prog W (option BillingChargeInvoiceAction) :=
  st <- chargeInvoices_run fuel forceOperation ;;
  ret (actionsDone <$> st).

(** ** sendInvoiceNotification

    The result is [None] when the function runs off its end without a
    [return] (JavaScript's [undefined]).  The dispatch is not awaited
    ([void]): it is recorded and cannot reject into the try block. *)
Definition sendInvoiceNotification (billingInvoice : BillingInvoice)
  : Prog W (option bool) :=
  try_catch
    (* Do not send notifications for invoices that are not yet finalized! *)
    (match status billingInvoice with
     | OPEN | PAID =>
         tenant_ <- call (EGetTenant (tenant_id (tenant this)))
                      (TenantStorage_getTenant (tenant_id (tenant this))) ;;
         (* Stripe saves amount in cents *)
         let invoiceAmountAsDecimal : Q := Qmake (amount billingInvoice) 100 in
         (* Format amount with currency symbol depending on locale *)
         user <- deref "locale" (invoice_user billingInvoice) ;;
         currency_ <- deref "toUpperCase" (currency billingInvoice) ;;
         invoiceAmount <-
           lift (Intl_formatCurrency
                   (Utils_convertLocaleForCurrency (user_locale user))
                   (toUpperCase currency_) invoiceAmountAsDecimal) ;;
         (* Send async notification *)
         tenant_ <- deref "subdomain" tenant_ ;;
         let payload :=
           {| n_user := user;
              evseDashboardInvoiceURL :=
                Utils_buildEvseBillingInvoicesURL (subdomain tenant_);
              evseDashboardURL := Utils_buildEvseURL (subdomain tenant_);
              invoiceDownloadUrl :=
                Utils_buildEvseBillingDownloadInvoicesURL (subdomain tenant_)
                  (invoice_id billingInvoice);
              payInvoiceUrlShown :=
                match status billingInvoice with
                | OPEN => payInvoiceUrl billingInvoice
                | _ => ""
                end;
              invoiceAmount := invoiceAmount;
              n_invoiceNumber := number billingInvoice;
              n_invoiceStatus := status billingInvoice |} in
         (fun w =>
            (Ok tt,
             NotificationHandler_sendBillingNewInvoiceNotification
               (tenant this) (invoice_id billingInvoice) user payload w,
             [ENotify (invoice_id billingInvoice) user payload])) ;;
         (* Needed only for testing *)
         ret (Some true)
     | _ => ret None
     end)
    (fun error =>
       detail <- stack error ;;
       Logging_log LogError BILLING_TRANSACTION "sendInvoiceNotification"
         ("Failed to send notification for invoice '"
            +:+ invoice_id billingInvoice +:+ "'") (Some detail) ;;
       ret (Some false)).

(** ** checkBillTransaction *)
Definition checkBillTransaction (transaction : Transaction) : result unit :=
  (* Check User *)
  if negb (Js.truthy_string (userID transaction))
     || negb (Js.truthy_ref (transaction_user transaction)) then
    Throw (BackendError "User is not provided" "checkBillTransaction"
             BILLING_TRANSACTION)
  (* Check Charging Station *)
  else if negb (Js.truthy_ref (chargeBox transaction)) then
    Throw (BackendError "Charging Station is not provided"
             "checkBillTransaction" BILLING_TRANSACTION)
  (* Check Billing Data *)
  else if negb (Js.truthy
                  (Js.member (Js.chain (transaction_user transaction)
                                user_billingData) customerID)) then
    Throw (BackendError "User has no Billing Data" "checkBillTransaction"
             BILLING_TRANSACTION)
  else Ok tt.

(** ** checkStartTransaction *)
Definition checkStartTransaction (transaction : Transaction)
    (chargingStation : option ChargingStation) (siteArea : option SiteArea)
  : result bool :=
  if negb (isTransactionBillingActivated (billing (settings this))) then
    Ok false
  (* Check User *)
  else if negb (Js.truthy_string (userID transaction))
          || negb (Js.truthy_ref (transaction_user transaction)) then
    Throw (BackendError "User ID is not provided" "checkStartTransaction"
             BILLING_TRANSACTION)
  else
    match transaction_user transaction with
    | None => Throw (TypeError "Cannot read properties of undefined: freeAccess")
    | Some user =>
        (* Check Free Access *)
        if freeAccess user then Ok false
        else if negb (Js.truthy_ref chargingStation) then
          Throw (BackendError
                   "The Charging Station is mandatory to start a Transaction"
                   "checkStartTransaction" BILLING_TRANSACTION)
        else
          let checkBillingData : result bool :=
            (* Check Billing Data *)
            if negb (Js.truthy
                       (Js.member (user_billingData user) customerID)) then
              Throw (BackendError "User has no Billing data or no Customer ID"
                       "checkStartTransaction" BILLING_TRANSACTION)
            else Ok true in
          if Utils_isTenantComponentActive (tenant this) ORGANIZATION then
            (* Check for the Site Area *)
            match siteArea with
            | None =>
                Throw (BackendError
                         "The Site Area is mandatory to start a Transaction"
                         "checkStartTransaction" BILLING_TRANSACTION)
            | Some siteArea =>
                if negb (accessControl siteArea) then Ok false
                else checkBillingData
            end
          else checkBillingData
    end.

(** ** updateTransactionsBillingData *)

(** The three assignments to [transaction.billingData]. *)
Definition mirrorInvoice (billingInvoice : BillingInvoice) (today : DateTime)
    (bd : BillingData) (st : BillingDataTransactionStop) : BillingData :=
  {| withBillingActive := withBillingActive bd;
     lastUpdate := today;
     bd_stop := Some {| bds_status := bds_status st;
                        invoiceID := invoiceID st;
                        invoiceNumber := Some (number billingInvoice);
                        invoiceStatus := Some (status billingInvoice) |} |}.

(** The asynchronous closure mapped over the sessions. *)
Definition updateTransactionsBillingData_session
    (billingInvoice : BillingInvoice) (session : BillingSession)
  : Prog W unit :=
  let transactionID := transactionID session in
  try_catch
    (transaction <- call (EGetTransaction transactionID)
                      (TransactionStorage_getTransaction (tenant this)
                         transactionID) ;;
     (* Update Billing Data *)
     match populatedStop transaction with
     | Some (transaction, bd, st) =>
         today <- read now ;;
         let bd' := mirrorInvoice billingInvoice today bd st in
         (* Save *)
         call (ESaveTransactionBillingData (transaction_id transaction) bd')
           (TransactionStorage_saveTransactionBillingData (tenant this)
              (transaction_id transaction) bd')
     | None => ret tt
     end)
    (fun error =>
       (* Catch stripe errors and send the information back to the client *)
       detail <- stack error ;;
       Logging_log LogError BILLING_CHARGE_INVOICE
         "updateTransactionsBillingData"
         ("Failed to update Transaction Billing data of Transaction ID '"
            +:+ pretty transactionID +:+ "'") (Some detail)).

Definition updateTransactionsBillingData (billingInvoice : BillingInvoice)
  : Prog W unit :=
  match sessions billingInvoice with
  | None =>
      (* This should not happen - but it happened once! *)
      throw (JsError ("Unexpected situation - Invoice ID '"
                        +:+ invoice_id billingInvoice
                        +:+ "' has no sessions attached to it"))
  | Some sessions =>
      promiseAll
        (map (updateTransactionsBillingData_session billingInvoice) sessions) ;;
      ret tt
  end.

(** ** computeTimeSpentInSeconds: milliseconds over 1000 *)
Definition computeTimeSpentInSeconds (transaction : Transaction) : result Q :=
  match stop transaction with
  | None =>
      match lastConsumption transaction with
      | Some c =>
          Ok (Qmake (consumption_timestamp c - timestamp transaction) 1000)
      | None => Throw (TypeError "Cannot read properties of undefined: timestamp")
      end
  | Some s => Ok (Qmake (stop_timestamp s - timestamp transaction) 1000)
  end.

(** ** checkBillingDataThreshold *)
Definition checkBillingDataThreshold (transaction : Transaction)
  : Prog W bool :=
  (* Do not bill suspicious StopTransaction events *)
  if negb Utils_isDevelopmentEnv then
    timeSpent <- lift (computeTimeSpentInSeconds transaction) ;;
    suspicious <-
      (if Qlt_bool timeSpent (inject_Z 60) (* seconds *) then ret true
       else
         stop_ <- deref "totalConsumptionWh" (stop transaction) ;;
         ret (totalConsumptionWh stop_ <? 1000) (* 1kWh *)) ;;
    if suspicious : bool then
      Logging_log LogWarning BILLING_TRANSACTION "stopTransaction"
        ("Transaction data is suspicious - Billing operation has been aborted for Transaction ID '"
           +:+ pretty (transaction_id transaction) +:+ "'") None ;;
      (* Abort the billing process - thresholds are not met! *)
      ret false
    else
      (* billing data sounds correct *)
      ret true
  else
    ret true.

(** ** clearTransactionsTestData *)
Definition clearTransactionsTestData_session (session : BillingSession)
  : Prog W unit :=
  let transactionID := transactionID session in
  try_catch
    (transaction <- call (EGetTransaction transactionID)
                      (TransactionStorage_getTransaction (tenant this)
                         transactionID) ;;
     (* Update Billing Data *)
     let stop_ := {| bds_status := Some UNBILLED;
                     invoiceID := None;
                     invoiceNumber := None;
                     invoiceStatus := None |} in
     today <- read now ;;
     transaction <- deref "billingData" transaction ;;
     let bd := {| withBillingActive := false;
                  lastUpdate := today;
                  bd_stop := Some stop_ |} in
     (* Save to clear billing data *)
     call (ESaveTransactionBillingData (transaction_id transaction) bd)
       (TransactionStorage_saveTransactionBillingData (tenant this)
          (transaction_id transaction) bd))
    (fun error =>
       detail <- stack error ;;
       Logging_log LogError BILLING_TEST_DATA_CLEANUP
         "clearTransactionsTestData"
         "Failed to clear transaction Billing data" (Some detail)).

Definition clearTransactionsTestData (billingInvoice : BillingInvoice)
  : Prog W unit :=
  sessions <- deref "map" (sessions billingInvoice) ;;
  promiseAll (map clearTransactionsTestData_session sessions) ;;
  ret tt.

(** ** clearInvoiceTestData *)
Definition clearInvoiceTestData (billingInvoice : BillingInvoice)
  : Prog W unit :=
  if liveMode billingInvoice then
    throw (BackendError
             "Unexpected situation - Attempt to clear an invoice with live Billing data"
             "clearInvoiceTestData" BILLING_TEST_DATA_CLEANUP)
  else
    clearTransactionsTestData billingInvoice ;;
    call (EDeleteInvoice (invoice_id billingInvoice))
      (BillingStorage_deleteInvoice (tenant this) (invoice_id billingInvoice)).

(** ** clearAllInvoiceTestData *)

(** The body of its [for] loop. *)
Definition clearAllInvoiceTestData_body (invoice : BillingInvoice) (_ : unit)
  : Prog W unit :=
  try_catch
    (clearInvoiceTestData invoice ;;
     Logging_log LogInfo BILLING_TEST_DATA_CLEANUP "clearAllInvoiceTestData"
       ("Successfully clear test data for invoice '"
          +:+ invoice_id invoice +:+ "'") None)
    (fun error =>
       detail <- stack error ;;
       Logging_log LogError BILLING_TEST_DATA_CLEANUP
         "clearAllInvoiceTestData"
         ("Failed to clear invoice test data - Invoice: '"
            +:+ invoice_id invoice +:+ "'") (Some detail)).

Definition testDataFilter : InvoiceFilter :=
  {| startDateTime := None; endDateTime := None;
     f_invoiceStatus := []; f_liveMode := Some false |}.

Definition clearAllInvoiceTestData : Prog W unit :=
  invoices <- call (EGetInvoices testDataFilter Constants_DB_PARAMS_MAX_LIMIT)
                (BillingStorage_getInvoices (tenant this) testDataFilter
                   Constants_DB_PARAMS_MAX_LIMIT) ;;
  (* Let's now finalize all invoices and attempt to get it paid *)
  forEach clearAllInvoiceTestData_body (dr_result invoices) tt.

End BillingIntegration.

(* ===================================================================== *)
(** * An in-memory environment *)
(* ===================================================================== *)

(** A small provider and store living in memory, used to run the class on
    concrete data.  Invoices are kept in creation order; the provider
    knows a list of customer identities and settles an invoice by marking
    it PAID, unless the invoice has no currency. *)
Module Memory.

Record World := mkWorld {
  invoices : list BillingInvoice;
  transactions : gmap Z Transaction;
  customers : list string;
  clock : DateTime;
  online : bool;
  storeUp : bool
}.

Definition unreachable : error := ExternalError "provider" "unreachable".
Definition storeDown : error := ExternalError "store" "connection lost".
Definition noSuchCustomer : error := ExternalError "provider" "No such customer".

Definition known (w : World) (u : User) : bool :=
  match Js.member (user_billingData u) customerID with
  | Js.Value c => bool_decide (c ∈ customers w)
  | _ => false
  end.

Definition asBillingUser (u : User) (c : string) : BillingUser :=
  mkBillingUser (user_id u) (Some (mkBillingUserData (Js.Value c) false)).

Definition addCustomer (c : string) (w : World) : World :=
  mkWorld (invoices w) (transactions w) (c :: customers w) (clock w)
    (online w) (storeUp w).

Definition lookupCustomer (u : User) (w : World) : result (option BillingUser) * World :=
  match Js.member (user_billingData u) customerID with
  | Js.Value c =>
      if bool_decide (c ∈ customers w) then (Ok (Some (asBillingUser u c)), w)
      else (Throw noSuchCustomer, w)
  | _ => (Ok None, w)
  end.

Definition newCustomer (u : User) (w : World) : result (option BillingUser) * World :=
  if online w then
    let c := "cus_" +:+ user_id u in
    (Ok (Some (asBillingUser u c)), addCustomer c w)
  else (Throw unreachable, w).

Definition refreshCustomer (u : User) (w : World) : result (option BillingUser) * World :=
  match Js.member (user_billingData u) customerID with
  | Js.Value c =>
      if bool_decide (c ∈ customers w) then (Ok (Some (asBillingUser u c)), w)
      else (Throw noSuchCustomer, w)
  | _ => (Throw noSuchCustomer, w)
  end.

Definition setStatus (s : BillingInvoiceStatus) (i : BillingInvoice)
  : BillingInvoice :=
  mkBillingInvoice (invoice_id i) (invoice_user i) (liveMode i) s
    (createdOn i) (sessions i) (amount i) (currency i) (number i)
    (payInvoiceUrl i).

Definition settle (i : BillingInvoice) (w : World)
  : result BillingInvoice * World :=
  match currency i with
  | None => (Throw (ExternalError "provider" "missing currency"), w)
  | Some _ =>
      let paid := setStatus PAID i in
      (Ok paid,
       mkWorld
         (map (fun j => if String.eqb (invoice_id j) (invoice_id i)
                        then paid else j) (invoices w))
         (transactions w) (customers w) (clock w) (online w) (storeUp w))
  end.

Definition statusEqb (a b : BillingInvoiceStatus) : bool :=
  match a, b with
  | DRAFT, DRAFT | OPEN, OPEN | PAID, PAID => true
  | OtherInvoiceStatus x, OtherInvoiceStatus y => String.eqb x y
  | _, _ => false
  end.

Definition stamp (d : DateTime) : list Z :=
  [year d; month d; day d; hour d; minute d; second d; millisecond d].

Fixpoint lexLeb (a b : list Z) : bool :=
  match a, b with
  | x :: a', y :: b' => (x <? y) || ((x =? y) && lexLeb a' b')
  | _, _ => true
  end.

Definition matches (f : InvoiceFilter) (i : BillingInvoice) : bool :=
  match f_invoiceStatus f with
  | [] => true
  | l => existsb (statusEqb (status i)) l
  end
  && match f_liveMode f with
     | Some b => Bool.eqb b (liveMode i)
     | None => true
     end
  && match startDateTime f with
     | Some d => lexLeb (stamp d) (stamp (createdOn i))
     | None => true
     end
  && match endDateTime f with
     | Some d => lexLeb (stamp (createdOn i)) (stamp d)
     | None => true
     end.

Definition getInvoices (_ : Tenant) (f : InvoiceFilter) (p : DbParams)
    (w : World) : result (DataResult BillingInvoice) * World :=
  if storeUp w then
    let hits := List.filter (matches f) (invoices w) in
    (Ok (mkDataResult (Z.of_nat (length hits))
           (take (Z.to_nat (Z.min (p_limit p) (Z.of_nat (length hits))))
              (drop (Z.to_nat (p_skip p)) hits))),
     w)
  else (Throw storeDown, w).

Definition deleteInvoice (_ : Tenant) (id : string) (w : World)
  : result unit * World :=
  (Ok tt,
   mkWorld
     (List.filter (fun j => negb (String.eqb (invoice_id j) id)) (invoices w))
     (transactions w) (customers w) (clock w) (online w) (storeUp w)).

Definition getTransaction (_ : Tenant) (id : Z) (w : World)
  : result (option Transaction) * World :=
  if storeUp w then (Ok (transactions w !! id), w) else (Throw storeDown, w).

Definition setBillingData (bd : BillingData) (t : Transaction) : Transaction :=
  mkTransaction (transaction_id t) (userID t) (transaction_user t)
    (chargeBox t) (timestamp t) (stop t) (lastConsumption t) (Some bd).

Definition saveTransactionBillingData (_ : Tenant) (id : Z) (bd : BillingData)
    (w : World) : result unit * World :=
  if storeUp w then
    (Ok tt,
     mkWorld (invoices w) (alter (setBillingData bd) id (transactions w))
       (customers w) (clock w) (online w) (storeUp w))
  else (Throw storeDown, w).

Definition theTenant : Tenant := mkTenant "tenant-1" "demo".

Definition twoDigits (n : Z) : string :=
  if n <? 10 then "0" +:+ pretty n else pretty n.

(** A stand-in for [Intl.NumberFormat], which renders by locale: the
    amount with its sign and two decimals, after the currency code; the
    code must have three letters. *)
Definition formatCurrency (_ : string) (code : string) (q : Q) : result string :=
  if (String.length code =? 3)%nat then
    let cents := Z.quot (Qnum q * 100) (Zpos (Qden q)) in
    let units := Z.abs cents in
    Ok ((if cents <? 0 then "-" else "") +:+ code +:+ " "
          +:+ pretty (units / 100) +:+ "." +:+ twoDigits (units mod 100))
  else Throw (JsError "RangeError: Invalid currency code").

(** A production deployment with the organization component active. *)
#[export] Instance env : Environment World := {|
  checkConnection := fun w =>
    if online w then (Ok tt, w) else (Throw unreachable, w);
  getUser := lookupCustomer;
  createUser := newCustomer;
  updateUser := refreshCustomer;
  repairUser := newCustomer;
  isUserSynchronized := fun u w => (Ok (known w u), w);
  chargeInvoice := settle;
  BillingStorage_getInvoices := getInvoices;
  BillingStorage_deleteInvoice := deleteInvoice;
  TransactionStorage_getTransaction := getTransaction;
  TransactionStorage_saveTransactionBillingData := saveTransactionBillingData;
  TenantStorage_getTenant := fun _ w => (Ok (Some theTenant), w);
  NotificationHandler_sendBillingNewInvoiceNotification :=
    fun _ _ _ _ w => w;
  now := clock;
  Utils_isDevelopmentEnv := false;
  Utils_isTenantComponentActive := fun _ _ => true;
  Utils_convertLocaleForCurrency := fun l => l;
  Utils_buildEvseBillingInvoicesURL := fun s => "https://" +:+ s +:+ "/invoices";
  Utils_buildEvseURL := fun s => "https://" +:+ s;
  Utils_buildEvseBillingDownloadInvoicesURL :=
    fun s id => "https://" +:+ s +:+ "/invoices/" +:+ id +:+ "/download";
  Intl_formatCurrency := formatCurrency;
  Constants_BATCH_PAGE_SIZE := 256;
  Constants_DB_PARAMS_MAX_LIMIT := mkDbParams None 9007199254740991 0
|}.

(** ** Sample data *)

Definition this : Integration :=
  mkIntegration theTenant (mkBillingSettings (mkBillingSetting true false)).

Definition alice : User :=
  mkUser "u1" "alice@example.org" "en-US" false
    (Some (mkBillingUserData (Js.Value "cus_alice") false)).

(** An account whose provider identity no longer exists on the
    provider's side. *)
Definition bob : User :=
  mkUser "u2" "bob@example.org" "fr-FR" false
    (Some (mkBillingUserData (Js.Value "cus_gone") false)).

Definition noon (y m d : Z) : DateTime := mkDateTime y m d 12 0 0 0.

Definition invoice (id : string) (live : bool) (s : BillingInvoiceStatus)
    (on : DateTime) (ss : list Z) (a : Z) : BillingInvoice :=
  mkBillingInvoice id (Some alice) live s on
    (Some (map mkBillingSession ss)) a (Some "eur") ("N-" +:+ id)
    ("https://pay.example.org/" +:+ id).

Definition billed : BillingData :=
  mkBillingData true (noon 2026 9 1)
    (Some (mkBillingDataTransactionStop None (Some "in_1") None None)).

Definition started : BillingData := mkBillingData true (noon 2026 9 1) None.

Definition session (id : Z) (ms wh : Z) (bd : option BillingData) : Transaction :=
  mkTransaction id (Some "u1") (Some alice) (Some (mkChargingStation "cs1"))
    0 (Some (mkTransactionStop ms wh)) None bd.

(** 120 s and 2 kWh, billed; 30 s and 0.5 kWh, not billed yet. *)
Definition longSession : Transaction := session 1 120000 2000 (Some billed).
Definition shortSession : Transaction := session 2 30000 500 (Some started).

Definition in1 : BillingInvoice :=
  invoice "in_1" false OPEN (noon 2026 9 3) [1; 2; 3] 1050.
Definition in2 : BillingInvoice :=
  invoice "in_2" true OPEN (noon 2026 9 4) [4] 2000.
Definition in3 : BillingInvoice :=
  invoice "in_3" false OPEN (noon 2026 9 5) [] 300.
Definition draft : BillingInvoice :=
  invoice "in_4" false DRAFT (noon 2026 9 6) [] 1050.

Definition world : World :=
  {| invoices := [in1; in2; in3];
     transactions :=
       list_to_map [ (1, longSession); (2, shortSession);
                     (4, session 4 120000 2000 (Some billed)) ];
     customers := ["cus_alice"];
     clock := noon 2026 10 2;
     online := true;
     storeUp := true |}.

Definition offline : World :=
  mkWorld (invoices world) (transactions world) (customers world)
    (clock world) false true.

Definition storeless : World :=
  mkWorld (invoices world) (transactions world) (customers world)
    (clock world) true false.

End Memory.

(* ===================================================================== *)
(** * Observations on traces *)
(* ===================================================================== *)

Definition isCreate (e : Event) : bool :=
  match e with ECreateUser _ _ => true | _ => false end.

Definition isUpdate (e : Event) : bool :=
  match e with EUpdateUser _ _ => true | _ => false end.

Definition isRepair (e : Event) : bool :=
  match e with ERepairUser _ _ => true | _ => false end.

Definition isErrorLog (e : Event) : bool :=
  match e with
  | ELog l => match log_level l with LogError => true | _ => false end
  | _ => false
  end.

Definition count (p : Event -> bool) (t : list Event) : nat :=
  length (List.filter p t).

(** The three components of a run. *)
Definition outcome {W A} (x : result A * W * list Event) : result A := x.1.1.
Definition final {W A} (x : result A * W * list Event) : W := x.1.2.
Definition trace {W A} (x : result A * W * list Event) : list Event := x.2.

Definition isSave (e : Event) : bool :=
  match e with ESaveTransactionBillingData _ _ _ => true | _ => false end.

(** A transaction was fetched and has a populated [billingData.stop]. *)
Definition isGetWithStop (e : Event) : bool :=
  match e with
  | EGetTransaction _ (Ok t) =>
      match populatedStop t with Some _ => true | None => false end
  | _ => false
  end.

(** The rejection carries a value: an error object or anything else
    but [null] and [undefined]. *)
Definition hasValue (e : error) : bool :=
  match e with Nullish => false | _ => true end.

(** A transaction store operation rejected. *)
Definition isStoreFailure (e : Event) : bool :=
  match e with
  | EGetTransaction _ (Throw _) => true
  | ESaveTransactionBillingData _ _ (Throw _) => true
  | _ => false
  end.

(** A transaction store operation rejected with an error value. *)
Definition isValuedStoreFailure (e : Event) : bool :=
  match e with
  | EGetTransaction _ (Throw x) => hasValue x
  | ESaveTransactionBillingData _ _ (Throw x) => hasValue x
  | _ => false
  end.

(** A transaction store operation rejected without an error value. *)
Definition isValuelessStoreFailure (e : Event) : bool :=
  match e with
  | EGetTransaction _ (Throw x) => negb (hasValue x)
  | ESaveTransactionBillingData _ _ (Throw x) => negb (hasValue x)
  | _ => false
  end.

Definition isDelete (e : Event) : bool :=
  match e with EDeleteInvoice _ _ => true | _ => false end.

(** The transaction ids fetched, in order. *)
Fixpoint gets (t : list Event) : list Z :=
  match t with
  | [] => []
  | EGetTransaction id _ :: t' => id :: gets t'
  | _ :: t' => gets t'
  end.

(** Only the transaction store and the logger were addressed. *)
Definition isTransactionStoreOrLog (e : Event) : bool :=
  match e with
  | EGetTransaction _ _ | ESaveTransactionBillingData _ _ _ | ELog _ => true
  | _ => false
  end.

(** The billing data [bd] saved under [id] with the answer [r] is dated
    by the clock as it stood when the save was issued: in some world,
    its [lastUpdate] is the date and [r] is what the store answered. *)
Definition datedAtSave (W : Type) `{Environment W} (this : Integration)
    (id : Z) (bd : BillingData) (r : result unit) : Prop :=
  exists w : W,
    lastUpdate bd = now w
    /\ (TransactionStorage_saveTransactionBillingData (tenant this) id bd w).1
       = r.

(** Every save in the trace writes, under the id of a transaction that
    was fetched with a populated [billingData.stop], the billing data of
    that transaction with the status and number of the invoice mirrored
    into its stop record, and with the date of the save as its
    [lastUpdate]. *)
Definition savesMirror (W : Type) `{Environment W} (this : Integration)
    (billingInvoice : BillingInvoice) (t : list Event) : Prop :=
  forall id bd r,
    ESaveTransactionBillingData id bd r ∈ t ->
    datedAtSave W this id bd r
    /\ exists g tr bd0 st0,
         EGetTransaction g (Ok (Some tr)) ∈ t
         /\ transaction_id tr = id
         /\ billingData tr = Some bd0
         /\ bd_stop bd0 = Some st0
         /\ withBillingActive bd = withBillingActive bd0
         /\ bd_stop bd =
              Some {| bds_status := bds_status st0;
                      invoiceID := invoiceID st0;
                      invoiceNumber := Some (number billingInvoice);
                      invoiceStatus := Some (status billingInvoice) |}.


(** The error log of a session whose fetch or save rejected. *)
Definition sessionFailure (id : Z) (e : error) : Event :=
  ELog (mkLog LogError BILLING_CHARGE_INVOICE "updateTransactionsBillingData"
          ("Failed to update Transaction Billing data of Transaction ID '"
             +:+ pretty id +:+ "'") (Some e)).

(** What a trace of updateTransactionsBillingData has to satisfy. *)
Definition mirrored (W : Type) `{Environment W} (this : Integration)
    (billingInvoice : BillingInvoice) (ids : list Z) (t : list Event)
  : Prop :=
  gets t = ids
  /\ forallb isTransactionStoreOrLog t = true
  /\ savesMirror W this billingInvoice t
  /\ count isSave t = count isGetWithStop t
  /\ count isErrorLog t = count isValuedStoreFailure t.

(** How a call that maps a closure over the sessions ends, given its
    trace: it resolves unless a store operation rejected without a
    value, on which the handler of that session throws. *)
Definition sessionsOutcome (t : list Event) : result unit :=
  if existsb isValuelessStoreFailure t then Throw stackError else Ok tt.

(* ===================================================================== *)
(** * Observations on a settlement run *)
(* ===================================================================== *)

(** A page query that returned at least one invoice. *)
Definition isNonEmptyPage (e : Event) : bool :=
  match e with
  | EGetInvoices _ _ (Ok d) => negb (Utils_isEmptyArray (dr_result d))
  | _ => false
  end.

Definition isFailedCharge (e : Event) : bool :=
  match e with EChargeInvoice _ (Throw _) => true | _ => false end.

(** An informational or warning entry: a charged or a too-new invoice. *)
Definition isProgressLog (e : Event) : bool :=
  match e with
  | ELog l => match log_level l with LogError => false | _ => true end
  | _ => false
  end.

(** An invoice was settled and its new status is out of periodic scope. *)
Definition isSettledOutOfScope (this : Integration) (e : Event) : bool :=
  match e with
  | EChargeInvoice _ (Ok i) => isInvoiceOutOfPeriodicOperationScope this i
  | _ => false
  end.

(** Replaying the pagination of a run from its trace: every page query
    must carry the expected [skip]; a non-empty page advances it by
    [limit], a settled invoice that left the periodic scope takes one
    off, nothing else moves it.  [None] when a query carries another
    value. *)
Fixpoint replaySkip (this : Integration) (limit skip : Z) (t : list Event)
  : option Z :=
  match t with
  | [] => Some skip
  | e :: t' =>
      match e with
      | EGetInvoices _ p _ =>
          if p_skip p =? skip then
            replaySkip this limit
              (if isNonEmptyPage e then skip + limit else skip) t'
          else None
      | _ =>
          replaySkip this limit
            (if isSettledOutOfScope this e then skip - 1 else skip) t'
      end
  end.

(** The claim that chargeInvoices raises from its connectivity check
    only: whenever it raises, [checkConnection] has raised that error. *)
Definition raisesOnlyFromConnectivityCheck : Prop :=
  forall (W : Type) (env : Environment W) (this : Integration) (fuel : nat)
         (forceOperation : bool) (w : W) (e : error),
    outcome (chargeInvoices this fuel forceOperation w) = Throw e ->
    (checkConnection w).1 = Throw e.

(** The log entries of chargeInvoices. *)
Definition tooNew (invoice : BillingInvoice) : Event :=
  ELog (mkLog LogWarning BILLING_PERFORM_OPERATIONS "chargeInvoices"
          ("Invoice is too new - Operation has been skipped - '"
             +:+ invoice_id invoice +:+ "'") None).

Definition charged (invoice : BillingInvoice) : Event :=
  ELog (mkLog LogInfo BILLING_PERFORM_OPERATIONS "chargeInvoices"
          ("Successfully charged invoice '" +:+ invoice_id invoice +:+ "'")
          None).

Definition notCharged (invoice : BillingInvoice) (e : error) : Event :=
  ELog (mkLog LogError BILLING_PERFORM_OPERATIONS "chargeInvoices"
          ("Failed to charge invoice '" +:+ invoice_id invoice +:+ "'")
          (Some e)).

(** A settlement rejected without an error value. *)
Definition isValuelessCharge (e : Event) : bool :=
  match e with
  | EChargeInvoice _ (Throw x) => negb (hasValue x)
  | _ => false
  end.

(** The run was ended by the handler of the settlement loop: the last
    thing it did was a settlement that rejected without a value, and
    [e] is what reading the stack of that rejection throws. *)
Definition aborted (t : list Event) (e : error) : Prop :=
  e = stackError
  /\ exists i, last t = Some (EChargeInvoice i (Throw Nullish)).

(** How the counters moved along a piece of trace. *)
Definition accounted (this : Integration) (limit : Z) (st : ChargeState)
    (t : list Event) (st' : ChargeState) : Prop :=
  replaySkip this limit (skip st) t = Some (skip st')
  /\ inError (actionsDone st') =
       inError (actionsDone st) + Z.of_nat (count isFailedCharge t)
  /\ inError (actionsDone st') =
       inError (actionsDone st) + Z.of_nat (count isErrorLog t)
  /\ inSuccess (actionsDone st') =
       inSuccess (actionsDone st) + Z.of_nat (count isProgressLog t).

(** The ways the pagination loop can end: a page query rejected, or the
    handler of a settlement threw; the fuel ran out after as many
    non-empty pages; an empty page came back and the counters are those
    the trace accounts for.  In each case the page queries carried the
    replayed [skip]. *)
Definition loopEnd {W} (this : Integration) (limit : Z) (fuel : nat)
    (st : ChargeState)
    (run : result (option ChargeState) * W * list Event) : Prop :=
  (exists s, replaySkip this limit (skip st) (trace run) = Some s)
  /\ match outcome run with
     | Throw e =>
         (exists f p, last (trace run) = Some (EGetInvoices f p (Throw e)))
         \/ aborted (trace run) e
     | Ok None => count isNonEmptyPage (trace run) = fuel
     | Ok (Some st') =>
         (exists f p d, last (trace run) = Some (EGetInvoices f p (Ok d))
                        /\ dr_result d = [])
         /\ accounted this limit st (trace run) st'
     end.

(* ===================================================================== *)
(** * The eligibility guard, as the specification words it *)
(* ===================================================================== *)

Inductive Verdict :=
| Billable       (* returns true *)
| NotBillable    (* returns false, not an error *)
| Fatal          (* raises a BackendError *)
| Crash.         (* any other exception *)

Definition verdict (r : result bool) : Verdict :=
  match r with
  | Ok true => Billable
  | Ok false => NotBillable
  | Throw (BackendError _ _ _) => Fatal
  | Throw _ => Crash
  end.

(** The account a transaction identifies: both [userID] and [user] must
    be given. *)
Definition identity (t : Transaction) : option User :=
  if Js.truthy_string (userID t) then transaction_user t else None.

(** The decision list of the specification, in the order of its
    sentences: not billable when billing is disabled or the account has
    free access; fatal when the account or the device is missing; with
    organizational access control, fatal when the locality is missing and
    not billable when it does not enforce access control; fatal without
    provider linkage; billable otherwise. *)
Definition checkEligibleToStart_spec (billingActive organizationActive : bool)
    (account : option User) (device : option ChargingStation)
    (scope : option SiteArea) : Verdict :=
  if negb billingActive then NotBillable
  else if from_option freeAccess false account then NotBillable
  else
    match account, device with
    | None, _ | _, None => Fatal
    | Some user, Some _ =>
        if organizationActive && negb (Js.truthy_ref scope) then Fatal
        else if organizationActive && negb (from_option accessControl true scope)
        then NotBillable
        else if negb (Js.truthy
                        (Js.member (user_billingData user) customerID))
        then Fatal
        else Billable
    end.

(** Elapsed milliseconds of a stopped transaction. *)
Definition elapsedMs (t : Transaction) (s : TransactionStop) : Z :=
  stop_timestamp s - timestamp t.

(* ===================================================================== *)
(** * Statements of the specification, taken by their word *)
(* ===================================================================== *)

(** The threshold check decides every transaction outside a development
    environment: it returns false or true and raises nothing. *)
Definition thresholdDecidesEveryTransaction : Prop :=
  forall (W : Type) (env : Environment W) (transaction : Transaction) (w : W),
    Utils_isDevelopmentEnv = false ->
    exists b : bool, outcome (checkBillingDataThreshold transaction w) = Ok b.


(** Every failure of a session of updateTransactionsBillingData is
    logged, and the call raises no error for it. *)
Definition sessionFailuresAreLogged : Prop :=
  forall (W : Type) (env : Environment W) (this : Integration)
         (billingInvoice : BillingInvoice) (ss : list BillingSession) (w : W),
    sessions billingInvoice = Some ss ->
    let run := updateTransactionsBillingData this billingInvoice w in
    outcome run = Ok tt
    /\ count isErrorLog (trace run) = count isStoreFailure (trace run).

(* ===================================================================== *)
(** * The purge of the accounts *)
(* ===================================================================== *)

(** Modelled from the spec: the enum [UserStatus] of types/User; the
    class only asks for ACTIVE accounts. *)
Inductive UserStatus :=
| ACTIVE
| OtherUserStatus (name : string).

(** The query clearAllUsersTestData sends to the user store. *)
Record UserFilter := mkUserFilter {
  statuses : list UserStatus;
  withTestBillingData : bool
}.

(** The calls into the user store, recorded like those of [Event]. *)
Inductive UserStoreEvent :=
| EGetUsers (f : UserFilter) (p : DbParams) (r : result (DataResult User))
| ESaveUserBillingData (id : string) (bd : option BillingUserData)
    (r : result unit).

(** What a purge can be observed to do: the interactions of the invoice
    sweep and of the logger, and those with the user store. *)
Inductive PurgeEvent :=
| Core (e : Event)
| Users (e : UserStoreEvent).

(** [UserStorage], the one collaborator of the purge that the
    settlement and the synchronisation do not use. *)
Class UserStore (W : Type) := {
  UserStorage_getUsers :
    Tenant -> UserFilter -> DbParams -> W -> result (DataResult User) * W;
  UserStorage_saveUserBillingData :
    Tenant -> string -> option BillingUserData -> W -> result unit * W
}.

(** Computations of the purge: as [Prog], over the larger trace. *)
Definition Purge (W A : Type) : Type := W -> result A * W * list PurgeEvent.

Section Purge.
Context {W : Type}.

Definition pret {A} (a : A) : Purge W A := fun w => (Ok a, w, []).

Definition pthrow {A} (e : error) : Purge W A := fun w => (Throw e, w, []).

Definition pbind {A B} (m : Purge W A) (k : A -> Purge W B) : Purge W B :=
  fun w =>
    match m w with
    | (Ok a, w1, t1) => let '(r, w2, t2) := k a w1 in (r, w2, t1 ++ t2)
    | (Throw e, w1, t1) => (Throw e, w1, t1)
    end.

Definition ptry {A} (m : Purge W A) (h : error -> Purge W A) : Purge W A :=
  fun w =>
    match m w with
    | (Ok a, w1, t1) => (Ok a, w1, t1)
    | (Throw e, w1, t1) => let '(r, w2, t2) := h e w1 in (r, w2, t1 ++ t2)
    end.

(** A computation of the class proper, run inside a purge. *)
Definition core {A} (m : Prog W A) : Purge W A :=
  fun w => let '(r, w1, t) := m w in (r, w1, map Core t).

(** A call into the user store. *)
Definition ucall {A} (ev : result A -> UserStoreEvent)
    (op : W -> result A * W) : Purge W A :=
  fun w => let '(r, w1) := op w in (r, w1, [Users (ev r)]).

End Purge.

Declare Scope purge_scope.
Delimit Scope purge_scope with purge.
Notation "x <- m ;; k" := (pbind m (fun x => k))
  (at level 100, m at next level, right associativity) : purge_scope.
Notation "m ;; k" := (pbind m (fun _ => k))
  (at level 100, right associativity) : purge_scope.

Section PurgeLoops.
Context {W : Type}.

(** [for (const x of l) { body }] inside a purge. *)
Fixpoint pforEach {A} (body : A -> Purge W unit) (l : list A) : Purge W unit :=
  match l with
  | [] => pret tt
  | x :: l' => (body x ;; pforEach body l')%purge
  end.

End PurgeLoops.

Section AccountPurge.
Context {W : Type} `{Environment W} `{UserStore W}.
Variable this : Integration.

(** [user?.billingData?.liveMode] *)
Definition hasLiveBillingData (user : User) : bool :=
  match user_billingData user with
  | Some bd => bud_liveMode bd
  | None => false
  end.

Definition liveUserRefusal : error :=
  BackendError
    "Unexpected situation - Attempt to clear an User with live Billing data"
    "clearUserTestBillingData" BILLING_TEST_DATA_CLEANUP.

(** ** clearUserTestBillingData *)
Definition clearUserTestBillingData (user : User) : Purge W unit :=
  if hasLiveBillingData user then pthrow liveUserRefusal
  else
    (* Let's remove the billingData field *)
    ucall (ESaveUserBillingData (user_id user) None)
      (UserStorage_saveUserBillingData (tenant this) (user_id user) None).

Definition testUsersFilter : UserFilter :=
  {| statuses := [ACTIVE]; withTestBillingData := true |}.

(** ** getUsersWithTestBillingData *)
Definition getUsersWithTestBillingData : Purge W (list User) :=
  (* Get the users where billingData.liveMode is set to false *)
  (users <- ucall (EGetUsers testUsersFilter Constants_DB_PARAMS_MAX_LIMIT)
              (UserStorage_getUsers (tenant this) testUsersFilter
                 Constants_DB_PARAMS_MAX_LIMIT) ;;
   if 0 <? dr_count users then pret (dr_result users) else pret [])%purge.

Definition userCleared (user : User) : Event :=
  ELog (mkLog LogInfo BILLING_TEST_DATA_CLEANUP "clearAllUsersTestData"
          ("Successfully cleared user test data for Invoice of User ID '"
             +:+ user_id user +:+ "'") None).

Definition userNotCleared (user : User) (e : error) : Event :=
  ELog (mkLog LogError BILLING_TEST_DATA_CLEANUP "clearAllUsersTestData"
          ("Failed to clear user test data - User: '" +:+ user_id user +:+ "'")
          (Some e)).

(** The body of the [for] loop of clearAllUsersTestData; its handler
    reads [error.stack] for the entry it logs. *)
Definition clearAllUsersTestData_body (user : User) : Purge W unit :=
  ptry
    (clearUserTestBillingData user ;;
     core (emit (userCleared user)))%purge
    (fun error =>
       (detail <- core (stack error) ;;
        core (emit (userNotCleared user detail)))%purge).

(** ** clearAllUsersTestData *)
Definition clearAllUsersTestData : Purge W unit :=
  (users <- getUsersWithTestBillingData ;;
   (* Let's now finalize all invoices and attempt to get it paid *)
   pforEach clearAllUsersTestData_body users)%purge.

Definition purgeNote (message : string) : Event :=
  ELog (mkLog LogInfo BILLING_TEST_DATA_CLEANUP "clearTestData" message None).

(** ** clearTestData *)
Definition clearTestData : Purge W unit :=
  (* await this.checkConnection(); - stripe connection is useless to
     cleanup test data *)
  (core (emit (purgeNote "Starting test data cleanup")) ;;
   core (clearAllInvoiceTestData this) ;;
   core (emit (purgeNote "Invoice Test data cleanup has been completed")) ;;
   clearAllUsersTestData ;;
   core (emit (purgeNote "User Test data cleanup has been completed")))%purge.

End AccountPurge.

(** The accounts whose provider link was erased, in order. *)
Fixpoint erasedLinks (t : list PurgeEvent) : list string :=
  match t with
  | [] => []
  | Users (ESaveUserBillingData id None _) :: t' => id :: erasedLinks t'
  | _ :: t' => erasedLinks t'
  end.

(** The calls into the user store. *)
Fixpoint userStoreCalls (t : list PurgeEvent) : list UserStoreEvent :=
  match t with
  | [] => []
  | Users e :: t' => e :: userStoreCalls t'
  | Core _ :: t' => userStoreCalls t'
  end.

(** The part of a purge trace that is not about the user store. *)
Fixpoint coreEvents (t : list PurgeEvent) : list Event :=
  match t with
  | [] => []
  | Core e :: t' => e :: coreEvents t'
  | Users _ :: t' => coreEvents t'
  end.

(** The accounts the sweep goes through: the page of the store, unless
    its [count] is not positive. *)
Definition sweptUsers (d : DataResult User) : list User :=
  if 0 <? dr_count d then dr_result d else [].

(* ===================================================================== *)
(** * Further observations on traces *)
(* ===================================================================== *)

Definition isGetUser (e : Event) : bool :=
  match e with EGetUser _ _ => true | _ => false end.

(** What the wrappers of the synchronisation make of its result: they
    pass on the record when it resolved, return [null] when it rejected
    with an error value, and throw what reading [error.stack] throws
    when it rejected without one. *)
Definition wrapped (r : result (option BillingUser))
  : result (option BillingUser) :=
  match r with
  | Ok billingUser => Ok billingUser
  | Throw e => if hasValue e then Ok None else Throw stackError
  end.

(** The number of error entries a handler logs for the result [r]. *)
Definition reported {A} (r : result A) : nat :=
  match r with
  | Ok _ => 0
  | Throw e => if hasValue e then 1 else 0
  end.

Definition isLog (e : Event) : bool :=
  match e with ELog _ => true | _ => false end.

Definition isWarningLog (e : Event) : bool :=
  match e with
  | ELog l => match log_level l with LogWarning => true | _ => false end
  | _ => false
  end.

Definition isNotify (e : Event) : bool :=
  match e with ENotify _ _ _ => true | _ => false end.

Definition isCharge (e : Event) : bool :=
  match e with EChargeInvoice _ _ => true | _ => false end.

(** The invoices the page queries of a run delivered, in order. *)
Fixpoint delivered (t : list Event) : list BillingInvoice :=
  match t with
  | [] => []
  | EGetInvoices _ _ (Ok d) :: t' => dr_result d ++ delivered t'
  | _ :: t' => delivered t'
  end.

(** The invoices handed to the provider for settlement, in order. *)
Fixpoint chargedInvoices (t : list Event) : list BillingInvoice :=
  match t with
  | [] => []
  | EChargeInvoice i _ :: t' => i :: chargedInvoices t'
  | _ :: t' => chargedInvoices t'
  end.

Definition inScope (this : Integration) (i : BillingInvoice) : bool :=
  negb (isInvoiceOutOfPeriodicOperationScope this i).

(** The ids of the invoices whose deletion was asked of the store. *)
Fixpoint deletes (t : list Event) : list string :=
  match t with
  | [] => []
  | EDeleteInvoice id _ :: t' => id :: deletes t'
  | _ :: t' => deletes t'
  end.

(** An invoice the purge goes on to delete: not live, with sessions. *)
Definition purgeable (i : BillingInvoice) : bool :=
  negb (liveMode i) && Js.truthy_ref (sessions i).

(** The billing data clearTransactionsTestData writes, up to its date:
    inactive, with an UNBILLED stop record that names no invoice. *)
Definition isClearedRecord (bd : BillingData) : Prop :=
  withBillingActive bd = false
  /\ bd_stop bd = Some {| bds_status := Some UNBILLED;
                          invoiceID := None;
                          invoiceNumber := None;
                          invoiceStatus := None |}.

(** A transaction was fetched and exists. *)
Definition isGetFound (e : Event) : bool :=
  match e with EGetTransaction _ (Ok (Some _)) => true | _ => false end.

(** What the purge logs for a session: the fetch rejected with an error
    value, the transaction does not exist, or the save rejected with an
    error value. *)
Definition isClearFailure (e : Event) : bool :=
  match e with
  | EGetTransaction _ (Throw x) => hasValue x
  | EGetTransaction _ (Ok None) => true
  | ESaveTransactionBillingData _ _ (Throw x) => hasValue x
  | _ => false
  end.

(** The log entries of the sweep of clearAllInvoiceTestData. *)
Definition invoiceCleared (invoice : BillingInvoice) : Event :=
  ELog (mkLog LogInfo BILLING_TEST_DATA_CLEANUP "clearAllInvoiceTestData"
          ("Successfully clear test data for invoice '"
             +:+ invoice_id invoice +:+ "'") None).

Definition invoiceNotCleared (invoice : BillingInvoice) (e : error) : Event :=
  ELog (mkLog LogError BILLING_TEST_DATA_CLEANUP "clearAllInvoiceTestData"
          ("Failed to clear invoice test data - Invoice: '"
             +:+ invoice_id invoice +:+ "'") (Some e)).

(** The invoice store rejected a deletion without an error value. *)
Definition isValuelessDeletion (e : Event) : bool :=
  match e with
  | EDeleteInvoice _ (Throw x) => negb (hasValue x)
  | _ => false
  end.

(** A store operation of the purge rejected without an error value. *)
Definition isValuelessPurgeFailure (e : Event) : bool :=
  isValuelessStoreFailure e || isValuelessDeletion e.

(** What a trace of clearTransactionsTestData has to satisfy. *)
Definition cleared (W : Type) `{Environment W} (this : Integration)
    (ids : list Z) (t : list Event) : Prop :=
  gets t = ids
  /\ forallb isTransactionStoreOrLog t = true
  /\ (forall id bd r,
        ESaveTransactionBillingData id bd r ∈ t ->
        isClearedRecord bd
        /\ datedAtSave W this id bd r
        /\ exists g tr, EGetTransaction g (Ok (Some tr)) ∈ t
                        /\ transaction_id tr = id)
  /\ count isSave t = count isGetFound t
  /\ count isErrorLog t = count isClearFailure t.

Definition clearFailure (e : error) : Event :=
  ELog (mkLog LogError BILLING_TEST_DATA_CLEANUP "clearTransactionsTestData"
          "Failed to clear transaction Billing data" (Some e)).

(** A date in the month after that of [d]. *)
Definition inNextMonth (d d' : DateTime) : Prop :=
  (year d', month d') = nextMonth (year d) (month d).

(** What every trace of the settlement loop satisfies, however the run
    ended: the invoices charged are in-scope invoices the store
    delivered, in order, and in a forced run the first of them, nothing
    being put off; no more invoices were charged or put off than were
    delivered in scope; each charge failed or was reported, each put-off
    was reported. *)
Definition settled (this : Integration) (forceOperation : bool)
    (t : list Event) : Prop :=
  chargedInvoices t `sublist_of` List.filter (inScope this) (delivered t)
  /\ (count isCharge t + count isWarningLog t
      <= length (List.filter (inScope this) (delivered t)))%nat
  /\ (if forceOperation
      then chargedInvoices t `prefix_of` List.filter (inScope this) (delivered t)
           /\ count isWarningLog t = 0%nat
      else True)
  /\ (count isFailedCharge t + count isProgressLog t)%nat
     = (count isCharge t + count isWarningLog t)%nat.

(** What holds in addition unless the handler of the loop ended the
    run: each in-scope invoice delivered was charged or put off; a
    forced run charged them all. *)
Definition complete (this : Integration) (forceOperation : bool)
    (t : list Event) : Prop :=
  (count isCharge t + count isWarningLog t)%nat
  = length (List.filter (inScope this) (delivered t))
  /\ (if forceOperation
      then chargedInvoices t = List.filter (inScope this) (delivered t)
      else True).

(** The processing of the invoices [l] of a page, which queries nothing:
    each of them that is in scope was charged or put off, in order; a
    forced run charged them all; each charge failed or was reported,
    each put-off was reported. *)
Definition pageSettled (this : Integration) (forceOperation : bool)
    (l : list BillingInvoice) (t : list Event) : Prop :=
  delivered t = []
  /\ chargedInvoices t `sublist_of` List.filter (inScope this) l
  /\ (count isCharge t + count isWarningLog t)%nat
     = length (List.filter (inScope this) l)
  /\ (if forceOperation
      then chargedInvoices t = List.filter (inScope this) l
      else True)
  /\ (count isFailedCharge t + count isProgressLog t)%nat
     = (count isCharge t + count isWarningLog t)%nat.

(** An account store to go with the in-memory environment: three
    accounts, of which carol is live. *)
Module Accounts.

Definition carol : User :=
  mkUser "u3" "carol@example.org" "de-DE" false
    (Some (mkBillingUserData (Js.Value "cus_carol") true)).

Definition page : DataResult User :=
  mkDataResult 3 [Memory.alice; carol; Memory.bob].

(** A session that is still running, 45 s after its start. *)
Definition running : Transaction :=
  mkTransaction 7 (Some "u1") (Some Memory.alice)
    (Some (mkChargingStation "cs1")) 0 None (Some (mkConsumption 45000)) None.

(** Another one, 75 s after its start. *)
Definition overtime : Transaction :=
  mkTransaction 8 (Some "u1") (Some Memory.alice)
    (Some (mkChargingStation "cs1")) 0 None (Some (mkConsumption 75000)) None.

Definition garage : SiteArea := mkSiteArea "sa1" true.

(** The notification of invoice in_1. *)
Definition notice : NewInvoiceNotification :=
  {| n_user := Memory.alice;
     evseDashboardInvoiceURL := "https://demo/invoices";
     evseDashboardURL := "https://demo";
     invoiceDownloadUrl := "https://demo/invoices/in_1/download";
     payInvoiceUrlShown := "https://pay.example.org/in_1";
     invoiceAmount := "EUR 10.50";
     n_invoiceNumber := "N-in_1";
     n_invoiceStatus := OPEN |}.

(** Three invoices of today, for a forced run; the second has no
    currency and cannot be settled. *)
Definition morning : BillingInvoice :=
  Memory.invoice "in_a" false OPEN (Memory.noon 2026 10 2) [] 100.
Definition faulty : BillingInvoice :=
  mkBillingInvoice "in_b" (Some Memory.alice) false OPEN (Memory.noon 2026 10 2)
    (Some []) 200 None "N-in_b" "https://pay.example.org/in_b".
Definition evening : BillingInvoice :=
  Memory.invoice "in_c" false OPEN (Memory.noon 2026 10 2) [] 300.

Definition todaysWorld : Memory.World :=
  {| Memory.invoices := [morning; faulty; evening];
     Memory.transactions := ∅;
     Memory.customers := [];
     Memory.clock := Memory.noon 2026 10 2;
     Memory.online := true;
     Memory.storeUp := true |}.

#[export] Instance store : UserStore Memory.World := {|
  UserStorage_getUsers := fun _ _ _ w =>
    if Memory.storeUp w then (Ok page, w) else (Throw Memory.storeDown, w);
  UserStorage_saveUserBillingData := fun _ _ _ w =>
    if Memory.storeUp w then (Ok tt, w) else (Throw Memory.storeDown, w)
|}.

End Accounts.

(** The in-memory environment with a provider and stores that reject
    without an error value ([Promise.reject()]): the provider when it
    creates or repairs an account and when it settles an invoice that
    has no currency, the transaction store for transaction 2, the
    invoice store when it deletes invoice in_3, the tenant store always,
    and the user store when it erases the link of account u2. *)
Module Valueless.

Definition reject {A} (w : Memory.World) : result A * Memory.World :=
  (Throw Nullish, w).

Definition env : Environment Memory.World := {|
  checkConnection := checkConnection (Environment := Memory.env);
  getUser := Memory.lookupCustomer;
  createUser := fun _ => reject;
  updateUser := Memory.refreshCustomer;
  repairUser := fun _ => reject;
  isUserSynchronized := fun u w => (Ok (Memory.known w u), w);
  chargeInvoice := fun i w =>
    match currency i with
    | None => reject w
    | Some _ => Memory.settle i w
    end;
  BillingStorage_getInvoices := Memory.getInvoices;
  BillingStorage_deleteInvoice := fun t id w =>
    if String.eqb id "in_3" then reject w else Memory.deleteInvoice t id w;
  TransactionStorage_getTransaction := fun t id w =>
    if id =? 2 then reject w else Memory.getTransaction t id w;
  TransactionStorage_saveTransactionBillingData :=
    Memory.saveTransactionBillingData;
  TenantStorage_getTenant := fun _ => reject;
  NotificationHandler_sendBillingNewInvoiceNotification :=
    fun _ _ _ _ w => w;
  now := Memory.clock;
  Utils_isDevelopmentEnv := false;
  Utils_isTenantComponentActive := fun _ _ => true;
  Utils_convertLocaleForCurrency := fun l => l;
  Utils_buildEvseBillingInvoicesURL := fun s => "https://" +:+ s +:+ "/invoices";
  Utils_buildEvseURL := fun s => "https://" +:+ s;
  Utils_buildEvseBillingDownloadInvoicesURL :=
    fun s id => "https://" +:+ s +:+ "/invoices/" +:+ id +:+ "/download";
  Intl_formatCurrency := Memory.formatCurrency;
  Constants_BATCH_PAGE_SIZE := 256;
  Constants_DB_PARAMS_MAX_LIMIT := mkDbParams None 9007199254740991 0
|}.

Definition store : UserStore Memory.World := {|
  UserStorage_getUsers := fun _ _ _ w => (Ok Accounts.page, w);
  UserStorage_saveUserBillingData := fun _ id _ w =>
    if String.eqb id "u2" then reject w else (Ok tt, w)
|}.

End Valueless.

(* ===================================================================== *)
(** * A store and a provider that keep their contract *)
(* ===================================================================== *)

(** What the pagination of chargeInvoices relies upon, for worlds that
    are [good]: the store keeps its invoices in the order of the query
    ([collection]) and answers a page query, without changing anything,
    with the requested slice of the invoices its filter [selects]; it
    selects only invoices in periodic scope; settling an invoice either
    fails with an error value and leaves the collection as it is, or
    puts the settled invoice in the place of the old one, where the
    filter selects it exactly when its new status is still in scope. *)
Record Faithful {W : Type} `{Environment W} (this : Integration)
    (good : W -> Prop) (collection : W -> list BillingInvoice)
    (selects : InvoiceFilter -> BillingInvoice -> bool) : Prop := {
  faithful_query :
    forall f p w,
      good w -> 0 <= p_skip p -> 0 <= p_limit p ->
      exists c,
        BillingStorage_getInvoices (tenant this) f p w =
          (Ok (mkDataResult c
                 (take (Z.to_nat (p_limit p))
                    (drop (Z.to_nat (p_skip p))
                       (List.filter (selects f) (collection w))))), w);
  faithful_scope :
    forall today forceOperation j,
      selects (qp_filter (preparePeriodicBillingQueryParameters this today
                            forceOperation)) j = true ->
      isInvoiceOutOfPeriodicOperationScope this j = false;
  faithful_charge :
    forall today forceOperation i w pre post,
      let f := qp_filter (preparePeriodicBillingQueryParameters this today
                            forceOperation) in
      good w -> collection w = pre ++ i :: post -> selects f i = true ->
      match chargeInvoice i w with
      | (Ok n, w') =>
          good w' /\ collection w' = pre ++ n :: post
          /\ selects f n = negb (isInvoiceOutOfPeriodicOperationScope this n)
      | (Throw e, w') =>
          hasValue e = true /\ good w' /\ collection w' = collection w
      end
}.

(** The in-memory worlds that keep the contract: the store is up and no
    two invoices share an id. *)
Definition goodMemory (w : Memory.World) : Prop :=
  Memory.storeUp w = true /\ NoDup (map invoice_id (Memory.invoices w)).

(* ===================================================================== *)
(** * UserValidator: the schema validator of user imports *)
(* ===================================================================== *)

Module Validator.

(** A parsed JSON schema; its content is of no concern here. *)
Definition Schema : Type := string.

Record UserValidator := mkUserValidator { userCreation : Schema }.

(** What the validator can be observed to do outside itself. *)
Inductive ValidatorEvent :=
| ESuper (name : string) (r : result unit)
| EReadSchema (path : string) (r : result Schema)
| EValidate (schema : Schema) (r : result unit).

(** The world of the validator: the constructor of [SchemaValidator],
    the file system behind [fs.readFileSync] and [JSON.parse], the
    inherited [validate], and [global.appRoot]. *)
Class Platform (F I : Type) := {
  SchemaValidator_new : string -> F -> result unit * F;
  readSchema : string -> F -> result Schema * F;
  SchemaValidator_validate : Schema -> I -> F -> result unit * F;
  appRoot : string
}.

(** The static field [instance] next to the world. *)
Record State (F : Type) := mkState {
  instance : option UserValidator;
  platform : F
}.
Arguments mkState {F}.
Arguments instance {F}.
Arguments platform {F}.

Definition Run (F A : Type) : Type :=
  State F -> result A * State F * list ValidatorEvent.

Section UserValidator.
Context {F I : Type} `{Platform F I}.

Definition schemaPath : string :=
  appRoot +:+ "/assets/server/rest/v1/schemas/user/user-create-req.json".

(** The private constructor. *)
Definition new : Run F UserValidator :=
  fun s =>
    let '(r0, f1) := SchemaValidator_new "UserValidator" (platform s) in
    match r0 with
    | Throw e => (Throw e, mkState (instance s) f1, [ESuper "UserValidator" r0])
    | Ok _ =>
        let '(r1, f2) := readSchema schemaPath f1 in
        (match r1 with
         | Ok schema => Ok (mkUserValidator schema)
         | Throw e => Throw e
         end,
         mkState (instance s) f2,
         [ESuper "UserValidator" r0; EReadSchema schemaPath r1])
    end.

(** ** getInstance *)
Definition getInstance : Run F UserValidator :=
  fun s =>
    match instance s with
    | None =>
        match new s with
        | (Ok v, s1, t) => (Ok v, mkState (Some v) (platform s1), t)
        | (Throw e, s1, t) => (Throw e, s1, t)
        end
    | Some v => (Ok v, s, [])
    end.

(** ** validateUserCreation *)
Definition validateUserCreation (self : UserValidator) (importedUser : I)
  : Run F unit :=
  fun s =>
    let '(r, f1) :=
      SchemaValidator_validate (userCreation self) importedUser (platform s) in
    (r, mkState (instance s) f1, [EValidate (userCreation self) r]).

(** One computation after another. *)
Definition andThen {A B} (m : Run F A) (k : A -> Run F B) : Run F B :=
  fun s =>
    match m s with
    | (Ok a, s1, t1) => let '(r, s2, t2) := k a s1 in (r, s2, t1 ++ t2)
    | (Throw e, s1, t1) => (Throw e, s1, t1)
    end.

End UserValidator.

Definition isRead (e : ValidatorEvent) : bool :=
  match e with EReadSchema _ _ => true | _ => false end.

(** A platform whose schema file holds the text ["{}"]. *)
#[export] Instance plain : Platform unit string := {|
  SchemaValidator_new := fun _ f => (Ok tt, f);
  readSchema := fun _ f => (Ok "{}", f);
  SchemaValidator_validate := fun _ _ f => (Ok tt, f);
  appRoot := "/srv/ev-server"
|}.

End Validator.

(* ===================================================================== *)
(** * Counting in traces *)
(* ===================================================================== *)

Lemma count_cons p (e : Event) (t : list Event) :
  count p (e :: t) = ((if p e then 1 else 0) + count p t)%nat.
Proof. unfold count. simpl. destruct (p e); reflexivity. Qed.

Lemma count_app p (t1 t2 : list Event) :
  count p (t1 ++ t2) = (count p t1 + count p t2)%nat.
Proof. unfold count. by rewrite List.filter_app, length_app. Qed.

(* ===================================================================== *)
(** * Account synchronisation *)
(* ===================================================================== *)

Section Synchronisation.
Context {W : Type} `{Environment W}.

(** Forced mode when [getUser] rejects: one repair, nothing else. *)
Lemma forced_get_rejects user w e w1 :
  getUser user w = (Throw e, w1) ->
  _synchronizeUser user true w =
    (let '(r, w2) := repairUser user w1 in
     (r, w2, [EGetUser user (Throw e); ERepairUser user r])).
Proof.
  intros E. unfold _synchronizeUser, try_catch, bind, call. simpl.
  rewrite E. destruct (repairUser user w1); reflexivity.
Qed.

(** Forced mode when [getUser] resolves with no record: create. *)
Lemma forced_get_empty user w w1 :
  getUser user w = (Ok None, w1) ->
  _synchronizeUser user true w =
    match createUser user w1 with
    | (Ok bu, w2) =>
        (Ok bu, w2, [EGetUser user (Ok None); ECreateUser user (Ok bu)])
    | (Throw e, w2) =>
        let '(r, w3) := repairUser user w2 in
        (r, w3, [EGetUser user (Ok None); ECreateUser user (Throw e);
                 ERepairUser user r])
    end.
Proof.
  intros E. unfold _synchronizeUser, try_catch, bind, call. simpl.
  rewrite E. simpl. destruct (createUser user w1) as [[bu|e] w2]; simpl.
  - reflexivity.
  - destruct (repairUser user w2); reflexivity.
Qed.

(** Forced mode when [getUser] resolves with a record: update. *)
Lemma forced_get_record user w bu0 w1 :
  getUser user w = (Ok (Some bu0), w1) ->
  _synchronizeUser user true w =
    match updateUser user w1 with
    | (Ok bu, w2) =>
        (Ok bu, w2, [EGetUser user (Ok (Some bu0)); EUpdateUser user (Ok bu)])
    | (Throw e, w2) =>
        let '(r, w3) := repairUser user w2 in
        (r, w3, [EGetUser user (Ok (Some bu0)); EUpdateUser user (Throw e);
                 ERepairUser user r])
    end.
Proof.
  intros E. unfold _synchronizeUser, try_catch, bind, call. simpl.
  rewrite E. simpl. destruct (updateUser user w1) as [[bu|e] w2]; simpl.
  - reflexivity.
  - destruct (repairUser user w2); reflexivity.
Qed.

(** C1.  Forced synchronisation starts with [getUser].  A not-found
    report reaches the class as a rejection of [getUser], like any other
    provider error: then the provider calls are exactly [getUser] and
    one [repairUser] whose outcome is returned, and neither [createUser]
    nor [updateUser] is called.  When [getUser] resolves, the next call
    is [createUser] if the fetched record is empty and [updateUser]
    otherwise, each called once; its outcome is returned when it
    resolves, and [repairUser] is called only when it rejects. *)
Theorem forced_synchronize_repairs_or_falls_through (user : User) (w : W) :
  let run := _synchronizeUser user true w in
  match getUser user w with
  | (Throw e, w1) =>
      trace run = [EGetUser user (Throw e);
                   ERepairUser user (repairUser user w1).1]
      /\ outcome run = (repairUser user w1).1
      /\ count isRepair (trace run) = 1%nat
      /\ count isCreate (trace run) = 0%nat
      /\ count isUpdate (trace run) = 0%nat
  | (Ok None, w1) =>
      let created := createUser user w1 in
      take 2 (trace run) = [EGetUser user (Ok None);
                            ECreateUser user created.1]
      /\ count isCreate (trace run) = 1%nat
      /\ count isUpdate (trace run) = 0%nat
      /\ count isRepair (trace run) = (if is_ok created.1 then 0 else 1)%nat
      /\ outcome run = (if is_ok created.1 then created.1
                        else (repairUser user created.2).1)
  | (Ok (Some bu0), w1) =>
      let updated := updateUser user w1 in
      take 2 (trace run) = [EGetUser user (Ok (Some bu0));
                            EUpdateUser user updated.1]
      /\ count isUpdate (trace run) = 1%nat
      /\ count isCreate (trace run) = 0%nat
      /\ count isRepair (trace run) = (if is_ok updated.1 then 0 else 1)%nat
      /\ outcome run = (if is_ok updated.1 then updated.1
                        else (repairUser user updated.2).1)
  end.
Proof.
  intros run. subst run.
  destruct (getUser user w) as [[[bu0|]|e] w1] eqn:E.
  - rewrite (forced_get_record _ _ _ _ E).
    destruct (updateUser user w1) as [[bu|e] w2]; simpl.
    + repeat split; reflexivity.
    + destruct (repairUser user w2); simpl. repeat split; reflexivity.
  - rewrite (forced_get_empty _ _ _ E).
    destruct (createUser user w1) as [[bu|e] w2]; simpl.
    + repeat split; reflexivity.
    + destruct (repairUser user w2); simpl. repeat split; reflexivity.
  - rewrite (forced_get_rejects _ _ _ _ E).
    destruct (repairUser user w1); simpl. repeat split; reflexivity.
Qed.

(** Logging never rejects. *)
Lemma Logging_log_run level action method message detail (w : W) :
  Logging_log level action method message detail w =
    (Ok tt, w, [ELog (mkLog level action method message detail)]).
Proof. reflexivity. Qed.

(** Reading the stack of a rejection that carries a value gives it. *)
Lemma stack_valued (e : error) (w : W) :
  hasValue e = true -> stack e w = (Ok e, w, []).
Proof. destruct e; simpl; intros; try discriminate; reflexivity. Qed.

(** [_synchronizeUser] calls the provider and writes no log entry. *)
Lemma _synchronizeUser_logs_nothing user forceMode (w : W) :
  count isLog (trace (_synchronizeUser user forceMode w)) = 0%nat.
Proof.
  unfold _synchronizeUser, try_catch, bind, call.
  destruct forceMode; simpl.
  - destruct (getUser user w) as [[[bu|]|e] w1]; simpl.
    + destruct (updateUser user w1) as [[?|?] w2]; simpl; [reflexivity|].
      destruct (repairUser user w2); reflexivity.
    + destruct (createUser user w1) as [[?|?] w2]; simpl; [reflexivity|].
      destruct (repairUser user w2); reflexivity.
    + destruct (repairUser user w1); reflexivity.
  - destruct (isUserSynchronized user w) as [[[]|e] w1]; simpl.
    + destruct (updateUser user w1) as [[?|?] ?]; reflexivity.
    + destruct (createUser user w1) as [[?|?] ?]; reflexivity.
    + reflexivity.
Qed.


End Synchronisation.

(* ===================================================================== *)
(** * Eligibility guard *)
(* ===================================================================== *)

Section EligibilityGuard.
Context {W : Type} `{Environment W}.
Variable this : Integration.

(** C6.  [checkStartTransaction] decides exactly as the specification
    lists it: false when transaction billing is disabled or the
    identified user has free access, a fatal error when the user
    identity or the charging station is missing, with the organization
    component active a fatal error without site area and false when the
    site area does not enforce access control, a fatal error without
    customerID, true otherwise; it raises nothing but these fatal
    errors. *)
Theorem checkStartTransaction_decision (transaction : Transaction)
    (chargingStation : option ChargingStation) (siteArea : option SiteArea) :
  verdict (checkStartTransaction this transaction chargingStation siteArea) =
    checkEligibleToStart_spec
      (isTransactionBillingActivated (billing (settings this)))
      (Utils_isTenantComponentActive (tenant this) ORGANIZATION)
      (identity transaction) chargingStation siteArea.
Proof.
  unfold checkStartTransaction, checkEligibleToStart_spec, identity.
  destruct (isTransactionBillingActivated _); simpl; [|reflexivity].
  destruct (Js.truthy_string (userID transaction)); simpl; [|reflexivity].
  destruct (transaction_user transaction) as [user|]; simpl; [|reflexivity].
  destruct (freeAccess user); simpl; [reflexivity|].
  destruct chargingStation; simpl; [|reflexivity].
  destruct (Utils_isTenantComponentActive _ _); simpl.
  - destruct siteArea as [sa|]; simpl; [|reflexivity].
    destruct (accessControl sa); simpl; [|reflexivity].
    destruct (Js.truthy _); reflexivity.
  - destruct (Js.truthy _); reflexivity.
Qed.

Lemma Qlt_bool_seconds (ms : Z) :
  Qlt_bool (Qmake ms 1000) (inject_Z 60) = (ms <? 60000).
Proof.
  unfold Qlt_bool, Qle_bool, inject_Z. simpl.
  destruct (Z.leb_spec (60 * 1000) (ms * 1)), (Z.ltb_spec ms 60000);
    simpl; try reflexivity; lia.
Qed.

(** C7.  For a transaction that has its stop record, outside a
    development environment [checkBillingDataThreshold] resolves to
    false exactly when less than 60 seconds elapsed or less than 1000 Wh
    were metered, and to true otherwise; in a development environment
    it resolves to true whatever the figures.  It does not reject and
    leaves the world as it found it. *)
Theorem checkBillingDataThreshold_decision (transaction : Transaction)
    (s : TransactionStop) (w : W) :
  stop transaction = Some s ->
  outcome (checkBillingDataThreshold transaction w) =
    Ok (if Utils_isDevelopmentEnv then true
        else negb ((elapsedMs transaction s <? 60000)
                   || (totalConsumptionWh s <? 1000)))
  /\ final (checkBillingDataThreshold transaction w) = w.
Proof.
  intros Hs. unfold checkBillingDataThreshold, computeTimeSpentInSeconds.
  rewrite Hs. destruct Utils_isDevelopmentEnv; simpl; [split; reflexivity|].
  unfold bind, lift, deref, ret. simpl.
  rewrite Qlt_bool_seconds. fold (elapsedMs transaction s).
  destruct (elapsedMs transaction s <? 60000); simpl; [split; reflexivity|].
  destruct (totalConsumptionWh s <? 1000); simpl; split; reflexivity.
Qed.

(** In a development environment nothing of the transaction is read. *)
Lemma checkBillingDataThreshold_bypass (transaction : Transaction) (w : W) :
  Utils_isDevelopmentEnv = true ->
  checkBillingDataThreshold transaction w = (Ok true, w, []).
Proof. intros E. unfold checkBillingDataThreshold. rewrite E. reflexivity. Qed.

End EligibilityGuard.

(* ===================================================================== *)
(** * The periodic query window *)
(* ===================================================================== *)

Section QueryWindow.
Context {W : Type} `{Environment W}.
Variable this : Integration.

Lemma daysInMonth_ge_28 y m : 28 <= daysInMonth y m.
Proof.
  unfold daysInMonth.
  destruct (m =? 1); [destruct (isLeapYear y); lia|].
  destruct ((m =? 3) || (m =? 5) || (m =? 8) || (m =? 10)); lia.
Qed.

(** [m.date(1)]: the first day of the same month. *)
Lemma date_1 (m : DateTime) :
  date 1 m = mkDateTime (year m) (month m) 1 (hour m) (minute m) (second m)
               (millisecond m).
Proof.
  unfold date. simpl.
  pose proof (daysInMonth_ge_28 (year m) (month m)).
  destruct (Z.ltb_spec (daysInMonth (year m) (month m)) 1); [lia|reflexivity].
Qed.

(** [m.date(0)]: the last day of the previous month. *)
Lemma date_0 (m : DateTime) :
  date 0 m =
    let '(y, mo) := prevMonth (year m) (month m) in
    mkDateTime y mo (daysInMonth y mo) (hour m) (minute m) (second m)
      (millisecond m).
Proof.
  unfold date. simpl. destruct (prevMonth (year m) (month m)). reflexivity.
Qed.

(** C5.  The query window: forced, today from 00:00:00.000 to
    23:59:59.999 with page size 1; otherwise from the first instant of
    the previous calendar month to the first instant of the current
    one with the batch page size.  In both modes the statuses are
    DRAFT and OPEN when periodic billing is allowed and OPEN alone
    otherwise, sorted by ascending creation time. *)
Theorem preparePeriodicBillingQueryParameters_window (today : DateTime)
    (forceOperation : bool) :
  let q := preparePeriodicBillingQueryParameters this today forceOperation in
  let '(py, pm) := prevMonth (year today) (month today) in
  qp_limit q = (if forceOperation then 1 else Constants_BATCH_PAGE_SIZE)
  /\ startDateTime (qp_filter q) =
       Some (if forceOperation
             then mkDateTime (year today) (month today) (day today) 0 0 0 0
             else firstInstantOfMonth py pm)
  /\ endDateTime (qp_filter q) =
       Some (if forceOperation
             then mkDateTime (year today) (month today) (day today)
                    23 59 59 999
             else firstInstantOfMonth (year today) (month today))
  /\ f_invoiceStatus (qp_filter q) =
       (if periodicBillingAllowed (billing (settings this))
        then [DRAFT; OPEN] else [OPEN])
  /\ qp_sort q = mkSort "createdOn" 1.
Proof.
  unfold preparePeriodicBillingQueryParameters.
  destruct forceOperation; simpl.
  - destruct (prevMonth _ _). repeat split; reflexivity.
  - rewrite date_0, !date_1. destruct (prevMonth _ _) as [py pm]. simpl.
    repeat split; reflexivity.
Qed.

End QueryWindow.

(* ===================================================================== *)
(** * Notification bridge *)
(* ===================================================================== *)

Section NotificationBridge.
Context {W : Type} `{Environment W}.
Variable this : Integration.

(** An invoice that is neither OPEN nor PAID: nothing is dispatched and
    the function runs off its end, so the promise resolves to
    [undefined], not to [true]. *)
Lemma sendInvoiceNotification_not_finalized (billingInvoice : BillingInvoice)
    (w : W) :
  status billingInvoice <> OPEN -> status billingInvoice <> PAID ->
  sendInvoiceNotification this billingInvoice w = (Ok None, w, []).
Proof.
  intros Ho Hp. unfold sendInvoiceNotification, try_catch.
  destruct (status billingInvoice); try reflexivity; congruence.
Qed.

(** An OPEN invoice whose lookups succeed: one notification whose
    amount is the formatted minor-unit amount over 100. *)
Lemma sendInvoiceNotification_open (billingInvoice : BillingInvoice) (w w1 : W)
    (t : Tenant) (user : User) (code text : string) :
  status billingInvoice = OPEN ->
  TenantStorage_getTenant (tenant_id (tenant this)) w = (Ok (Some t), w1) ->
  invoice_user billingInvoice = Some user ->
  currency billingInvoice = Some code ->
  Intl_formatCurrency (Utils_convertLocaleForCurrency (user_locale user))
    (toUpperCase code) (Qmake (amount billingInvoice) 100) = Ok text ->
  exists payload w2,
    sendInvoiceNotification this billingInvoice w =
      (Ok (Some true), w2,
       [EGetTenant (tenant_id (tenant this)) (Ok (Some t));
        ENotify (invoice_id billingInvoice) user payload])
    /\ invoiceAmount payload = text
    /\ payInvoiceUrlShown payload = payInvoiceUrl billingInvoice.
Proof.
  intros Hs Ht Hu Hc Hf.
  unfold sendInvoiceNotification, try_catch, bind, call, deref, lift, ret.
  rewrite Hs, Ht, Hu, Hc. simpl. rewrite Hf. simpl.
  eexists _, _. split; [reflexivity|]. simpl. split; reflexivity.
Qed.

(** How the function can end: an error inside the try block ends in an
    error log and the value [false] when it carries a value; without a
    value the handler itself throws, on reading [error.stack]. *)
Lemma sendInvoiceNotification_outcomes (billingInvoice : BillingInvoice)
    (w : W) :
  let run := sendInvoiceNotification this billingInvoice w in
  outcome run = Ok None
  \/ outcome run = Ok (Some true)
  \/ (outcome run = Ok (Some false)
      /\ exists l, last (trace run) = Some (ELog l)
                   /\ log_level l = LogError)
  \/ outcome run = Throw stackError.
Proof.
  unfold sendInvoiceNotification, try_catch.
  match goal with |- context [match ?m w with _ => _ end] =>
    destruct (m w) as [[[[b|]|e] w1] t1] eqn:E end; simpl.
  - destruct b; [right; left; reflexivity|].
    exfalso. revert E. unfold bind, call, deref, lift, ret, throw.
    destruct (status billingInvoice); try discriminate;
      destruct (TenantStorage_getTenant _ w) as [[[tn|]|] ?];
      destruct (invoice_user billingInvoice);
      destruct (currency billingInvoice); simpl;
      try destruct (Intl_formatCurrency _ _ _); simpl; discriminate.
  - left; reflexivity.
  - destruct e; simpl;
      try (right; right; left; split; [reflexivity|];
           eexists; rewrite last_snoc; eauto).
    right; right; right. reflexivity.
Qed.

End NotificationBridge.

(* ===================================================================== *)
(** * Test-data purge *)
(* ===================================================================== *)

Section TestDataPurger.
Context {W : Type} `{Environment W}.
Variable this : Integration.



End TestDataPurger.
(* ===================================================================== *)
(** * Mirroring the invoice into its transactions *)
(* ===================================================================== *)

Section TransactionsBillingData.
Context {W : Type} `{Environment W}.
Variable this : Integration.

Lemma gets_app (t1 t2 : list Event) : gets (t1 ++ t2) = gets t1 ++ gets t2.
Proof.
  induction t1 as [|e t1 IH]; simpl; [reflexivity|].
  destruct e; simpl; rewrite ?IH; reflexivity.
Qed.

Lemma savesMirror_app i (t1 t2 : list Event) :
  savesMirror W this i t1 -> savesMirror W this i t2 ->
  savesMirror W this i (t1 ++ t2).
Proof.
  intros H1 H2 id bd r Hin. apply elem_of_app in Hin as [Hin|Hin].
  - destruct (H1 _ _ _ Hin) as (Hd & g & tr & bd0 & st0 & Hg & Hrest).
    split; [exact Hd|]. exists g, tr, bd0, st0.
    split; [apply elem_of_app; by left|exact Hrest].
  - destruct (H2 _ _ _ Hin) as (Hd & g & tr & bd0 & st0 & Hg & Hrest).
    split; [exact Hd|]. exists g, tr, bd0, st0.
    split; [apply elem_of_app; by right|exact Hrest].
Qed.

Lemma no_save_event (t : list Event) id bd r :
  count isSave t = 0%nat -> ESaveTransactionBillingData id bd r ∉ t.
Proof.
  intros Hc Hin. unfold count in Hc.
  assert (Hf : ESaveTransactionBillingData id bd r ∈ List.filter isSave t).
  { apply list_elem_of_In, filter_In. split; [by apply list_elem_of_In|].
    reflexivity. }
  destruct (List.filter isSave t); [inversion Hf|discriminate].
Qed.

(** A trace without a save mirrors vacuously. *)
Lemma savesMirror_no_save i (t : list Event) :
  count isSave t = 0%nat -> savesMirror W this i t.
Proof.
  intros Hc id bd r Hin. exfalso. by eapply no_save_event.
Qed.

Lemma populatedStop_Some tr t bd st :
  populatedStop tr = Some (t, bd, st) ->
  tr = Some t /\ billingData t = Some bd /\ bd_stop bd = Some st.
Proof.
  unfold populatedStop. destruct tr as [t0|]; [|discriminate].
  destruct (billingData t0) as [bd0|] eqn:Eb; [|discriminate].
  destruct (bd_stop bd0) as [st0|] eqn:Es; [|discriminate].
  intros [= <- <- <-]. auto.
Qed.

(** What one session does, by the answers of the transaction store. *)
Lemma updateTransactionsBillingData_session_run
    (billingInvoice : BillingInvoice) (session : BillingSession) (w : W) :
  let id := transactionID session in
  updateTransactionsBillingData_session this billingInvoice session w =
    match TransactionStorage_getTransaction (tenant this) id w with
    | (Throw e, w1) =>
        if hasValue e
        then (Ok tt, w1, [EGetTransaction id (Throw e); sessionFailure id e])
        else (Throw stackError, w1, [EGetTransaction id (Throw e)])
    | (Ok tr, w1) =>
        match populatedStop tr with
        | None => (Ok tt, w1, [EGetTransaction id (Ok tr)])
        | Some (t, bd, st) =>
            let bd' := mirrorInvoice billingInvoice (now w1) bd st in
            match TransactionStorage_saveTransactionBillingData (tenant this)
                    (transaction_id t) bd' w1 with
            | (Ok u, w2) =>
                (Ok tt, w2,
                 [EGetTransaction id (Ok tr);
                  ESaveTransactionBillingData (transaction_id t) bd' (Ok u)])
            | (Throw e, w2) =>
                if hasValue e
                then (Ok tt, w2,
                      [EGetTransaction id (Ok tr);
                       ESaveTransactionBillingData (transaction_id t) bd'
                         (Throw e);
                       sessionFailure id e])
                else (Throw stackError, w2,
                      [EGetTransaction id (Ok tr);
                       ESaveTransactionBillingData (transaction_id t) bd'
                         (Throw e)])
            end
        end
    end.
Proof.
  intros id. subst id.
  unfold updateTransactionsBillingData_session, try_catch, bind, call, read.
  destruct (TransactionStorage_getTransaction _ _ w) as [[tr|e] w1]; simpl.
  - destruct (populatedStop tr) as [[[t bd] st]|]; simpl; [|reflexivity].
    destruct (TransactionStorage_saveTransactionBillingData _ _ _ w1)
      as [[[]|e] w2]; [reflexivity|].
    destruct e; reflexivity.
  - destruct e; reflexivity.
Qed.

Lemma existsb_count p (t : list Event) :
  existsb p t = negb (count p t =? 0)%nat.
Proof.
  unfold count. induction t as [|e t IH]; simpl; [reflexivity|].
  destruct (p e); simpl; [reflexivity|exact IH].
Qed.

Lemma mirrored_app i ids1 ids2 t1 t2 :
  mirrored W this i ids1 t1 -> mirrored W this i ids2 t2 ->
  mirrored W this i (ids1 ++ ids2) (t1 ++ t2).
Proof.
  intros (G1 & F1 & S1 & C1 & L1) (G2 & F2 & S2 & C2 & L2).
  split; [|split; [|split; [|split]]].
  - by rewrite gets_app, G1, G2.
  - by rewrite forallb_app, F1, F2.
  - by apply savesMirror_app.
  - by rewrite !count_app, C1, C2.
  - by rewrite !count_app, L1, L2.
Qed.

Lemma updateTransactionsBillingData_session_mirrored
    (billingInvoice : BillingInvoice) (session : BillingSession) (w : W) :
  let run := updateTransactionsBillingData_session this billingInvoice session w in
  outcome run = sessionsOutcome (trace run)
  /\ mirrored W this billingInvoice [transactionID session] (trace run).
Proof.
  intros run. subst run. rewrite updateTransactionsBillingData_session_run.
  destruct (TransactionStorage_getTransaction _ _ w) as [[tr|e] w1].
  - destruct (populatedStop tr) as [[[t bd] st]|] eqn:Ep.
    + apply populatedStop_Some in Ep as Ep'. destruct Ep' as (-> & Hbd & Hst).
      assert (Hm : forall r w2,
        TransactionStorage_saveTransactionBillingData (tenant this)
          (transaction_id t) (mirrorInvoice billingInvoice (now w1) bd st) w1
        = (r, w2) ->
        savesMirror W this billingInvoice
          [EGetTransaction (transactionID session) (Ok (Some t));
           ESaveTransactionBillingData (transaction_id t)
             (mirrorInvoice billingInvoice (now w1) bd st) r]).
      { intros r w2 Es id bd1 r1 Hin.
        apply elem_of_cons in Hin as [Hin|Hin]; [discriminate|].
        apply list_elem_of_singleton in Hin. injection Hin as -> -> ->.
        split; [exists w1; split; [reflexivity|by rewrite Es]|].
        exists (transactionID session), t, bd, st.
        split; [apply elem_of_cons; by left|].
        split; [reflexivity|]. split; [assumption|]. split; [assumption|].
        split; reflexivity. }
      cbv zeta.
      destruct (TransactionStorage_saveTransactionBillingData _ _ _ w1)
        as [[[]|e] w2] eqn:Es; [|destruct (hasValue e) eqn:Ev];
        (split; [unfold sessionsOutcome, outcome, trace; simpl;
                 rewrite ?Ev; reflexivity|]);
        unfold mirrored, trace; (split; [reflexivity|]);
        (split; [reflexivity|]);
        (split; [|unfold count; simpl; rewrite Hbd, Hst, ?Ev; simpl;
                  split; reflexivity]);
        try (by eapply Hm).
      apply (savesMirror_app _ [_; _] [_]); [by eapply Hm|].
      by apply savesMirror_no_save.
    + split; [reflexivity|]. unfold mirrored, trace.
      split; [reflexivity|]. split; [reflexivity|].
      split; [by apply savesMirror_no_save|].
      unfold count; simpl. rewrite Ep. split; reflexivity.
  - destruct (hasValue e) eqn:Ev;
      (split; [unfold sessionsOutcome, outcome, trace; simpl;
               rewrite ?Ev; reflexivity|]);
      unfold mirrored, trace; (split; [reflexivity|]);
      (split; [reflexivity|]);
      (split; [by apply savesMirror_no_save|]);
      unfold count; simpl; rewrite ?Ev; simpl; split; reflexivity.
Qed.

(** The aggregate of the sessions rejects exactly when one of them does,
    with its error. *)
Lemma promiseAll_sessions (closures : list (Prog W unit)) (w : W) :
  (forall closure w0, closure ∈ closures ->
     outcome (closure w0) = sessionsOutcome (trace (closure w0))) ->
  match outcome (promiseAll closures w) with
  | Ok _ => sessionsOutcome (trace (promiseAll closures w)) = Ok tt
  | Throw e => sessionsOutcome (trace (promiseAll closures w)) = Throw e
  end.
Proof.
  revert w. induction closures as [|c closures IH]; intros w Hall; simpl.
  - reflexivity.
  - pose proof (Hall c w ltac:(apply elem_of_cons; by left)) as Ht.
    destruct (c w) as [[r1 w1] t1].
    assert (Hall' : forall c0 w0, c0 ∈ closures ->
              outcome (c0 w0) = sessionsOutcome (trace (c0 w0))).
    { intros c0 w0 Hin. apply Hall. apply elem_of_cons. by right. }
    specialize (IH w1 Hall').
    destruct (promiseAll closures w1) as [[rs w2] t2].
    unfold outcome, trace, sessionsOutcome in *; simpl in *.
    rewrite existsb_app.
    destruct (existsb isValuelessStoreFailure t1);
      destruct (existsb isValuelessStoreFailure t2); subst r1;
      destruct rs; simpl in *; congruence.
Qed.

Lemma updateTransactionsBillingData_all_mirrored
    (billingInvoice : BillingInvoice) (ss : list BillingSession) (w : W) :
  let run :=
    promiseAll (map (updateTransactionsBillingData_session this billingInvoice)
                  ss) w in
  mirrored W this billingInvoice (map transactionID ss) (trace run).
Proof.
  revert w. induction ss as [|s ss IH]; intros w; simpl.
  - unfold mirrored, trace. split; [reflexivity|]. split; [reflexivity|].
    split; [by apply savesMirror_no_save|]. split; reflexivity.
  - destruct (updateTransactionsBillingData_session_mirrored billingInvoice s w)
      as [_ Hm].
    destruct (updateTransactionsBillingData_session this billingInvoice s w)
      as [[r1 w1] t1].
    specialize (IH w1).
    destruct (promiseAll _ w1) as [[rs w2] t2].
    unfold trace in *; simpl in *.
    apply (mirrored_app _ [_] _ _ _ Hm IH).
Qed.

(** C10.  For an invoice with sessions, [updateTransactionsBillingData]
    fetches the transaction of every session, in order, whatever
    happened to the sessions before; it addresses nothing but the
    transaction store and the logger; every save writes, for a fetched
    transaction that has a populated stop record, that transaction's
    billing data with the status and number of the invoice mirrored
    into it and, as its [lastUpdate], the date of the clock at the
    moment of the save; there is
    exactly one save per fetched transaction with a populated stop
    record, hence none for a transaction without one; there is exactly
    one error log per fetch or save that failed with an error value,
    hence none for a transaction without stop record; and the call
    resolves, unless a fetch or a save rejected without a value: then
    it rejects with what the handler threw on reading [error.stack]. *)
Theorem updateTransactionsBillingData_frame
    (billingInvoice : BillingInvoice) (ss : list BillingSession) (w : W) :
  sessions billingInvoice = Some ss ->
  let run := updateTransactionsBillingData this billingInvoice w in
  gets (trace run) = map transactionID ss
  /\ forallb isTransactionStoreOrLog (trace run) = true
  /\ savesMirror W this billingInvoice (trace run)
  /\ count isSave (trace run) = count isGetWithStop (trace run)
  /\ count isErrorLog (trace run) = count isValuedStoreFailure (trace run)
  /\ outcome run =
       (if existsb isValuelessStoreFailure (trace run)
        then Throw stackError else Ok tt).
Proof.
  intros Hs run. subst run. unfold updateTransactionsBillingData.
  rewrite Hs. unfold bind.
  pose proof (updateTransactionsBillingData_all_mirrored billingInvoice ss w)
    as Hm.
  pose proof (promiseAll_sessions
                (map (updateTransactionsBillingData_session this billingInvoice)
                   ss) w) as Ho.
  destruct (promiseAll _ w) as [[rs w1] t1].
  unfold outcome, trace in *; simpl in *.
  assert (Hout : match rs with
                 | Ok _ => sessionsOutcome t1 = Ok tt
                 | Throw e => sessionsOutcome t1 = Throw e
                 end).
  { apply Ho. intros c w0 Hin. apply list_elem_of_fmap in Hin as (s & -> & _).
    apply updateTransactionsBillingData_session_mirrored. }
  destruct Hm as (G & F & S & C & L).
  destruct rs; simpl; rewrite ?app_nil_r;
    (split; [exact G|]); (split; [exact F|]); (split; [exact S|]);
    (split; [exact C|]); (split; [exact L|]);
    unfold sessionsOutcome in Hout; by rewrite Hout.
Qed.

End TransactionsBillingData.

(* ===================================================================== *)
(** * Settlement batch runner *)
(* ===================================================================== *)

Section SettlementBatchRunner.
Context {W : Type} `{Environment W}.
Variable this : Integration.

Lemma replaySkip_app limit skip0 (t1 t2 : list Event) :
  replaySkip this limit skip0 (t1 ++ t2) =
    match replaySkip this limit skip0 t1 with
    | Some s1 => replaySkip this limit s1 t2
    | None => None
    end.
Proof.
  revert skip0. induction t1 as [|e t1 IH]; intros skip0; simpl;
    [reflexivity|].
  destruct e; try apply IH.
  destruct (p_skip p =? skip0); [apply IH|reflexivity].
Qed.

(** What a successful replay says: the value it ends with is the
    starting one plus [limit] per non-empty page minus one per invoice
    settled out of scope. *)
Lemma replaySkip_closed_form limit skip0 (t : list Event) s :
  replaySkip this limit skip0 t = Some s ->
  s = skip0 + limit * Z.of_nat (count isNonEmptyPage t)
      - Z.of_nat (count (isSettledOutOfScope this) t).
Proof.
  revert skip0. induction t as [|e t IH]; intros skip0; simpl.
  - intros [= <-]. unfold count. simpl. lia.
  - rewrite !count_cons.
    destruct e; try (intros Hr; apply IH in Hr; simpl in *; lia).
    + simpl. intros Hr. apply IH in Hr. simpl in Hr.
      destruct r as [j|]; simpl in *; [|lia].
      destruct (isInvoiceOutOfPeriodicOperationScope this j); lia.
    + destruct (p_skip p =? skip0); [|discriminate].
      intros Hr. apply IH in Hr.
      destruct (isNonEmptyPage (EGetInvoices f p r)); simpl; lia.
Qed.

(** ... and every page query in the trace carried the value replayed
    up to it. *)
Lemma replaySkip_queries limit skip0 (pre post : list Event) f p r s :
  replaySkip this limit skip0 (pre ++ EGetInvoices f p r :: post) = Some s ->
  p_skip p = skip0 + limit * Z.of_nat (count isNonEmptyPage pre)
             - Z.of_nat (count (isSettledOutOfScope this) pre).
Proof.
  rewrite replaySkip_app.
  destruct (replaySkip this limit skip0 pre) as [s1|] eqn:E; [|discriminate].
  apply replaySkip_closed_form in E. simpl.
  destruct (Z.eqb_spec (p_skip p) s1); [|discriminate]. intros _. lia.
Qed.

Lemma accounted_refl limit st : accounted this limit st [] st.
Proof. unfold accounted, count. simpl. repeat split; lia. Qed.

Lemma accounted_app limit st t1 st1 t2 st2 :
  accounted this limit st t1 st1 -> accounted this limit st1 t2 st2 ->
  accounted this limit st (t1 ++ t2) st2.
Proof.
  intros (R1 & A1 & B1 & C1) (R2 & A2 & B2 & C2). unfold accounted.
  rewrite replaySkip_app, R1, !count_app. repeat split; [exact R2|lia..].
Qed.

Lemma hasValue_false (e : error) : hasValue e = false -> e = Nullish.
Proof. destruct e; simpl; intros; try discriminate; reflexivity. Qed.

(** What the body of the inner loop does with one invoice. *)
Lemma chargeInvoices_body_run forceOperation invoice st (w : W) :
  chargeInvoices_body this forceOperation invoice st w =
    if isInvoiceOutOfPeriodicOperationScope this invoice then (Ok st, w, [])
    else if negb forceOperation && isSameDay (createdOn invoice) (now w) then
      (Ok (success st), w, [tooNew invoice])
    else
      match chargeInvoice invoice w with
      | (Ok newInvoice, w1) =>
          (Ok (success
                 (if isInvoiceOutOfPeriodicOperationScope this newInvoice
                  then compensate st else st)),
           w1, [EChargeInvoice invoice (Ok newInvoice); charged invoice])
      | (Throw e, w1) =>
          if hasValue e
          then (Ok (failure st), w1,
                [EChargeInvoice invoice (Throw e); notCharged invoice e])
          else (Throw stackError, w1, [EChargeInvoice invoice (Throw e)])
      end.
Proof.
  unfold chargeInvoices_body, try_catch, bind, call, read.
  destruct (isInvoiceOutOfPeriodicOperationScope this invoice);
    [reflexivity|]. simpl.
  destruct (negb forceOperation && isSameDay (createdOn invoice) (now w));
    [reflexivity|]. simpl.
  destruct (chargeInvoice invoice w) as [[newInvoice|e] w1]; [reflexivity|].
  destruct e; reflexivity.
Qed.

(** The body issues no page query; when it resolves, it has moved the
    counters as its trace tells; when it throws, its handler did, after
    a settlement that rejected without a value. *)
Lemma chargeInvoices_body_accounted limit forceOperation invoice st (w : W) :
  let run := chargeInvoices_body this forceOperation invoice st w in
  count isNonEmptyPage (trace run) = 0%nat
  /\ match outcome run with
     | Ok st' => accounted this limit st (trace run) st'
     | Throw e =>
         aborted (trace run) e
         /\ replaySkip this limit (skip st) (trace run) = Some (skip st)
     end.
Proof.
  intros run. subst run. rewrite chargeInvoices_body_run.
  destruct (isInvoiceOutOfPeriodicOperationScope this invoice).
  { split; [reflexivity|]. apply accounted_refl. }
  destruct (negb forceOperation && isSameDay (createdOn invoice) (now w)).
  { split; [reflexivity|]. unfold accounted, trace, count; simpl.
    repeat split; lia. }
  destruct (chargeInvoice invoice w) as [[newInvoice|e] w1].
  - split; [reflexivity|]. unfold accounted, trace, count; simpl.
    destruct (isInvoiceOutOfPeriodicOperationScope this newInvoice); simpl;
      repeat split; lia.
  - destruct (hasValue e) eqn:Ev.
    + split; [reflexivity|]. unfold accounted, trace, count; simpl.
      repeat split; lia.
    + apply hasValue_false in Ev as ->. split; [reflexivity|].
      unfold aborted, outcome, trace. simpl. eauto.
Qed.

Lemma chargeInvoices_page_accounted limit forceOperation invoices st (w : W) :
  let run := forEach (chargeInvoices_body this forceOperation) invoices st w in
  count isNonEmptyPage (trace run) = 0%nat
  /\ match outcome run with
     | Ok st' => accounted this limit st (trace run) st'
     | Throw e =>
         aborted (trace run) e
         /\ exists s, replaySkip this limit (skip st) (trace run) = Some s
     end.
Proof.
  revert st w. induction invoices as [|i l IH]; intros st w; simpl.
  - split; [reflexivity|]. apply accounted_refl.
  - unfold bind.
    destruct (chargeInvoices_body_accounted limit forceOperation i st w)
      as (Hp & Ha).
    destruct (chargeInvoices_body this forceOperation i st w)
      as [[[st1|e1] w1] t1]; unfold outcome, trace in *; simpl in *.
    + destruct (IH st1 w1) as (Hp2 & Ha2).
      destruct (forEach _ l st1 w1) as [[r2 w2] t2].
      unfold outcome, trace in *. simpl in *.
      split; [rewrite count_app; lia|].
      destruct r2 as [st2|e2].
      * eapply accounted_app; eassumption.
      * destruct Ha2 as [[-> [j Hl]] [s Hs]]. split.
        -- split; [reflexivity|]. exists j. by rewrite last_app, Hl.
        -- exists s. destruct Ha as [Hr _]. by rewrite replaySkip_app, Hr.
    + split; [exact Hp|]. destruct Ha as [Hab Hr]. split; [exact Hab|eauto].
Qed.

Lemma chargeInvoices_loop_end fuel forceOperation q st (w : W) :
  loopEnd this (qp_limit q) fuel st
    (chargeInvoices_loop this fuel forceOperation q st w).
Proof.
  revert st w. induction fuel as [|fuel IH]; intros st w.
  - unfold loopEnd, outcome, trace, count. simpl. eauto.
  - simpl. unfold bind at 1, call at 1.
    set (params := mkDbParams (Some (qp_sort q)) (qp_limit q) (skip st)).
    destruct (BillingStorage_getInvoices (tenant this) (qp_filter q) params w)
      as [[d|e] w1] eqn:Eq; simpl.
    + destruct (dr_result d) as [|i l] eqn:Ed;
        [simpl|cbn [Utils_isEmptyArray]].
      * assert (Hpage : accounted this (qp_limit q) st
                          [EGetInvoices (qp_filter q) params (Ok d)] st).
        { unfold accounted, count. simpl. rewrite Ed, Z.eqb_refl. simpl.
          repeat split; lia. }
        unfold loopEnd, outcome, trace. simpl. split; [|split].
        -- exists (skip st). apply Hpage.
        -- eauto.
        -- exact Hpage.
      * pose (st0 := mkChargeState (skip st + qp_limit q) (actionsDone st)).
        assert (Hpage : accounted this (qp_limit q) st
                          [EGetInvoices (qp_filter q) params (Ok d)] st0).
        { unfold accounted, count. simpl. rewrite Ed, Z.eqb_refl. simpl.
          repeat split; lia. }
        destruct (chargeInvoices_page_accounted (qp_limit q) forceOperation
                    (i :: l) st0 w1) as (Hp & Ha).
        fold st0. unfold bind at 1.
        destruct (forEach (chargeInvoices_body this forceOperation) (i :: l)
                    st0 w1) as [[[st1|e1] w3] tp];
          unfold outcome, trace in Hp, Ha; cbn [fst snd] in Hp, Ha.
        -- specialize (IH st1 w3).
           destruct (chargeInvoices_loop this fuel forceOperation q st1 w3)
             as [[r3 w4] t3].
           pose proof (accounted_app _ _ _ _ _ _ Hpage Ha) as Hhead.
           change ([EGetInvoices (qp_filter q) params (Ok d)] ++ tp)
             with (EGetInvoices (qp_filter q) params (Ok d) :: tp) in Hhead.
           destruct IH as [[s Hs] IH].
           unfold loopEnd, outcome, trace in *. cbn [fst snd app] in *. split.
           { exists s. destruct Hhead as [Hr _].
             rewrite app_comm_cons, replaySkip_app, Hr. exact Hs. }
           destruct r3 as [[st'|]|e3].
           ++ destruct IH as [(f & p & d' & Hl & Hd') Hacc]. split.
              ** exists f, p, d'. split; [|exact Hd'].
                 rewrite app_comm_cons, last_app, Hl. reflexivity.
              ** rewrite app_comm_cons.
                 apply (accounted_app _ _ _ _ _ _ Hhead Hacc).
           ++ rewrite count_cons, count_app, Hp, IH. simpl.
              rewrite Ed. reflexivity.
           ++ destruct IH as [(f & p & Hl)|[-> [j Hl]]].
              ** left. exists f, p.
                 rewrite app_comm_cons, last_app, Hl. reflexivity.
              ** right. split; [reflexivity|]. exists j.
                 rewrite app_comm_cons, last_app, Hl. reflexivity.
        -- destruct Ha as [[-> [j Hl]] [s Hs]].
           unfold loopEnd, outcome, trace. cbn [fst snd app]. split.
           ++ exists s. destruct Hpage as [Hr _].
              change (EGetInvoices (qp_filter q) params (Ok d) :: tp)
                with ([EGetInvoices (qp_filter q) params (Ok d)] ++ tp).
              rewrite replaySkip_app, Hr. exact Hs.
           ++ right. split; [reflexivity|]. exists j.
              change (EGetInvoices (qp_filter q) params (Ok d) :: tp)
                with ([EGetInvoices (qp_filter q) params (Ok d)] ++ tp).
              rewrite last_app, Hl. reflexivity.
    + unfold loopEnd, outcome, trace. simpl. rewrite Z.eqb_refl.
      split; [eauto|left; eauto].
Qed.

(** The page size of a run. *)
Lemma preparePeriodicBillingQueryParameters_limit today forceOperation :
  qp_limit (preparePeriodicBillingQueryParameters this today forceOperation)
  = if forceOperation then 1 else Constants_BATCH_PAGE_SIZE.
Proof.
  unfold preparePeriodicBillingQueryParameters.
  destruct forceOperation; reflexivity.
Qed.

(** The run is the connectivity check followed by the loop. *)
Lemma chargeInvoices_run_unfold fuel forceOperation (w : W) :
  chargeInvoices_run this fuel forceOperation w =
    match checkConnection w with
    | (Ok u, w1) =>
        let '(r, w2, t) :=
          chargeInvoices_loop this fuel forceOperation
            (preparePeriodicBillingQueryParameters this (now w1) forceOperation)
            (mkChargeState 0 (mkAction 0 0)) w1 in
        (r, w2, ECheckConnection (Ok u) :: t)
    | (Throw e, w1) => (Throw e, w1, [ECheckConnection (Throw e)])
    end.
Proof.
  unfold chargeInvoices_run, bind, call, read.
  destruct (checkConnection w) as [[u|e] w1]; [|reflexivity].
  destruct (chargeInvoices_loop _ _ _ _ _ w1) as [[r w2] t]. reflexivity.
Qed.

(** C2.  In every run of chargeInvoices, whatever the provider and the
    store do and however long the run lasts, the [skip] of every page
    query is the one obtained by adding the page size for each
    non-empty page fetched so far and taking one off for each invoice
    settled so far whose new status is out of periodic scope, and for
    nothing else: with [pages] non-empty pages and [transitions] such
    invoices in the whole run, the counter ends at
    [limit * pages - transitions], that is after exactly [transitions]
    compensations. *)
Theorem skip_compensated_once_per_transition (fuel : nat)
    (forceOperation : bool) (w : W) :
  let run := chargeInvoices_run this fuel forceOperation w in
  let limit := if forceOperation then 1 else Constants_BATCH_PAGE_SIZE in
  let pages := Z.of_nat (count isNonEmptyPage (trace run)) in
  let transitions :=
    Z.of_nat (count (isSettledOutOfScope this) (trace run)) in
  replaySkip this limit 0 (trace run) = Some (limit * pages - transitions)
  /\ match outcome run with
     | Ok (Some st) => skip st = limit * pages - transitions
     | _ => True
     end.
Proof.
  intros run limit pages transitions. subst run pages transitions.
  rewrite chargeInvoices_run_unfold.
  destruct (checkConnection w) as [[u|e] w1].
  - pose proof (chargeInvoices_loop_end fuel forceOperation
                  (preparePeriodicBillingQueryParameters this (now w1)
                     forceOperation)
                  (mkChargeState 0 (mkAction 0 0)) w1) as [[s Hs] Hend].
    rewrite preparePeriodicBillingQueryParameters_limit in Hs, Hend.
    fold limit in Hs, Hend.
    destruct (chargeInvoices_loop _ _ _ _ _ w1) as [[r w2] t].
    unfold outcome, trace in *. cbn [fst snd] in *.
    rewrite !count_cons. cbn [isNonEmptyPage isSettledOutOfScope].
    change (replaySkip this limit 0 (ECheckConnection (Ok u) :: t))
      with (replaySkip this limit 0 t).
    cbn [skip] in Hs.
    pose proof (replaySkip_closed_form _ _ _ _ Hs) as Hc.
    split.
    + rewrite Hs. f_equal. lia.
    + destruct r as [[st|]|]; try exact I.
      destruct Hend as [_ [Hr _]]. cbn [skip] in Hr.
      rewrite Hs in Hr. injection Hr as <-. lia.
  - unfold outcome, trace, count. simpl. split; [f_equal; lia|exact I].
Qed.

(** One turn of the loop. *)
Lemma chargeInvoices_loop_S fuel forceOperation q st (w : W) :
  chargeInvoices_loop this (S fuel) forceOperation q st w =
    (let params := mkDbParams (Some (qp_sort q)) (qp_limit q) (skip st) in
     invoices <- call (EGetInvoices (qp_filter q) params)
                   (BillingStorage_getInvoices (tenant this) (qp_filter q)
                      params) ;;
     if Utils_isEmptyArray (dr_result invoices) then ret (Some st)
     else
       st1 <- forEach (chargeInvoices_body this forceOperation)
                (dr_result invoices)
                (mkChargeState (skip st + qp_limit q) (actionsDone st)) ;;
       chargeInvoices_loop this fuel forceOperation q st1) w.
Proof. reflexivity. Qed.

(** A run that ended keeps its result with more fuel: the fuel only
    bounds the number of pages, it does not change what the loop does. *)
Lemma chargeInvoices_loop_more_fuel fuel extra forceOperation q st (w : W) :
  outcome (chargeInvoices_loop this fuel forceOperation q st w) <> Ok None ->
  chargeInvoices_loop this (fuel + extra) forceOperation q st w =
    chargeInvoices_loop this fuel forceOperation q st w.
Proof.
  revert st w. induction fuel as [|fuel IH]; intros st w Hend.
  - exfalso. apply Hend. reflexivity.
  - change (S fuel + extra)%nat with (S (fuel + extra)).
    rewrite !chargeInvoices_loop_S in *. cbv zeta in *.
    unfold bind, call in *.
    destruct (BillingStorage_getInvoices _ _ _ w) as [[d|e] w1]; [|reflexivity].
    destruct (Utils_isEmptyArray (dr_result d)); [reflexivity|].
    destruct (forEach _ _ _ w1) as [[[st1|e] w2] t2]; [|reflexivity].
    rewrite IH; [reflexivity|].
    intros Hnone. apply Hend.
    destruct (chargeInvoices_loop this fuel forceOperation q st1 w2)
      as [[r w3] t3].
    unfold outcome in *. simpl in *. exact Hnone.
Qed.

(** C4, as the code has it.  chargeInvoices raises to its caller an
    error of the connectivity check, an error of a page query (the query
    runs outside the per-invoice try block), or what the per-invoice
    handler throws on reading [error.stack] when the settlement of an
    invoice rejected without an error value, and nothing else.  An
    error that carries a value, occurring while an invoice is
    processed, is counted in [inError] and logged, and the loop goes
    on; the run returns the counts as soon as a page comes back empty,
    and keeps running only as long as pages are non-empty. *)
Theorem chargeInvoices_raises_from_connection_page_query_or_handler
    (fuel : nat) (forceOperation : bool) (w : W) :
  let run := chargeInvoices this fuel forceOperation w in
  match outcome run with
  | Throw e =>
      trace run = [ECheckConnection (Throw e)]
      \/ (exists f p, last (trace run) = Some (EGetInvoices f p (Throw e)))
      \/ (e = stackError
          /\ exists i, last (trace run) = Some (EChargeInvoice i (Throw Nullish)))
  | Ok None => count isNonEmptyPage (trace run) = fuel
  | Ok (Some actions) =>
      (exists f p d, last (trace run) = Some (EGetInvoices f p (Ok d))
                     /\ dr_result d = [])
      /\ inError actions = Z.of_nat (count isFailedCharge (trace run))
      /\ inError actions = Z.of_nat (count isErrorLog (trace run))
      /\ inSuccess actions = Z.of_nat (count isProgressLog (trace run))
  end.
Proof.
  intros run. subst run. unfold chargeInvoices, bind.
  rewrite chargeInvoices_run_unfold.
  destruct (checkConnection w) as [[u|e] w1].
  - pose proof (chargeInvoices_loop_end fuel forceOperation
                  (preparePeriodicBillingQueryParameters this (now w1)
                     forceOperation)
                  (mkChargeState 0 (mkAction 0 0)) w1) as [_ Hend].
    destruct (chargeInvoices_loop _ _ _ _ _ w1) as [[r w2] t].
    unfold outcome, trace in *. cbn [fst snd] in *.
    destruct r as [[st|]|e]; cbn [fst snd fmap option_fmap option_map ret].
    + destruct Hend as [(f & p & d & Hl & Hd) (_ & A & B & C)].
      rewrite app_nil_r, !count_cons. cbn in A, B, C |- *. split.
      * exists f, p, d. split; [|exact Hd].
        rewrite last_cons, Hl. reflexivity.
      * repeat split; lia.
    + rewrite app_nil_r, count_cons. exact Hend.
    + right. destruct Hend as [(f & p & Hl)|[-> [j Hl]]].
      * left. exists f, p. rewrite last_cons, Hl. reflexivity.
      * right. split; [reflexivity|]. exists j.
        rewrite last_cons, Hl. reflexivity.
  - left. reflexivity.
Qed.

End SettlementBatchRunner.

(* ===================================================================== *)
(** * The class at work on the in-memory environment *)
(* ===================================================================== *)

Module Scenarios.
Import Memory.

(** Bob's provider identity is gone: the forced synchronisation
    repairs it, the regular one does not notice. *)
Example forced_synchronisation_repairs :
  outcome (forceSynchronizeUser bob world)
    = Ok (Some (asBillingUser bob "cus_u2"))
  /\ count isRepair (trace (forceSynchronizeUser bob world)) = 1%nat
  /\ count isCreate (trace (forceSynchronizeUser bob world)) = 0%nat.
Proof. vm_compute. repeat split; reflexivity. Qed.

(** The window of a regular run on 31 January 2026 is December 2025; on
    31 March 2024 it starts on 1 February. *)
Example window_in_january :
  qp_filter (preparePeriodicBillingQueryParameters this (noon 2026 0 31) false)
  = {| startDateTime := Some (firstInstantOfMonth 2025 11);
       endDateTime := Some (firstInstantOfMonth 2026 0);
       f_invoiceStatus := [OPEN];
       f_liveMode := None |}.
Proof. reflexivity. Qed.

Example window_after_a_short_month :
  startDateTime
    (qp_filter (preparePeriodicBillingQueryParameters this (noon 2024 2 31)
                  false))
  = Some (firstInstantOfMonth 2024 1).
Proof. reflexivity. Qed.

(** A settlement of last month's invoices: three invoices in one page,
    each settled and leaving the scope, then an empty page queried at
    [256 - 3]. *)
Example settlement_of_october :
  outcome (chargeInvoices this 5 false world) = Ok (Some (mkAction 3 0))
  /\ outcome (chargeInvoices_run this 5 false world)
     = Ok (Some (mkChargeState 253 (mkAction 3 0))).
Proof. vm_compute. split; reflexivity. Qed.

(** An OPEN invoice of 1050 minor units in "eur" is announced with the
    amount 10.50 EUR. *)
Example notification_of_open_invoice :
  outcome (sendInvoiceNotification this in1 world) = Ok (Some true)
  /\ (exists payload,
        last (trace (sendInvoiceNotification this in1 world))
          = Some (ENotify "in_1" alice payload)
        /\ invoiceAmount payload = "EUR 10.50")
  /\ Qeq (Qmake (amount in1) 100) (Qmake 21 2).
Proof.
  split; [vm_compute; reflexivity|]. split; [|reflexivity].
  eexists. split; vm_compute; reflexivity.
Qed.

(** C3, where the code departs from it: for a DRAFT invoice nothing is
    dispatched, and the promise resolves to [undefined] (the function
    ends without a [return]), not to [true]. *)
Theorem sendInvoiceNotification_draft_resolves_to_undefined :
  status draft = DRAFT
  /\ sendInvoiceNotification this draft world = (Ok None, world, []).
Proof.
  split; [reflexivity|].
  apply sendInvoiceNotification_not_finalized; discriminate.
Qed.

(** C4 as stated does not hold: with the provider reachable and the
    invoice store down, the error of the first page query reaches the
    caller, and the connectivity check had passed. *)
Lemma chargeInvoices_page_query_error_escapes :
  ~ raisesOnlyFromConnectivityCheck.
Proof.
  intros Hclaim.
  assert (E : outcome (chargeInvoices this 1 false storeless)
              = Throw storeDown) by (vm_compute; reflexivity).
  apply Hclaim in E. vm_compute in E. discriminate E.
Qed.

(** A settlement that rejects without a value ends a run as well: in a
    forced run over three invoices of today, the second of which the
    provider refuses without a value, in_a is settled, in_b is passed
    to the provider, and in_c is never reached. *)
Example valueless_settlement_ends_the_run :
  let run := chargeInvoices (H := Valueless.env) this 5 true
               Accounts.todaysWorld in
  outcome run = Throw stackError
  /\ chargedInvoices (trace run) = [Accounts.morning; Accounts.faulty]
  /\ last (trace run) = Some (EChargeInvoice Accounts.faulty (Throw Nullish))
  /\ count isErrorLog (trace run) = 0%nat.
Proof. vm_compute. repeat split; reflexivity. Qed.

(** C7 as stated does not hold: a transaction without stop record whose
    last consumption came 75 s after its start is not decided, the
    check raises a TypeError on reading its consumption. *)
Lemma checkBillingDataThreshold_running_raises :
  ~ thresholdDecidesEveryTransaction.
Proof.
  intros Hclaim.
  destruct (Hclaim World env Accounts.overtime world eq_refl) as [b E].
  vm_compute in E. discriminate E.
Qed.

(** Witness of C7, on the figures of the specification: 30 s and
    0.5 kWh are refused, 120 s and 2 kWh accepted. *)
Lemma checkBillingDataThreshold_decision_witness :
  (stop shortSession = Some (mkTransactionStop 30000 500)
   /\ outcome (checkBillingDataThreshold shortSession world) = Ok false)
  /\ (stop longSession = Some (mkTransactionStop 120000 2000)
      /\ outcome (checkBillingDataThreshold longSession world) = Ok true).
Proof.
  split; (split; [reflexivity|]).
  - exact (proj1 (checkBillingDataThreshold_decision shortSession
                    (mkTransactionStop 30000 500) world eq_refl)).
  - exact (proj1 (checkBillingDataThreshold_decision longSession
                    (mkTransactionStop 120000 2000) world eq_refl)).
Defined.


(** What the two wrappers do then: they throw the TypeError of the
    handler and log nothing. *)
Example valueless_rejection_is_not_logged :
  let regular := synchronizeUser (H := Valueless.env) bob world in
  let forced := forceSynchronizeUser (H := Valueless.env) bob world in
  outcome regular = Throw stackError
  /\ count isLog (trace regular) = 0%nat
  /\ outcome forced = Throw stackError
  /\ count isLog (trace forced) = 0%nat.
Proof. vm_compute. repeat split; reflexivity. Qed.


(** After that sweep, which resolves, only the live invoice is left in
    the store. *)
Example sweep_leaves_the_live_invoice :
  let run := forEach (clearAllInvoiceTestData_body this) [in1; in2; in3] tt
               world in
  outcome run = Ok tt
  /\ invoices (final run) = [in2]
  /\ count isDelete (trace run) = 2%nat.
Proof. vm_compute. repeat split; reflexivity. Qed.

(** C10 as stated does not hold: when the store rejects the fetch of
    transaction 2 without a value, the failure is not logged and the
    call rejects. *)
Lemma valueless_session_failure_is_not_logged : ~ sessionFailuresAreLogged.
Proof.
  intros Hclaim.
  destruct (Hclaim World Valueless.env this in1 _ world eq_refl) as [E _].
  vm_compute in E. discriminate E.
Qed.

(** The other sessions of that call are attended to all the same:
    transaction 1 mirrors the invoice, transaction 3 is asked for. *)
Example valueless_session_failure_spares_the_others :
  let run := updateTransactionsBillingData (H := Valueless.env) this in1
               world in
  outcome run = Throw stackError
  /\ gets (trace run) = [1; 2; 3]
  /\ count isErrorLog (trace run) = 0%nat
  /\ count isStoreFailure (trace run) = 1%nat
  /\ (transactions (final run) !! 1 ≫= billingData) =
       Some (mirrorInvoice in1 (clock world) billed
               (mkBillingDataTransactionStop None (Some "in_1") None None)).
Proof. vm_compute. repeat split; reflexivity. Qed.

(** Witness of C10: invoice in_1 refers to a billed transaction, to one
    without stop record and to one the store does not have. *)
Lemma updateTransactionsBillingData_frame_witness :
  sessions in1 = Some [mkBillingSession 1; mkBillingSession 2;
                       mkBillingSession 3]
  /\ (let run := updateTransactionsBillingData this in1 world in
      gets (trace run) = [1; 2; 3]
      /\ forallb isTransactionStoreOrLog (trace run) = true
      /\ savesMirror World this in1 (trace run)
      /\ count isSave (trace run) = count isGetWithStop (trace run)
      /\ count isErrorLog (trace run) = count isValuedStoreFailure (trace run)
      /\ outcome run =
           (if existsb isValuelessStoreFailure (trace run)
            then Throw stackError else Ok tt)).
Proof.
  split; [reflexivity|].
  exact (updateTransactionsBillingData_frame this in1 _ world eq_refl).
Defined.

(** In the store: transaction 1 mirrors the invoice and is dated by the
    clock, transaction 2 is as it was; the call resolves. *)
Example update_touches_the_billed_transaction_only :
  let run := updateTransactionsBillingData this in1 world in
  let after := transactions (final run) in
  outcome run = Ok tt
  /\ after !! 2 = transactions world !! 2
  /\ after !! 4 = transactions world !! 4
  /\ (after !! 1 ≫= billingData) =
       Some {| withBillingActive := true;
               lastUpdate := noon 2026 10 2;
               bd_stop := Some {| bds_status := None;
                                  invoiceID := Some "in_1";
                                  invoiceNumber := Some "N-in_1";
                                  invoiceStatus := Some OPEN |} |}.
Proof. vm_compute. repeat split; reflexivity. Qed.

End Scenarios.
(* ===================================================================== *)
(** * The callers of the synchronisation *)
(* ===================================================================== *)

Section SynchronisationCallers.
Context {W : Type} `{Environment W}.

(** [a !== b] tells whether the two members differ. *)
Lemma strict_neq_spec (a b : Js.nullable string) :
  Js.strict_neq a b = false <-> a = b.
Proof.
  destruct a as [| |x], b as [| |y]; simpl; split; intros E;
    try reflexivity; try discriminate.
  - apply Bool.negb_false_iff, String.eqb_eq in E. by subst.
  - injection E as ->. by rewrite String.eqb_refl.
Qed.

(** A trace without log entries. *)
Lemma no_log_entries (t : list Event) :
  count isLog t = 0%nat ->
  List.filter (fun e => negb (isLog e)) t = t
  /\ count isWarningLog t = 0%nat
  /\ count isErrorLog t = 0%nat.
Proof.
  unfold count. induction t as [|e t IH]; simpl; [auto|].
  destruct e; simpl; try discriminate; intros Hl;
    destruct (IH Hl) as (-> & -> & ->); auto.
Qed.

(** X1.  [synchronizeUser] never fetches nor repairs: it asks
    [isUserSynchronized] and then calls [createUser] exactly once when
    the answer is false, [updateUser] exactly once when it is true, and
    neither when the question rejects.  It resolves to the result of
    that call; when the call or the question rejected with an error
    value it resolves to [null], and when that rejection had no value
    it throws.  It writes one log entry, and none when it throws. *)
Theorem synchronizeUser_creates_or_updates (user : User) (w : W) :
  let run := synchronizeUser user w in
  count isGetUser (trace run) = 0%nat
  /\ count isRepair (trace run) = 0%nat
  /\ match isUserSynchronized user w with
     | (Ok false, w1) =>
         count isCreate (trace run) = 1%nat
         /\ count isUpdate (trace run) = 0%nat
         /\ outcome run = wrapped (createUser user w1).1
         /\ count isLog (trace run) =
              (if is_ok (outcome run) then 1 else 0)%nat
     | (Ok true, w1) =>
         count isUpdate (trace run) = 1%nat
         /\ count isCreate (trace run) = 0%nat
         /\ outcome run = wrapped (updateUser user w1).1
         /\ count isLog (trace run) =
              (if is_ok (outcome run) then 1 else 0)%nat
     | (Throw e, _) =>
         count isCreate (trace run) = 0%nat
         /\ count isUpdate (trace run) = 0%nat
         /\ outcome run = wrapped (Throw e)
         /\ count isLog (trace run) =
              (if is_ok (outcome run) then 1 else 0)%nat
     end.
Proof.
  intros run. subst run.
  unfold synchronizeUser, _synchronizeUser, try_catch, bind, call. simpl.
  destruct (isUserSynchronized user w) as [[[]|e] w1]; simpl.
  - destruct (updateUser user w1) as [[bu|e] w2]; simpl;
      [|destruct e]; repeat split; reflexivity.
  - destruct (createUser user w1) as [[bu|e] w2]; simpl;
      [|destruct e]; repeat split; reflexivity.
  - destruct e; repeat split; reflexivity.
Qed.

(** X2.  [forceSynchronizeUser] adds nothing but log entries to the
    forced synchronisation: the world it leaves is the one the
    synchronisation left, and its calls are those of the
    synchronisation.  It writes the "CustomerID has been repaired"
    warning exactly when the synchronisation resolved and the
    customerID of the record it resolved with differs from the stored
    one ([null], [undefined] and every string being different values);
    it writes an error entry exactly when the synchronisation rejected
    with an error value, and throws when it rejected without one. *)
Theorem forceSynchronizeUser_reports_repaired_identity (user : User) (w : W) :
  let inner := _synchronizeUser user true w in
  let run := forceSynchronizeUser user w in
  final run = final inner
  /\ List.filter (fun e => negb (isLog e)) (trace run) = trace inner
  /\ match outcome inner with
     | Ok billingUser =>
         let stored := Js.member (user_billingData user) customerID in
         let repaired :=
           Js.member (Js.chain billingUser bu_billingData) customerID in
         (stored = repaired /\ count isWarningLog (trace run) = 0%nat)
         \/ (stored <> repaired /\ count isWarningLog (trace run) = 1%nat)
     | Throw _ => count isWarningLog (trace run) = 0%nat
     end
  /\ count isErrorLog (trace run) = reported (outcome inner)
  /\ outcome run = wrapped (outcome inner).
Proof.
  intros inner run. subst inner run.
  pose proof (_synchronizeUser_logs_nothing user true w) as Hlogs.
  unfold forceSynchronizeUser, try_catch, bind.
  destruct (_synchronizeUser user true w) as [[r w1] t1].
  unfold outcome, final, trace in *. cbn [fst snd] in *.
  destruct (no_log_entries t1 Hlogs) as (Hf & Hw & He).
  destruct r as [bu|e]; simpl.
  - destruct (Js.strict_neq _ _) eqn:En; simpl;
      rewrite ?List.filter_app, ?count_app, ?Hf, ?Hw, ?He; simpl;
      rewrite ?app_nil_r; repeat split; try reflexivity.
    + right. split; [|reflexivity]. intros Heq.
      apply strict_neq_spec in Heq. congruence.
    + left. split; [|reflexivity]. by apply strict_neq_spec.
  - destruct e; simpl;
      rewrite ?List.filter_app, ?count_app, ?Hf, ?Hw, ?He; simpl;
      rewrite ?app_nil_r; repeat split; reflexivity.
Qed.

End SynchronisationCallers.

(* ===================================================================== *)
(** * What a settlement run charges *)
(* ===================================================================== *)

Section SettlementAccounting.
Context {W : Type} `{Environment W}.
Variable this : Integration.

Ltac settle_trivial force :=
  repeat split; try reflexivity; try apply sublist_nil_l;
  try (destruct force; (reflexivity || exact I)).

Lemma delivered_app (t1 t2 : list Event) :
  delivered (t1 ++ t2) = delivered t1 ++ delivered t2.
Proof.
  induction t1 as [|e t1 IH]; simpl; [reflexivity|].
  destruct e; simpl; rewrite ?IH; try reflexivity.
  destruct r; [by rewrite app_assoc|reflexivity].
Qed.

Lemma chargedInvoices_app (t1 t2 : list Event) :
  chargedInvoices (t1 ++ t2) = chargedInvoices t1 ++ chargedInvoices t2.
Proof.
  induction t1 as [|e t1 IH]; simpl; [reflexivity|].
  destruct e; simpl; rewrite ?IH; reflexivity.
Qed.

Lemma pageSettled_nil forceOperation : pageSettled this forceOperation [] [].
Proof.
  unfold pageSettled, count. simpl.
  settle_trivial forceOperation.
Qed.

Lemma pageSettled_app forceOperation l1 l2 t1 t2 :
  pageSettled this forceOperation l1 t1 ->
  pageSettled this forceOperation l2 t2 ->
  pageSettled this forceOperation (l1 ++ l2) (t1 ++ t2).
Proof.
  intros (D1 & S1 & C1 & F1 & L1) (D2 & S2 & C2 & F2 & L2).
  unfold pageSettled.
  rewrite delivered_app, chargedInvoices_app, List.filter_app, !count_app,
    length_app, D1, D2.
  repeat split.
  - by apply sublist_app.
  - lia.
  - destruct forceOperation; [by rewrite F1, F2|exact I].
  - lia.
Qed.

(** One invoice of a page. *)
Lemma chargeInvoices_body_settled forceOperation invoice st (w : W) :
  pageSettled this forceOperation [invoice]
    (trace (chargeInvoices_body this forceOperation invoice st w)).
Proof.
  rewrite chargeInvoices_body_run. unfold pageSettled, inScope. simpl.
  destruct (isInvoiceOutOfPeriodicOperationScope this invoice) eqn:Eo; simpl.
  { unfold trace, count. simpl. settle_trivial forceOperation. }
  destruct forceOperation; simpl.
  - destruct (chargeInvoice invoice w) as [[n|e] w1];
      [|destruct (hasValue e)]; unfold trace, count;
      simpl; repeat split; reflexivity.
  - destruct (isSameDay (createdOn invoice) (now w)).
    + unfold trace, count. simpl. repeat split; try reflexivity.
      apply sublist_nil_l.
    + destruct (chargeInvoice invoice w) as [[n|e] w1];
        [|destruct (hasValue e)]; unfold trace, count;
        simpl; repeat split; reflexivity.
Qed.

(** The body throws exactly when the settlement rejected without a
    value. *)
Lemma chargeInvoices_body_valueless forceOperation invoice st (w : W) :
  let run := chargeInvoices_body this forceOperation invoice st w in
  existsb isValuelessCharge (trace run) = negb (is_ok (outcome run)).
Proof.
  intros run. subst run. rewrite chargeInvoices_body_run.
  destruct (isInvoiceOutOfPeriodicOperationScope this invoice);
    [reflexivity|].
  destruct (negb forceOperation && isSameDay (createdOn invoice) (now w));
    [reflexivity|].
  destruct (chargeInvoice invoice w) as [[n|e] w1]; [reflexivity|].
  destruct (hasValue e) eqn:Ev; unfold outcome, trace; simpl; by rewrite Ev.
Qed.

(** A page: the loop went through the invoices [visited], all of them
    unless the handler threw, which it did exactly when a settlement
    rejected without a value. *)
Lemma chargeInvoices_page_settled forceOperation invoices st (w : W) :
  let run := forEach (chargeInvoices_body this forceOperation) invoices st w in
  existsb isValuelessCharge (trace run) = negb (is_ok (outcome run))
  /\ exists visited rest,
       invoices = visited ++ rest
       /\ pageSettled this forceOperation visited (trace run)
       /\ (if is_ok (outcome run) then rest = [] else True).
Proof.
  revert st w. induction invoices as [|i l IH]; intros st w; simpl.
  - split; [reflexivity|]. exists [], []. split; [reflexivity|].
    split; [apply pageSettled_nil|reflexivity].
  - unfold bind.
    pose proof (chargeInvoices_body_settled forceOperation i st w) as Hi.
    pose proof (chargeInvoices_body_valueless forceOperation i st w) as Hv.
    destruct (chargeInvoices_body this forceOperation i st w)
      as [[[st'|e] w1] t1]; unfold trace, outcome in *; cbn [fst snd] in *.
    + destruct (IH st' w1) as (Hv' & visited & rest & -> & Hp & Hr).
      destruct (forEach _ (visited ++ rest) st' w1) as [[r2 w2] t2].
      cbn [fst snd] in *. split.
      * rewrite existsb_app, Hv, Hv'. reflexivity.
      * exists (i :: visited), rest. split; [reflexivity|].
        split; [apply (pageSettled_app _ [i] visited _ _ Hi Hp)|exact Hr].
    + split; [exact Hv|]. exists [i], l. split; [reflexivity|].
      split; [exact Hi|exact I].
Qed.

Lemma settled_nil forceOperation : settled this forceOperation [].
Proof.
  unfold settled, count. simpl.
  repeat split; try reflexivity; try apply sublist_nil_l.
  destruct forceOperation; [|exact I]. split; [by exists []|reflexivity].
Qed.

Lemma complete_nil forceOperation : complete this forceOperation [].
Proof.
  unfold complete, count. simpl. split; [reflexivity|].
  destruct forceOperation; [reflexivity|exact I].
Qed.

Lemma complete_app forceOperation t1 t2 :
  complete this forceOperation t1 -> complete this forceOperation t2 ->
  complete this forceOperation (t1 ++ t2).
Proof.
  intros (C1 & F1) (C2 & F2). unfold complete.
  rewrite delivered_app, chargedInvoices_app, List.filter_app, !count_app,
    length_app.
  split; [lia|]. destruct forceOperation; [by rewrite F1, F2|exact I].
Qed.

(** After a piece of trace in which nothing was left out. *)
Lemma settled_app forceOperation t1 t2 :
  settled this forceOperation t1 -> complete this forceOperation t1 ->
  settled this forceOperation t2 ->
  settled this forceOperation (t1 ++ t2).
Proof.
  intros (S1 & _ & F1 & L1) (C1 & E1) (S2 & C2 & F2 & L2). unfold settled.
  rewrite delivered_app, chargedInvoices_app, List.filter_app, !count_app,
    length_app.
  repeat split.
  - by apply sublist_app.
  - lia.
  - destruct forceOperation; [|exact I].
    destruct F1 as [_ W1], F2 as [[k Hk] W2]. split; [|lia].
    exists k. rewrite E1, Hk. by rewrite app_assoc.
  - lia.
Qed.

(** A page query followed by what was done with the page it returned. *)
Lemma settled_page forceOperation f p d visited rest t :
  dr_result d = visited ++ rest ->
  pageSettled this forceOperation visited t ->
  settled this forceOperation (EGetInvoices f p (Ok d) :: t)
  /\ (if Utils_isEmptyArray rest
      then complete this forceOperation (EGetInvoices f p (Ok d) :: t)
      else True).
Proof.
  intros Ed (D & S & C & F & L). unfold settled, complete. simpl.
  rewrite !count_cons. simpl. rewrite D, app_nil_r, Ed, List.filter_app,
    length_app.
  split; [repeat split|].
  - etrans; [exact S|]. by apply sublist_inserts_r.
  - lia.
  - destruct forceOperation; [|exact I]. split.
    + rewrite F. by eexists.
    + assert (Hl : length (chargedInvoices t) = count isCharge t).
      { clear. unfold count. induction t as [|e' t IH]; simpl;
          [reflexivity|destruct e'; simpl; rewrite ?IH; reflexivity]. }
      rewrite F in Hl. lia.
  - exact L.
  - destruct rest; [|exact I]. simpl. rewrite app_nil_r.
    split; [lia|]. destruct forceOperation; [exact F|exact I].
Qed.

Lemma chargeInvoices_loop_settled fuel forceOperation q st (w : W) :
  let run := chargeInvoices_loop this fuel forceOperation q st w in
  settled this forceOperation (trace run)
  /\ (if existsb isValuelessCharge (trace run)
      then is_ok (outcome run) = false
      else complete this forceOperation (trace run)).
Proof.
  revert st w. induction fuel as [|fuel IH]; intros st w.
  - split; [apply settled_nil|apply complete_nil].
  - rewrite chargeInvoices_loop_S. cbv zeta. unfold bind, call.
    destruct (BillingStorage_getInvoices _ _ _ w) as [[d|e] w1].
    + destruct (dr_result d) as [|i l] eqn:Ed.
      * simpl.
        destruct (settled_page forceOperation (qp_filter q)
                    (mkDbParams (Some (qp_sort q)) (qp_limit q) (skip st))
                    d [] [] [] Ed (pageSettled_nil forceOperation))
          as [Hs Hc].
        split; [exact Hs|exact Hc].
      * cbn [Utils_isEmptyArray].
        destruct (chargeInvoices_page_settled forceOperation (i :: l)
                    (mkChargeState (skip st + qp_limit q) (actionsDone st))
                    w1) as (Hv & visited & rest & Hl & Hp & Hr).
        assert (Hd : dr_result d = visited ++ rest) by (by rewrite Ed).
        destruct (settled_page forceOperation (qp_filter q)
                    (mkDbParams (Some (qp_sort q)) (qp_limit q) (skip st))
                    d visited rest _ Hd Hp) as [Hs Hc].
        destruct (forEach _ (i :: l) _ w1) as [[[st1|e] w2] t2];
          unfold trace, outcome in *; cbn [fst snd is_ok negb] in *.
        -- subst rest. cbn [Utils_isEmptyArray] in Hc.
           destruct (IH st1 w2) as [IHs IHc].
           destruct (chargeInvoices_loop this fuel forceOperation q st1 w2)
             as [[r3 w3] t3]. cbn [fst snd app] in *.
           rewrite app_comm_cons. split.
           ++ by apply settled_app.
           ++ rewrite existsb_app. cbn [existsb isValuelessCharge orb].
              rewrite Hv. cbn [orb].
              destruct (existsb isValuelessCharge t3); [exact IHc|].
              by apply complete_app.
        -- cbn [app]. split; [exact Hs|].
           cbn [existsb isValuelessCharge orb]. rewrite Hv. reflexivity.
    + split.
      * unfold settled, trace, count. simpl.
        repeat split; try reflexivity; try apply sublist_nil_l.
        destruct forceOperation; [|exact I].
        split; [by exists []|reflexivity].
      * unfold complete, trace, count. simpl. split; [reflexivity|].
        destruct forceOperation; [reflexivity|exact I].
Qed.

(** The connectivity check adds nothing to these observations. *)
Lemma chargeInvoices_run_settled fuel forceOperation (w : W) :
  let run := chargeInvoices_run this fuel forceOperation w in
  settled this forceOperation (trace run)
  /\ (if existsb isValuelessCharge (trace run)
      then is_ok (outcome run) = false
      else complete this forceOperation (trace run)).
Proof.
  rewrite chargeInvoices_run_unfold.
  destruct (checkConnection w) as [[u|e] w1].
  - pose proof (chargeInvoices_loop_settled fuel forceOperation
                  (preparePeriodicBillingQueryParameters this (now w1)
                     forceOperation)
                  (mkChargeState 0 (mkAction 0 0)) w1) as [Hl Hc].
    destruct (chargeInvoices_loop _ _ _ _ _ w1) as [[r w2] t].
    unfold trace, outcome in *. cbn [fst snd] in *.
    assert (Hs0 : settled this forceOperation [ECheckConnection (Ok u)]).
    { unfold settled, count. simpl.
      repeat split; try reflexivity; try apply sublist_nil_l.
      destruct forceOperation; [|exact I].
      split; [by exists []|reflexivity]. }
    assert (Hc0 : complete this forceOperation [ECheckConnection (Ok u)]).
    { unfold complete, count. simpl. split; [reflexivity|].
      destruct forceOperation; [reflexivity|exact I]. }
    split.
    + by apply (settled_app _ [ECheckConnection (Ok u)] t).
    + cbn [existsb isValuelessCharge orb].
      destruct (existsb isValuelessCharge t); [exact Hc|].
      by apply (complete_app _ [ECheckConnection (Ok u)] t).
  - split.
    + unfold settled, trace, count. simpl.
      repeat split; try reflexivity; try apply sublist_nil_l.
      destruct forceOperation; [|exact I].
      split; [by exists []|reflexivity].
    + unfold complete, trace, count. simpl. split; [reflexivity|].
      destruct forceOperation; [reflexivity|exact I].
Qed.

(** X3.  The scope test of the loop and the status filter of the query
    agree: an invoice is in periodic scope exactly when its status is
    one the query asks for, in both modes and on any day. *)
Theorem scope_agrees_with_query_filter (today : DateTime)
    (forceOperation : bool) (invoice : BillingInvoice) :
  isInvoiceOutOfPeriodicOperationScope this invoice = false
  <-> In (status invoice)
        (f_invoiceStatus
           (qp_filter (preparePeriodicBillingQueryParameters this today
                         forceOperation))).
Proof.
  unfold isInvoiceOutOfPeriodicOperationScope,
    preparePeriodicBillingQueryParameters.
  destruct forceOperation; simpl;
    destruct (periodicBillingAllowed (billing (settings this)));
    destruct (status invoice); simpl; split; intros Hx;
    try reflexivity; try discriminate; auto;
    repeat (destruct Hx as [Hx|Hx]; try discriminate); try contradiction.
Qed.

(** X4.  In every run, however it ends, the invoices handed to
    [chargeInvoice] are, in order, in-scope invoices that the page
    queries delivered, none of them more often than it was delivered. *)
Theorem charged_invoices_were_delivered_in_scope (fuel : nat)
    (forceOperation : bool) (w : W) :
  let t := trace (chargeInvoices this fuel forceOperation w) in
  chargedInvoices t `sublist_of` List.filter (inScope this) (delivered t).
Proof.
  intros t. subst t. unfold chargeInvoices, bind.
  pose proof (chargeInvoices_run_settled fuel forceOperation w)
    as ((S & _) & _).
  destruct (chargeInvoices_run this fuel forceOperation w) as [[[st|e] w1] t1];
    unfold trace in *; cbn [fst snd ret] in *; rewrite ?app_nil_r; exact S.
Qed.

(** The trace and the outcome of chargeInvoices are those of the run it
    wraps. *)
Lemma chargeInvoices_trace fuel forceOperation (w : W) :
  trace (chargeInvoices this fuel forceOperation w)
  = trace (chargeInvoices_run this fuel forceOperation w)
  /\ is_ok (outcome (chargeInvoices this fuel forceOperation w))
     = is_ok (outcome (chargeInvoices_run this fuel forceOperation w)).
Proof.
  unfold chargeInvoices, bind.
  destruct (chargeInvoices_run this fuel forceOperation w) as [[[st|e] w1] t1];
    unfold trace, outcome; cbn [fst snd ret]; rewrite ?app_nil_r;
    split; reflexivity.
Qed.

(** X5.  In a run of chargeInvoices no in-scope invoice delivered by
    the store is handed to [chargeInvoice] or put off with the "too new"
    warning more than once.  Unless a settlement rejected without an
    error value, which ends the run with a throw, each of them is
    handed over or put off; and when the run returns its counts,
    [inSuccess] and [inError] add up to the number of in-scope invoices
    delivered: invoices out of scope are not counted. *)
Theorem every_delivered_invoice_is_accounted_for (fuel : nat)
    (forceOperation : bool) (w : W) :
  let run := chargeInvoices this fuel forceOperation w in
  let inScopeDelivered :=
    length (List.filter (inScope this) (delivered (trace run))) in
  (count isCharge (trace run) + count isWarningLog (trace run)
   <= inScopeDelivered)%nat
  /\ (if existsb isValuelessCharge (trace run)
      then is_ok (outcome run) = false
      else (count isCharge (trace run) + count isWarningLog (trace run))%nat
           = inScopeDelivered)
  /\ match outcome run with
     | Ok (Some actions) =>
         inSuccess actions + inError actions = Z.of_nat inScopeDelivered
     | _ => True
     end.
Proof.
  intros run inScopeDelivered. subst run inScopeDelivered.
  destruct (chargeInvoices_trace fuel forceOperation w) as [-> Hok].
  pose proof (chargeInvoices_run_settled fuel forceOperation w)
    as ((_ & C & _ & L) & Hc).
  split; [exact C|]. split.
  { rewrite Hok.
    destruct (existsb isValuelessCharge _); [exact Hc|apply Hc]. }
  unfold chargeInvoices, bind.
  rewrite chargeInvoices_run_unfold in *.
  destruct (checkConnection w) as [[u|e] w1]; [|exact I].
  pose proof (chargeInvoices_loop_end this fuel forceOperation
                (preparePeriodicBillingQueryParameters this (now w1)
                   forceOperation)
                (mkChargeState 0 (mkAction 0 0)) w1) as [_ Hend].
  destruct (chargeInvoices_loop _ _ _ _ _ w1) as [[r w2] t].
  unfold outcome, trace in *. cbn [fst snd] in *.
  destruct r as [[st|]|e]; cbn [fst snd fmap option_fmap option_map ret];
    try exact I.
  destruct Hend as [_ (_ & A & _ & B)].
  destruct (existsb isValuelessCharge _); [discriminate Hc|].
  destruct Hc as [Hc _].
  rewrite !count_cons in L, Hc. cbn in A, B, L, Hc |- *.
  unfold count in *. lia.
Qed.

(** X6.  A forced run puts nothing off: the invoices handed to
    [chargeInvoice] are the first of the in-scope invoices delivered, in
    the order of delivery, and all of them unless a settlement rejected
    without an error value, which ends the run with a throw. *)
Theorem forced_run_charges_every_delivered_invoice (fuel : nat) (w : W) :
  let run := chargeInvoices this fuel true w in
  chargedInvoices (trace run)
    `prefix_of` List.filter (inScope this) (delivered (trace run))
  /\ count isWarningLog (trace run) = 0%nat
  /\ (if existsb isValuelessCharge (trace run)
      then is_ok (outcome run) = false
      else chargedInvoices (trace run)
           = List.filter (inScope this) (delivered (trace run))).
Proof.
  intros run. subst run.
  destruct (chargeInvoices_trace fuel true w) as [-> Hok].
  pose proof (chargeInvoices_run_settled fuel true w)
    as ((_ & _ & (P & Wn) & _) & Hc).
  split; [exact P|]. split; [exact Wn|]. rewrite Hok.
  destruct (existsb isValuelessCharge _); [exact Hc|apply Hc].
Qed.

End SettlementAccounting.

(* ===================================================================== *)
(** * What a notification carries *)
(* ===================================================================== *)

Section NotificationPayload.
Context {W : Type} `{Environment W}.
Variable this : Integration.

Ltac run_notification billingInvoice w :=
  unfold sendInvoiceNotification, try_catch, bind, call, deref, lift, ret,
    throw, Logging_log, emit;
  destruct (status billingInvoice) eqn:Es; simpl;
  try (destruct (TenantStorage_getTenant (tenant_id (tenant this)) w)
         as [[[tn|]|e] w1]; simpl;
       destruct (invoice_user billingInvoice) as [u|] eqn:Eu; simpl;
       destruct (currency billingInvoice) as [c|] eqn:Ec; simpl;
       try (destruct (Intl_formatCurrency _ _ _) as [text|e'] eqn:Ef; simpl);
       repeat match goal with x : error |- _ => destruct x; simpl end).

(** X7.  The result of [sendInvoiceNotification] tells what it did:
    [true] after exactly one dispatch and no log entry, [false] after
    an error entry and no dispatch, and no result at all ([undefined])
    when it did nothing, not even a lookup.  It rejects only with what
    its handler throws on reading [error.stack], when the lookup or the
    formatting failed without an error value; then it has dispatched
    and logged nothing. *)
Theorem sendInvoiceNotification_result_tells_dispatch
    (billingInvoice : BillingInvoice) (w : W) :
  let run := sendInvoiceNotification this billingInvoice w in
  match outcome run with
  | Ok (Some true) =>
      count isNotify (trace run) = 1%nat /\ count isLog (trace run) = 0%nat
  | Ok (Some false) =>
      count isNotify (trace run) = 0%nat
      /\ count isErrorLog (trace run) = 1%nat
  | Ok None => trace run = [] /\ final run = w
  | Throw e =>
      e = stackError
      /\ count isNotify (trace run) = 0%nat
      /\ count isLog (trace run) = 0%nat
  end.
Proof.
  intros run. subst run. run_notification billingInvoice w;
    unfold outcome, trace, final, count; simpl; repeat split; reflexivity.
Qed.

(** X8.  A notification that was dispatched is about the invoice given:
    it goes to the user of the invoice, carries its number and status
    (OPEN or PAID), shows the payment link of the invoice only while it
    is OPEN, and shows as amount the text the formatter produced for the
    minor-unit amount over 100 in the upper-cased currency and the
    locale of the user. *)
Theorem dispatched_notification_describes_the_invoice
    (billingInvoice : BillingInvoice) (w : W) (id : string) (user : User)
    (payload : NewInvoiceNotification) :
  ENotify id user payload ∈ trace (sendInvoiceNotification this billingInvoice w) ->
  id = invoice_id billingInvoice
  /\ invoice_user billingInvoice = Some user
  /\ n_user payload = user
  /\ n_invoiceNumber payload = number billingInvoice
  /\ n_invoiceStatus payload = status billingInvoice
  /\ (status billingInvoice = OPEN \/ status billingInvoice = PAID)
  /\ payInvoiceUrlShown payload =
       (match status billingInvoice with
        | OPEN => payInvoiceUrl billingInvoice
        | _ => ""
        end)
  /\ exists code,
       currency billingInvoice = Some code
       /\ Intl_formatCurrency (Utils_convertLocaleForCurrency (user_locale user))
            (toUpperCase code) (Qmake (amount billingInvoice) 100)
          = Ok (invoiceAmount payload).
Proof.
  run_notification billingInvoice w; unfold trace; simpl; intros Hin;
    repeat (apply elem_of_cons in Hin as [Hin|Hin]; try discriminate Hin);
    try (apply elem_of_nil in Hin; contradiction);
    injection Hin as -> -> ->; simpl;
    (repeat split; auto; eexists; split; [reflexivity|]; exact Ef).
Qed.

End NotificationPayload.

(* ===================================================================== *)
(** * The purge of invoices, invoice by invoice *)
(* ===================================================================== *)

Section InvoicePurge.
Context {W : Type} `{Environment W}.
Variable this : Integration.

Lemma deletes_app (t1 t2 : list Event) :
  deletes (t1 ++ t2) = deletes t1 ++ deletes t2.
Proof.
  induction t1 as [|e t1 IH]; simpl; [reflexivity|].
  destruct e; simpl; rewrite ?IH; reflexivity.
Qed.

(** A trace that only addresses the transaction store and the logger
    deletes no invoice. *)
Lemma store_or_log_deletes_nothing (t : list Event) :
  forallb isTransactionStoreOrLog t = true ->
  deletes t = [] /\ count isDelete t = 0%nat.
Proof.
  unfold count. induction t as [|e t IH]; simpl; [auto|].
  destruct e; simpl; try discriminate; exact IH.
Qed.

Lemma cleared_nil : cleared W this [] [].
Proof.
  unfold cleared, count. simpl.
  split; [reflexivity|]. split; [reflexivity|]. split; [|split; reflexivity].
  intros id bd r Hin. apply elem_of_nil in Hin. contradiction.
Qed.

Lemma cleared_app ids1 ids2 t1 t2 :
  cleared W this ids1 t1 -> cleared W this ids2 t2 ->
  cleared W this (ids1 ++ ids2) (t1 ++ t2).
Proof.
  intros (G1 & F1 & S1 & C1 & L1) (G2 & F2 & S2 & C2 & L2).
  unfold cleared. rewrite gets_app, forallb_app, !count_app, G1, G2, F1, F2.
  split; [reflexivity|]. split; [reflexivity|]. split; [|split; lia].
  intros id bd r Hin. apply elem_of_app in Hin as [Hin|Hin].
  - destruct (S1 _ _ _ Hin) as (Hc & Hd & g & tr & Hg & Hid).
    split; [exact Hc|]. split; [exact Hd|]. exists g, tr.
    split; [apply elem_of_app; by left|exact Hid].
  - destruct (S2 _ _ _ Hin) as (Hc & Hd & g & tr & Hg & Hid).
    split; [exact Hc|]. split; [exact Hd|]. exists g, tr.
    split; [apply elem_of_app; by right|exact Hid].
Qed.

(** What the purge does for one session, by the answers of the store. *)
Lemma clearTransactionsTestData_session_run (session : BillingSession) (w : W) :
  let id := transactionID session in
  clearTransactionsTestData_session this session w =
    match TransactionStorage_getTransaction (tenant this) id w with
    | (Throw e, w1) =>
        if hasValue e
        then (Ok tt, w1, [EGetTransaction id (Throw e); clearFailure e])
        else (Throw stackError, w1, [EGetTransaction id (Throw e)])
    | (Ok None, w1) =>
        (Ok tt, w1,
         [EGetTransaction id (Ok None);
          clearFailure
            (TypeError "Cannot read properties of undefined: billingData")])
    | (Ok (Some t), w1) =>
        let bd := {| withBillingActive := false;
                     lastUpdate := now w1;
                     bd_stop := Some {| bds_status := Some UNBILLED;
                                        invoiceID := None;
                                        invoiceNumber := None;
                                        invoiceStatus := None |} |} in
        match TransactionStorage_saveTransactionBillingData (tenant this)
                (transaction_id t) bd w1 with
        | (Ok u, w2) =>
            (Ok tt, w2,
             [EGetTransaction id (Ok (Some t));
              ESaveTransactionBillingData (transaction_id t) bd (Ok u)])
        | (Throw e, w2) =>
            if hasValue e
            then (Ok tt, w2,
                  [EGetTransaction id (Ok (Some t));
                   ESaveTransactionBillingData (transaction_id t) bd (Throw e);
                   clearFailure e])
            else (Throw stackError, w2,
                  [EGetTransaction id (Ok (Some t));
                   ESaveTransactionBillingData (transaction_id t) bd (Throw e)])
        end
    end.
Proof.
  intros id. subst id.
  unfold clearTransactionsTestData_session, try_catch, bind, call, read, deref.
  destruct (TransactionStorage_getTransaction _ _ w) as [[[t|]|e] w1]; simpl;
    try reflexivity.
  - destruct (TransactionStorage_saveTransactionBillingData _ _ _ w1)
      as [[[]|e] w2]; [reflexivity|]. destruct e; reflexivity.
  - destruct e; reflexivity.
Qed.

Lemma clearTransactionsTestData_session_cleared (session : BillingSession)
    (w : W) :
  let run := clearTransactionsTestData_session this session w in
  outcome run = sessionsOutcome (trace run)
  /\ cleared W this [transactionID session] (trace run).
Proof.
  intros run. subst run. rewrite clearTransactionsTestData_session_run.
  assert (Hnone : forall (t : list Event),
            count isSave t = 0%nat ->
            gets t = [transactionID session] ->
            forallb isTransactionStoreOrLog t = true ->
            count isSave t = count isGetFound t ->
            count isErrorLog t = count isClearFailure t ->
            cleared W this [transactionID session] t).
  { intros t Hno G F C L. unfold cleared.
    split; [assumption|]. split; [assumption|].
    split; [|split; assumption].
    intros id bd r Hin. exfalso. by eapply no_save_event. }
  destruct (TransactionStorage_getTransaction _ _ w) as [[[t|]|e] w1].
  - cbv zeta.
    set (record := {| withBillingActive := false;
                      lastUpdate := now w1;
                      bd_stop := Some {| bds_status := Some UNBILLED;
                                         invoiceID := None;
                                         invoiceNumber := None;
                                         invoiceStatus := None |} |}).
    assert (Hsave : forall r w2 tail,
              TransactionStorage_saveTransactionBillingData (tenant this)
                (transaction_id t) record w1 = (r, w2) ->
              count isSave tail = 0%nat ->
              forall id bd r',
                ESaveTransactionBillingData id bd r'
                ∈ EGetTransaction (transactionID session) (Ok (Some t))
                  :: ESaveTransactionBillingData (transaction_id t) record r
                  :: tail ->
                isClearedRecord bd
                /\ datedAtSave W this id bd r'
                /\ exists g tr,
                     EGetTransaction g (Ok (Some tr))
                     ∈ EGetTransaction (transactionID session) (Ok (Some t))
                       :: ESaveTransactionBillingData (transaction_id t)
                            record r
                       :: tail
                     /\ transaction_id tr = id).
    { intros r w2 tail Es Hno id bd r' Hin.
      apply elem_of_cons in Hin as [Hin|Hin]; [discriminate|].
      apply elem_of_cons in Hin as [Hin|Hin].
      - injection Hin as -> -> ->.
        split; [split; reflexivity|].
        split; [exists w1; split; [reflexivity|by rewrite Es]|].
        exists (transactionID session), t.
        split; [apply elem_of_cons; by left|reflexivity].
      - exfalso. by eapply no_save_event. }
    destruct (TransactionStorage_saveTransactionBillingData _ _ _ w1)
      as [[[]|e] w2] eqn:Es; [|destruct (hasValue e) eqn:Ev];
      (split; [unfold sessionsOutcome, outcome, trace; simpl;
               rewrite ?Ev; reflexivity|]);
      unfold cleared, trace;
      (split; [reflexivity|]); (split; [reflexivity|]);
      (split; [by eapply Hsave
              |unfold count; simpl; rewrite ?Ev; split; reflexivity]).
  - split; [reflexivity|]. apply Hnone; reflexivity.
  - destruct (hasValue e) eqn:Ev;
      (split; [unfold sessionsOutcome, outcome, trace; simpl;
               rewrite ?Ev; reflexivity|]);
      apply Hnone; unfold count; simpl; rewrite ?Ev; reflexivity.
Qed.

Lemma clearTransactionsTestData_all_cleared (ss : list BillingSession) (w : W) :
  let run := promiseAll (map (clearTransactionsTestData_session this) ss) w in
  cleared W this (map transactionID ss) (trace run).
Proof.
  revert w. induction ss as [|s ss IH]; intros w; simpl.
  - apply cleared_nil.
  - destruct (clearTransactionsTestData_session_cleared s w) as [_ Hc].
    destruct (clearTransactionsTestData_session this s w) as [[r1 w1] t1].
    specialize (IH w1).
    destruct (promiseAll _ w1) as [[rs w2] t2].
    unfold trace in *; simpl in *.
    apply (cleared_app [_] _ _ _ Hc IH).
Qed.

(** The sessions of an invoice, cleared one after the other. *)
Lemma clearTransactionsTestData_cleared
    (billingInvoice : BillingInvoice) (ss : list BillingSession) (w : W) :
  sessions billingInvoice = Some ss ->
  let run := clearTransactionsTestData this billingInvoice w in
  cleared W this (map transactionID ss) (trace run)
  /\ outcome run = sessionsOutcome (trace run).
Proof.
  intros Hs. unfold clearTransactionsTestData, bind, deref.
  rewrite Hs. simpl.
  pose proof (clearTransactionsTestData_all_cleared ss w) as Hc.
  pose proof (promiseAll_sessions
                (map (clearTransactionsTestData_session this) ss) w) as Ho.
  destruct (promiseAll _ w) as [[rs w1] t1].
  unfold outcome, trace in *; simpl in *.
  assert (Hout : match rs with
                 | Ok _ => sessionsOutcome t1 = Ok tt
                 | Throw e => sessionsOutcome t1 = Throw e
                 end).
  { apply Ho. intros c w0 Hin. apply list_elem_of_fmap in Hin as (s & -> & _).
    apply clearTransactionsTestData_session_cleared. }
  destruct rs; simpl; rewrite ?app_nil_r; split; try assumption;
    by rewrite Hout.
Qed.

(** X9.  For an invoice with sessions, [clearTransactionsTestData]
    fetches the transaction of every session in order and addresses
    nothing but the transaction store and the logger; every save
    writes, under the id of a fetched transaction, billing data that is
    inactive, dated by the clock at the moment of the save, with an
    UNBILLED stop record without invoice; there is one save per
    transaction found and
    one error entry per missing transaction and per fetch or save that
    rejected with an error value.  It resolves, unless a fetch or a
    save rejected without a value: then it rejects with what the
    handler threw on reading [error.stack]. *)
Theorem clearTransactionsTestData_resets_billing_data
    (billingInvoice : BillingInvoice) (ss : list BillingSession) (w : W) :
  sessions billingInvoice = Some ss ->
  let run := clearTransactionsTestData this billingInvoice w in
  cleared W this (map transactionID ss) (trace run)
  /\ outcome run =
       (if existsb isValuelessStoreFailure (trace run)
        then Throw stackError else Ok tt).
Proof.
  intros Hs run. subst run.
  exact (clearTransactionsTestData_cleared billingInvoice ss w Hs).
Qed.

Lemma existsb_purge_failure (t : list Event) :
  forallb isTransactionStoreOrLog t = true ->
  existsb isValuelessPurgeFailure t = existsb isValuelessStoreFailure t.
Proof.
  induction t as [|e t IH]; simpl; [reflexivity|].
  intros [He Ht]%andb_prop. rewrite (IH Ht). f_equal.
  unfold isValuelessPurgeFailure. destruct e; try discriminate;
    simpl; rewrite ?orb_false_r; reflexivity.
Qed.

(** What the purge of one invoice that is not live and has sessions
    does: it clears the sessions and then, unless that rejected, asks
    for the deletion. *)
Lemma clearInvoiceTestData_run
    (invoice : BillingInvoice) (ss : list BillingSession) (w : W) :
  liveMode invoice = false ->
  sessions invoice = Some ss ->
  let clearing := clearTransactionsTestData this invoice w in
  clearInvoiceTestData this invoice w =
    if existsb isValuelessStoreFailure (trace clearing)
    then (Throw stackError, final clearing, trace clearing)
    else
      let '(r, w2) :=
        BillingStorage_deleteInvoice (tenant this) (invoice_id invoice)
          (final clearing) in
      (r, w2, trace clearing ++ [EDeleteInvoice (invoice_id invoice) r]).
Proof.
  intros Hl Hs clearing. subst clearing.
  destruct (clearTransactionsTestData_cleared invoice ss w Hs) as [_ Ho].
  unfold clearInvoiceTestData. rewrite Hl. unfold bind, call.
  destruct (clearTransactionsTestData this invoice w) as [[r1 w1] t1].
  unfold outcome, final, trace, sessionsOutcome in *; simpl in *. subst r1.
  destruct (existsb isValuelessStoreFailure t1); [reflexivity|].
  destruct (BillingStorage_deleteInvoice _ _ w1) as [r w2]. reflexivity.
Qed.

(** X10.  For an invoice that is not live and has sessions,
    [clearInvoiceTestData] fetches the transaction of every session.
    Unless a fetch or a save rejected without an error value, it then
    asks the store to delete the invoice, exactly once and as its last
    action, whatever else failed for the sessions, and the outcome of
    the deletion is its own outcome.  When a fetch or a save rejected
    without a value, it rejects and no deletion is asked for. *)
Theorem clearInvoiceTestData_deletes_after_clearing
    (invoice : BillingInvoice) (ss : list BillingSession) (w : W) :
  liveMode invoice = false ->
  sessions invoice = Some ss ->
  let run := clearInvoiceTestData this invoice w in
  gets (trace run) = map transactionID ss
  /\ (if existsb isValuelessStoreFailure (trace run)
      then outcome run = Throw stackError /\ deletes (trace run) = []
      else exists r,
             last (trace run) = Some (EDeleteInvoice (invoice_id invoice) r)
             /\ outcome run = r
             /\ deletes (trace run) = [invoice_id invoice]).
Proof.
  intros Hl Hs run. subst run.
  rewrite (clearInvoiceTestData_run invoice ss w Hl Hs). cbv zeta.
  destruct (clearTransactionsTestData_cleared invoice ss w Hs)
    as [(G & F & _) _].
  destruct (store_or_log_deletes_nothing _ F) as [Hd _].
  destruct (clearTransactionsTestData this invoice w) as [[r1 w1] t1].
  unfold final, trace in *. cbn [fst snd] in *.
  destruct (existsb isValuelessStoreFailure t1) eqn:Ev.
  - unfold outcome. cbn [fst snd]. rewrite Ev.
    split; [exact G|]. split; [reflexivity|exact Hd].
  - destruct (BillingStorage_deleteInvoice _ _ w1) as [r w2].
    unfold outcome. cbn [fst snd].
    rewrite gets_app, G, existsb_app, Ev, deletes_app, Hd. simpl.
    split; [apply app_nil_r|]. exists r. rewrite last_snoc.
    repeat split; reflexivity.
Qed.

(** What the body of the sweep does with an invoice that is not live
    and has sessions. *)
Lemma clearAllInvoiceTestData_body_run
    (invoice : BillingInvoice) (ss : list BillingSession) (w : W) :
  liveMode invoice = false ->
  sessions invoice = Some ss ->
  let clearing := clearTransactionsTestData this invoice w in
  clearAllInvoiceTestData_body this invoice tt w =
    if existsb isValuelessStoreFailure (trace clearing)
    then (Ok tt, final clearing,
          trace clearing ++ [invoiceNotCleared invoice stackError])
    else
      match BillingStorage_deleteInvoice (tenant this) (invoice_id invoice)
              (final clearing) with
      | (Ok u, w2) =>
          (Ok tt, w2,
           trace clearing ++ [EDeleteInvoice (invoice_id invoice) (Ok u);
                              invoiceCleared invoice])
      | (Throw e, w2) =>
          if hasValue e
          then (Ok tt, w2,
                trace clearing ++ [EDeleteInvoice (invoice_id invoice) (Throw e);
                                   invoiceNotCleared invoice e])
          else (Throw stackError, w2,
                trace clearing ++ [EDeleteInvoice (invoice_id invoice)
                                     (Throw e)])
      end.
Proof.
  intros Hl Hs clearing. subst clearing.
  unfold clearAllInvoiceTestData_body, try_catch, bind at 1.
  rewrite (clearInvoiceTestData_run invoice ss w Hl Hs). cbv zeta.
  destruct (clearTransactionsTestData this invoice w) as [[r1 w1] t1].
  unfold final, trace. cbn [fst snd].
  destruct (existsb isValuelessStoreFailure t1); [reflexivity|].
  destruct (BillingStorage_deleteInvoice _ _ w1) as [[[]|e] w2]; simpl.
  - by rewrite <- app_assoc.
  - destruct e; simpl; rewrite ?app_nil_r, <- ?app_assoc; reflexivity.
Qed.

(** ... and with any other invoice: the failure of its purge is logged. *)
Lemma clearAllInvoiceTestData_body_refuses (invoice : BillingInvoice) (w : W) :
  purgeable invoice = false ->
  exists e, clearAllInvoiceTestData_body this invoice tt w
            = (Ok tt, w, [invoiceNotCleared invoice e]).
Proof.
  unfold purgeable, clearAllInvoiceTestData_body, try_catch, bind at 1,
    clearInvoiceTestData.
  destruct (liveMode invoice); simpl; [intros _; by eexists|].
  unfold clearTransactionsTestData, bind, deref.
  destruct (sessions invoice); [discriminate|]. simpl. intros _. by eexists.
Qed.

(** The body of the sweep: it asks for the deletion of its invoice at
    most, and of no invoice that is live or has no sessions; it throws
    only when the deletion rejected without a value; unless a store
    operation rejected without a value it resolves, having asked for
    the deletion of an invoice that is not live and has sessions. *)
Lemma clearAllInvoiceTestData_body_purges (invoice : BillingInvoice) (w : W) :
  let run := clearAllInvoiceTestData_body this invoice tt w in
  deletes (trace run)
    `sublist_of` (if purgeable invoice then [invoice_id invoice] else [])
  /\ (outcome run = Ok tt
      \/ (outcome run = Throw stackError
          /\ exists id, last (trace run)
                        = Some (EDeleteInvoice id (Throw Nullish))))
  /\ (existsb isValuelessPurgeFailure (trace run) = true
      \/ (outcome run = Ok tt
          /\ deletes (trace run)
             = (if purgeable invoice then [invoice_id invoice] else []))).
Proof.
  intros run. subst run.
  destruct (purgeable invoice) eqn:Hp.
  2:{ destruct (clearAllInvoiceTestData_body_refuses invoice w Hp) as [e ->].
      unfold outcome, trace. simpl.
      split; [reflexivity|]. split; [by left|]. right. by split. }
  unfold purgeable in Hp. apply andb_prop in Hp as [Hl Hs].
  apply Bool.negb_true_iff in Hl.
  destruct (sessions invoice) as [ss|] eqn:Es; [clear Hs|discriminate].
  rewrite (clearAllInvoiceTestData_body_run invoice ss w Hl Es). cbv zeta.
  destruct (clearTransactionsTestData_cleared invoice ss w Es)
    as [(_ & F & _) _].
  destruct (store_or_log_deletes_nothing _ F) as [Hd _].
  pose proof (existsb_purge_failure _ F) as Hp.
  destruct (clearTransactionsTestData this invoice w) as [[r1 w1] t1].
  unfold final, trace in *. cbn [fst snd] in *.
  destruct (existsb isValuelessStoreFailure t1) eqn:Ev.
  - unfold outcome. cbn [fst snd].
    rewrite deletes_app, Hd, existsb_app, Hp. simpl.
    split; [apply sublist_nil_l|]. split; [by left|by left].
  - destruct (BillingStorage_deleteInvoice _ _ w1) as [[[]|e] w2].
    + unfold outcome. cbn [fst snd].
      rewrite !deletes_app, Hd, !existsb_app, Hp. simpl.
      split; [reflexivity|]. split; [by left|]. right. by split.
    + destruct (hasValue e) eqn:Ee.
      * unfold outcome. cbn [fst snd].
        rewrite !deletes_app, Hd, !existsb_app, Hp. simpl.
        unfold isValuelessPurgeFailure. simpl. rewrite Ee. simpl.
        split; [reflexivity|]. split; [by left|]. right. by split.
      * apply hasValue_false in Ee as ->. unfold outcome. cbn [fst snd].
        rewrite !deletes_app, Hd, !existsb_app, Hp. simpl.
        split; [reflexivity|]. split; [|by left].
        right. split; [reflexivity|]. eexists. by rewrite last_snoc.
Qed.

Lemma clearAllInvoiceTestData_sweep_purges (l : list BillingInvoice) (w : W) :
  let run := forEach (clearAllInvoiceTestData_body this) l tt w in
  deletes (trace run) `sublist_of` map invoice_id (List.filter purgeable l)
  /\ (outcome run = Ok tt
      \/ (outcome run = Throw stackError
          /\ exists id, last (trace run)
                        = Some (EDeleteInvoice id (Throw Nullish))))
  /\ (existsb isValuelessPurgeFailure (trace run) = true
      \/ (outcome run = Ok tt
          /\ deletes (trace run)
             = map invoice_id (List.filter purgeable l))).
Proof.
  revert w. induction l as [|i l IH]; intros w; simpl.
  { split; [reflexivity|]. split; [by left|]. right. by split. }
  unfold bind.
  destruct (clearAllInvoiceTestData_body_purges i w) as (Hs & Ho & Hc).
  assert (Hhead : (if purgeable i then [invoice_id i] else [])
                    ++ map invoice_id (List.filter purgeable l)
                  = map invoice_id
                      (if purgeable i then i :: List.filter purgeable l
                       else List.filter purgeable l))
    by (destruct (purgeable i); reflexivity).
  destruct (clearAllInvoiceTestData_body this i tt w) as [[[[]|e] w1] t1];
    unfold outcome, trace in *; cbn [fst snd] in *.
  - destruct (IH w1) as (Hs' & Ho' & Hc').
    destruct (forEach _ l tt w1) as [[r2 w2] t2].
    unfold outcome, trace in *; cbn [fst snd] in *.
    rewrite deletes_app, existsb_app, <- Hhead. split; [|split].
    + by apply sublist_app.
    + destruct Ho' as [->|[-> [id Hl]]]; [by left|right].
      split; [reflexivity|]. exists id. by rewrite last_app, Hl.
    + destruct Hc as [Hc|[_ Hc]]; [left; by rewrite Hc|].
      destruct Hc' as [Hc'|[-> Hc']]; [left; by rewrite Hc', orb_true_r|].
      right. by rewrite Hc, Hc'.
  - rewrite <- Hhead. split; [|split].
    + etrans; [exact Hs|]. by apply sublist_inserts_r.
    + exact Ho.
    + destruct Hc as [Hc|[Hc _]]; [by left|discriminate Hc].
Qed.

(** X11.  [clearAllInvoiceTestData] passes on a rejection of its query,
    and then touches nothing else.  Otherwise the invoices it asks the
    store to delete are, in order, invoices of the page that are not
    live and have sessions: no live invoice is ever deleted, whatever
    the store returned.  It rejects only with what its handler throws
    on reading [error.stack], after a deletion that rejected without an
    error value; and unless a fetch, a save or a deletion rejected
    without a value, it resolves and has asked for the deletion of
    every invoice of the page that is not live and has sessions. *)
Theorem clearAllInvoiceTestData_deletes_only_the_purgeable (w : W) :
  let run := clearAllInvoiceTestData this w in
  match BillingStorage_getInvoices (tenant this) testDataFilter
          Constants_DB_PARAMS_MAX_LIMIT w with
  | (Throw e, w1) =>
      run = (Throw e, w1,
             [EGetInvoices testDataFilter Constants_DB_PARAMS_MAX_LIMIT
                (Throw e)])
  | (Ok d, _) =>
      deletes (trace run)
        `sublist_of` map invoice_id (List.filter purgeable (dr_result d))
      /\ Forall (fun i => liveMode i = false)
           (List.filter purgeable (dr_result d))
      /\ (outcome run = Ok tt
          \/ (outcome run = Throw stackError
              /\ exists id, last (trace run)
                            = Some (EDeleteInvoice id (Throw Nullish))))
      /\ (existsb isValuelessPurgeFailure (trace run) = true
          \/ (outcome run = Ok tt
              /\ deletes (trace run)
                 = map invoice_id (List.filter purgeable (dr_result d))))
  end.
Proof.
  intros run. subst run. unfold clearAllInvoiceTestData, bind, call.
  destruct (BillingStorage_getInvoices _ _ _ w) as [[d|e] w1]; [|reflexivity].
  destruct (clearAllInvoiceTestData_sweep_purges (dr_result d) w1)
    as (Hs & Ho & Hc).
  destruct (forEach _ (dr_result d) tt w1) as [[r2 w2] t2].
  unfold outcome, trace in *; cbn [fst snd app deletes existsb] in *.
  split; [exact Hs|]. split; [|split].
  - apply Forall_forall. intros i Hi. apply list_elem_of_In in Hi.
    apply filter_In in Hi as [_ Hp].
    unfold purgeable in Hp. destruct (liveMode i); [discriminate|reflexivity].
  - destruct Ho as [->|[-> [id Hl]]]; [by left|right].
    split; [reflexivity|]. exists id. by rewrite last_cons, Hl.
  - exact Hc.
Qed.

End InvoicePurge.

(* ===================================================================== *)
(** * The purge of the accounts and the purge as a whole *)
(* ===================================================================== *)

Section AccountPurgeFacts.
Context {W : Type} `{Environment W} `{UserStore W}.
Variable this : Integration.

Lemma erasedLinks_app (t1 t2 : list PurgeEvent) :
  erasedLinks (t1 ++ t2) = erasedLinks t1 ++ erasedLinks t2.
Proof.
  induction t1 as [|e t1 IH]; simpl; [reflexivity|].
  destruct e as [e|[f p r|id [bd|] r]]; simpl; rewrite ?IH; reflexivity.
Qed.

Lemma userStoreCalls_app (t1 t2 : list PurgeEvent) :
  userStoreCalls (t1 ++ t2) = userStoreCalls t1 ++ userStoreCalls t2.
Proof.
  induction t1 as [|e t1 IH]; simpl; [reflexivity|].
  destruct e; simpl; rewrite ?IH; reflexivity.
Qed.

(** One account of the sweep: a live account is left alone, any other
    has its link erased; the body throws only when the erasure rejected
    without an error value. *)
Lemma clearAllUsersTestData_body_run (user : User) (w : W) :
  clearAllUsersTestData_body this user w =
    if hasLiveBillingData user then
      (Ok tt, w, [Core (userNotCleared user liveUserRefusal)])
    else
      match UserStorage_saveUserBillingData (tenant this) (user_id user) None w
      with
      | (Ok u, w1) =>
          (Ok tt, w1,
           [Users (ESaveUserBillingData (user_id user) None (Ok u));
            Core (userCleared user)])
      | (Throw e, w1) =>
          if hasValue e
          then (Ok tt, w1,
                [Users (ESaveUserBillingData (user_id user) None (Throw e));
                 Core (userNotCleared user e)])
          else (Throw stackError, w1,
                [Users (ESaveUserBillingData (user_id user) None (Throw e))])
      end.
Proof.
  unfold clearAllUsersTestData_body, clearUserTestBillingData, ptry, pbind,
    pthrow, ucall, core, emit.
  destruct (hasLiveBillingData user); [reflexivity|].
  destruct (UserStorage_saveUserBillingData _ _ _ w) as [[u|e] w1];
    [reflexivity|]. destruct e; reflexivity.
Qed.

Lemma clearAllUsersTestData_sweep (users : list User) (w : W) :
  let run := pforEach (clearAllUsersTestData_body this) users w in
  let testAccounts :=
    map user_id (List.filter (fun u => negb (hasLiveBillingData u)) users) in
  erasedLinks run.2 `prefix_of` testAccounts
  /\ length (userStoreCalls run.2) = length (erasedLinks run.2)
  /\ ((run.1.1 = Ok tt /\ erasedLinks run.2 = testAccounts)
      \/ (run.1.1 = Throw stackError
          /\ exists id,
               last run.2
               = Some (Users (ESaveUserBillingData id None (Throw Nullish))))).
Proof.
  revert w. induction users as [|u l IH]; intros w; simpl.
  { split; [by exists []|]. split; [reflexivity|]. left. by split. }
  unfold pbind. rewrite clearAllUsersTestData_body_run.
  destruct (hasLiveBillingData u); simpl.
  - specialize (IH w).
    destruct (pforEach _ l w) as [[r2 w2] t2]. simpl in *.
    destruct IH as (Hp & Hc & Hend). split; [exact Hp|]. split; [exact Hc|].
    destruct Hend as [Hend|[-> [id Hl]]]; [by left|right].
    split; [reflexivity|]. exists id. by rewrite last_cons, Hl.
  - destruct (UserStorage_saveUserBillingData _ _ _ w) as [[x|e] w1];
      [|destruct (hasValue e) eqn:Ee];
      try (specialize (IH w1);
           destruct (pforEach _ l w1) as [[r2 w2] t2]; simpl in *;
           destruct IH as ([k Hk] & -> & Hend);
           split; [exists k; by rewrite Hk|]; split; [reflexivity|];
           destruct Hend as [[-> ->]|[-> [id Hl]]];
           [left; by split
           |right; split; [reflexivity|]; exists id;
            by rewrite !last_cons, Hl]).
    apply hasValue_false in Ee as ->. simpl.
    split; [by eexists|]. split; [reflexivity|].
    right. split; [reflexivity|]. by eexists.
Qed.

(** X12.  [clearAllUsersTestData] passes on a rejection of its query,
    and then touches nothing else.  Otherwise the accounts whose
    provider link it erases are, in order, the first of those of the
    page that carry no live billing data (none at all when the store
    reports a count that is not positive); a live account is never
    written, and the store is called for nothing but the query and
    these erasures.  It resolves, having erased the link of every such
    account, unless an erasure rejected without an error value: that
    ends the sweep with what the handler throws on reading
    [error.stack]. *)
Theorem clearAllUsersTestData_erases_test_links_only (w : W) :
  let run := clearAllUsersTestData this w in
  match UserStorage_getUsers (tenant this) testUsersFilter
          Constants_DB_PARAMS_MAX_LIMIT w with
  | (Throw e, w1) =>
      run = (Throw e, w1,
             [Users (EGetUsers testUsersFilter Constants_DB_PARAMS_MAX_LIMIT
                       (Throw e))])
  | (Ok d, _) =>
      let testAccounts :=
        map user_id
          (List.filter (fun u => negb (hasLiveBillingData u)) (sweptUsers d)) in
      erasedLinks run.2 `prefix_of` testAccounts
      /\ length (userStoreCalls run.2) = S (length (erasedLinks run.2))
      /\ ((run.1.1 = Ok tt /\ erasedLinks run.2 = testAccounts)
          \/ (run.1.1 = Throw stackError
              /\ exists id,
                   last run.2
                   = Some (Users (ESaveUserBillingData id None
                                    (Throw Nullish)))))
  end.
Proof.
  intros run. subst run.
  unfold clearAllUsersTestData, getUsersWithTestBillingData, pbind, ucall,
    sweptUsers.
  destruct (UserStorage_getUsers _ _ _ w) as [[d|e] w1]; [|reflexivity].
  destruct (0 <? dr_count d); unfold pret; simpl.
  - pose proof (clearAllUsersTestData_sweep (dr_result d) w1) as Hs.
    destruct (pforEach _ (dr_result d) w1) as [[r2 w2] t2]. simpl in *.
    destruct Hs as (Hp & -> & Hend). split; [exact Hp|].
    split; [reflexivity|].
    destruct Hend as [[-> ->]|[-> [id Hl]]]; [left; by split|].
    right. split; [reflexivity|]. exists id. by rewrite last_cons, Hl.
  - split; [by exists []|]. split; [reflexivity|]. left. by split.
Qed.


End AccountPurgeFacts.

(* ===================================================================== *)
(** * The guards, one against the other *)
(* ===================================================================== *)

Section GuardsTogether.
Context {W : Type} `{Environment W}.
Variable this : Integration.

(** X14.  A transaction that [checkStartTransaction] accepts for its own
    charging station passes [checkBillTransaction]: what the start of a
    session demands of the user and of the station is all that billing
    the session demands. *)
Theorem accepted_at_start_is_billable (transaction : Transaction)
    (siteArea : option SiteArea) :
  checkStartTransaction this transaction (chargeBox transaction) siteArea
    = Ok true ->
  checkBillTransaction transaction = Ok tt.
Proof.
  unfold checkStartTransaction, checkBillTransaction.
  destruct (isTransactionBillingActivated _); simpl; [|discriminate].
  destruct (Js.truthy_string (userID transaction)); simpl; [|discriminate].
  destruct (transaction_user transaction) as [user|]; simpl; [|discriminate].
  destruct (freeAccess user); [discriminate|].
  destruct (chargeBox transaction); simpl; [|discriminate].
  destruct (Utils_isTenantComponentActive _ _).
  - destruct siteArea as [sa|]; [|discriminate].
    destruct (accessControl sa); simpl; [|discriminate].
    destruct (Js.truthy _); [reflexivity|discriminate].
  - destruct (Js.truthy _); [reflexivity|discriminate].
Qed.

(** X15.  Outside a development environment, a transaction that has not
    stopped yet is measured up to its last consumption: under 60
    seconds the check resolves to false, and from 60 seconds on it
    rejects with a TypeError, for there is no stop record to read the
    consumption from. *)
Theorem threshold_of_a_running_transaction (transaction : Transaction)
    (c : Consumption) (w : W) :
  Utils_isDevelopmentEnv = false ->
  stop transaction = None ->
  lastConsumption transaction = Some c ->
  outcome (checkBillingDataThreshold transaction w) =
    if consumption_timestamp c - timestamp transaction <? 60000
    then Ok false
    else Throw (TypeError
                  "Cannot read properties of undefined: totalConsumptionWh").
Proof.
  intros Hd Hs Hc.
  unfold checkBillingDataThreshold, computeTimeSpentInSeconds.
  rewrite Hd, Hs, Hc. unfold bind, lift, deref, throw, ret. simpl.
  rewrite Qlt_bool_seconds.
  destruct (consumption_timestamp c - timestamp transaction <? 60000);
    reflexivity.
Qed.

(** X16.  [checkBillingDataThreshold] changes nothing in the world, and
    it writes a warning exactly when it suppresses the billing: one
    warning when it resolves to false, no entry at all otherwise. *)
Theorem suppressed_billing_is_logged (transaction : Transaction) (w : W) :
  let run := checkBillingDataThreshold transaction w in
  final run = w
  /\ match outcome run with
     | Ok false => length (trace run) = 1%nat
                   /\ count isWarningLog (trace run) = 1%nat
     | _ => trace run = []
     end.
Proof.
  intros run. subst run.
  unfold checkBillingDataThreshold, computeTimeSpentInSeconds.
  destruct Utils_isDevelopmentEnv; simpl; [split; reflexivity|].
  unfold bind, lift, deref, throw, ret.
  destruct (stop transaction) as [s|]; simpl.
  - destruct (Qlt_bool _ _); simpl; [repeat split; reflexivity|].
    destruct (totalConsumptionWh s <? 1000); simpl; repeat split; reflexivity.
  - destruct (lastConsumption transaction) as [c|]; simpl;
      [|split; reflexivity].
    destruct (Qlt_bool _ _); simpl; repeat split; reflexivity.
Qed.

(** X17.  The windows of regular runs in consecutive months tile: the
    window computed on any day of a month ends at the instant where the
    window computed on any day of the following month starts. *)
Theorem consecutive_windows_tile (today next : DateTime) :
  0 <= month today <= 11 ->
  inNextMonth today next ->
  endDateTime (qp_filter (preparePeriodicBillingQueryParameters this today
                            false))
  = startDateTime (qp_filter (preparePeriodicBillingQueryParameters this next
                                false)).
Proof.
  intros Hm Hn. unfold preparePeriodicBillingQueryParameters. simpl.
  rewrite date_0, !date_1. unfold inNextMonth, nextMonth in Hn.
  unfold prevMonth, startOfDay. simpl.
  destruct (Z.eqb_spec (month today) 11) as [E|E];
    injection Hn as Hy Hmo; rewrite Hy, Hmo; simpl.
  - rewrite E. replace (year today + 1 - 1) with (year today) by lia.
    reflexivity.
  - destruct (Z.eqb_spec (month today + 1) 0) as [E0|E0]; [lia|]. simpl.
    replace (month today + 1 - 1) with (month today) by lia. reflexivity.
Qed.

End GuardsTogether.

(* ===================================================================== *)
(** * The validator is built once *)
(* ===================================================================== *)

Section ValidatorFacts.
Import Validator.
Context {F I : Type} `{Platform F I}.

(** X18.  [UserValidator.getInstance] builds the validator at most
    once: with an instance in place it returns that instance and reads
    nothing; asking twice in a row does what asking once does, with the
    same result; the instance is kept exactly when the construction
    succeeded, so that a failed construction is tried again by the next
    call. *)
Theorem getInstance_builds_once (s : State F) :
  andThen getInstance (fun _ => getInstance) s = getInstance s
  /\ (count_occ bool_dec (map isRead (getInstance s).2) true <= 1)%nat
  /\ match instance s with
     | Some v => getInstance s = (Ok v, s, [])
     | None =>
         match (getInstance s).1.1 with
         | Ok v => instance (getInstance s).1.2 = Some v
         | Throw _ => instance (getInstance s).1.2 = None
         end
     end.
Proof.
  unfold andThen, getInstance, new.
  destruct s as [[v|] f]; simpl.
  - repeat split; auto.
  - destruct (SchemaValidator_new "UserValidator" f) as [[[]|e] f1]; simpl.
    + destruct (readSchema schemaPath f1) as [[schema|e] f2]; simpl;
        rewrite ?app_nil_r; repeat split; auto.
    + repeat split; auto.
Qed.

End ValidatorFacts.

(* ===================================================================== *)
(** * Further runs on the in-memory environment *)
(* ===================================================================== *)

Module FurtherScenarios.
Import Memory Accounts Validator.

(** Witness of X8: the notification of the OPEN invoice in_1. *)
Lemma dispatched_notification_describes_the_invoice_witness :
  ENotify "in_1" alice notice ∈ trace (sendInvoiceNotification this in1 world)
  /\ n_invoiceNumber notice = number in1
  /\ n_invoiceStatus notice = status in1
  /\ payInvoiceUrlShown notice = payInvoiceUrl in1
  /\ Intl_formatCurrency (Utils_convertLocaleForCurrency (user_locale alice))
       "EUR" (Qmake 1050 100) = Ok (invoiceAmount notice).
Proof.
  assert (Hin : ENotify "in_1" alice notice
                ∈ trace (sendInvoiceNotification this in1 world)).
  { apply list_elem_of_In. vm_compute. right. left. reflexivity. }
  split; [exact Hin|].
  destruct (dispatched_notification_describes_the_invoice this in1 world
              _ _ _ Hin) as (_ & _ & _ & Hn & Hs & _ & Hp & code & Hc & Hf).
  injection Hc as <-.
  split; [exact Hn|]. split; [exact Hs|]. split; [exact Hp|exact Hf].
Defined.

(** Witness of X9: the sessions of in_1; transaction 3 does not exist. *)
Lemma clearTransactionsTestData_resets_billing_data_witness :
  sessions in1 = Some [mkBillingSession 1; mkBillingSession 2;
                       mkBillingSession 3]
  /\ (let run := clearTransactionsTestData this in1 world in
      cleared World this [1; 2; 3] (trace run)
      /\ outcome run =
           (if existsb isValuelessStoreFailure (trace run)
            then Throw stackError else Ok tt)).
Proof.
  split; [reflexivity|].
  exact (clearTransactionsTestData_resets_billing_data this in1 _ world
           eq_refl).
Defined.

(** Witness of X10: the purge of in_1. *)
Lemma clearInvoiceTestData_deletes_after_clearing_witness :
  liveMode in1 = false
  /\ sessions in1 = Some [mkBillingSession 1; mkBillingSession 2;
                          mkBillingSession 3]
  /\ (let run := clearInvoiceTestData this in1 world in
      gets (trace run) = [1; 2; 3]
      /\ (if existsb isValuelessStoreFailure (trace run)
          then outcome run = Throw stackError /\ deletes (trace run) = []
          else exists r,
                 last (trace run) = Some (EDeleteInvoice "in_1" r)
                 /\ outcome run = r
                 /\ deletes (trace run) = ["in_1"])).
Proof.
  split; [reflexivity|]. split; [reflexivity|].
  exact (clearInvoiceTestData_deletes_after_clearing this in1 _ world
           eq_refl eq_refl).
Defined.

(** That purge on the sample data: every session is attended to, the
    missing transaction 3 is reported, and the invoice is deleted. *)
Example purge_of_an_invoice :
  let run := clearInvoiceTestData this in1 world in
  outcome run = Ok tt
  /\ deletes (trace run) = ["in_1"]
  /\ count isErrorLog (trace run) = 1%nat
  /\ (transactions (final run) !! 1 ≫= billingData) =
       Some {| withBillingActive := false;
               lastUpdate := noon 2026 10 2;
               bd_stop := Some {| bds_status := Some UNBILLED;
                                  invoiceID := None;
                                  invoiceNumber := None;
                                  invoiceStatus := None |} |}.
Proof. vm_compute. repeat split; reflexivity. Qed.

(** When the tenant lookup rejects without a value, the notification
    is neither sent nor its failure logged: the handler throws. *)
Example valueless_lookup_in_the_notification :
  sendInvoiceNotification (H := Valueless.env) this in1 world
  = (Throw stackError, world, [EGetTenant "tenant-1" (Throw Nullish)]).
Proof. reflexivity. Qed.

(** With stores that reject without a value: the fetch of transaction 2
    makes the purge of in_1 reject, so that in_1 is kept, and the
    deletion of in_3 ends the sweep. *)
Example valueless_rejections_in_the_invoice_purge :
  let run := clearAllInvoiceTestData (H := Valueless.env) this world in
  outcome run = Throw stackError
  /\ deletes (trace run) = ["in_3"]
  /\ last (trace run) = Some (EDeleteInvoice "in_3" (Throw Nullish))
  /\ map invoice_id (invoices (final run)) = ["in_1"; "in_2"; "in_3"].
Proof. vm_compute. repeat split; reflexivity. Qed.

(** With a user store that rejects the erasure for bob without a value:
    the sweep of the accounts ends there. *)
Example valueless_rejection_in_the_account_purge :
  let run := clearAllUsersTestData (H0 := Valueless.store) this world in
  run.1.1 = Throw stackError
  /\ erasedLinks run.2 = ["u1"; "u2"]
  /\ last run.2
     = Some (Users (ESaveUserBillingData "u2" None (Throw Nullish))).
Proof. vm_compute. repeat split; reflexivity. Qed.

(** Witness of X14: the long session in the garage. *)
Lemma accepted_at_start_is_billable_witness :
  checkStartTransaction this longSession (chargeBox longSession) (Some garage)
    = Ok true
  /\ checkBillTransaction longSession = Ok tt.
Proof.
  split; [reflexivity|].
  apply (accepted_at_start_is_billable this longSession (Some garage)).
  reflexivity.
Defined.

(** Witness of X15: the running session, 45 s after its start. *)
Lemma threshold_of_a_running_transaction_witness :
  Utils_isDevelopmentEnv = false
  /\ stop running = None
  /\ lastConsumption running = Some (mkConsumption 45000)
  /\ outcome (checkBillingDataThreshold running world) = Ok false.
Proof.
  split; [reflexivity|]. split; [reflexivity|]. split; [reflexivity|].
  exact (threshold_of_a_running_transaction running (mkConsumption 45000) world
           eq_refl eq_refl eq_refl).
Defined.

(** Witness of X17: December 2025 and January 2026. *)
Lemma consecutive_windows_tile_witness :
  0 <= month (noon 2025 11 24) <= 11
  /\ inNextMonth (noon 2025 11 24) (noon 2026 0 5)
  /\ endDateTime (qp_filter (preparePeriodicBillingQueryParameters this
                               (noon 2025 11 24) false))
     = startDateTime (qp_filter (preparePeriodicBillingQueryParameters this
                                   (noon 2026 0 5) false)).
Proof.
  assert (Hm : 0 <= month (noon 2025 11 24) <= 11) by (simpl; lia).
  assert (Hn : inNextMonth (noon 2025 11 24) (noon 2026 0 5)) by reflexivity.
  split; [exact Hm|]. split; [exact Hn|].
  exact (consecutive_windows_tile this (noon 2025 11 24) (noon 2026 0 5) Hm Hn).
Defined.

(** The purge as a whole on the sample data: the two invoices that are
    not live are deleted, the two accounts that are not live have their
    link erased, carol's is kept. *)
Example purge_of_the_sample_data :
  (clearTestData this world).1.1 = Ok tt
  /\ deletes (coreEvents (clearTestData this world).2) = ["in_1"; "in_3"]
  /\ erasedLinks (clearTestData this world).2 = ["u1"; "u2"].
Proof. vm_compute. repeat split; reflexivity. Qed.

(** The validator on the plain platform: built by the first call, kept
    by the second. *)
Example validator_is_kept :
  Validator.andThen (Validator.getInstance (I:=string))
    (fun _ => Validator.getInstance (I:=string)) (Validator.mkState None tt)
  = (Ok (Validator.mkUserValidator "{}"),
     Validator.mkState (Some (Validator.mkUserValidator "{}")) tt,
     [Validator.ESuper "UserValidator" (Ok tt);
      Validator.EReadSchema
        "/srv/ev-server/assets/server/rest/v1/schemas/user/user-create-req.json"
        (Ok "{}")]).
Proof. reflexivity. Qed.

End FurtherScenarios.

(* ===================================================================== *)
(** * Pagination under the moving filter *)
(* ===================================================================== *)

Section Pagination.
Context {W : Type} `{Environment W}.
Variable this : Integration.
Variable good : W -> Prop.
Variable collection : W -> list BillingInvoice.
Variable selects : InvoiceFilter -> BillingInvoice -> bool.
Hypothesis faithful : Faithful this good collection selects.
Variable today : DateTime.
Variable forceOperation : bool.

Let q := preparePeriodicBillingQueryParameters this today forceOperation.
Let hits (w : W) : list BillingInvoice :=
  List.filter (selects (qp_filter q)) (collection w).

(** Where a filtered list splits, the list splits. *)
Lemma filter_split {A} (p : A -> bool) (l : list A) (P : list A) (i : A)
    (rest : list A) :
  List.filter p l = P ++ i :: rest ->
  exists pre post,
    l = pre ++ i :: post /\ List.filter p pre = P /\ List.filter p post = rest.
Proof.
  revert P. induction l as [|x l IH]; intros P; simpl.
  - destruct P; discriminate.
  - destruct (p x) eqn:Ex.
    + destruct P as [|y P]; simpl; intros [= -> Hl].
      * exists [], l. auto.
      * destruct (IH _ Hl) as (pre & post & -> & Hp & Hq).
        exists (y :: pre), post. simpl. rewrite Ex, Hp. auto.
    + intros Hl. destruct (IH _ Hl) as (pre & post & -> & Hp & Hq).
      exists (x :: pre), post. simpl. rewrite Ex. auto.
Qed.

(** One invoice of the page: it leaves the part of the matching
    invoices not yet visited as it is, and either joins the visited
    ones that still match, or leaves the matching invoices with [skip]
    taken down by one. *)
Lemma chargeInvoices_body_advances (i : BillingInvoice) (st : ChargeState)
    (w : W) (P rest : list BillingInvoice) :
  good w -> hits w = P ++ i :: rest ->
  exists st' P',
    outcome (chargeInvoices_body this forceOperation i st w) = Ok st'
    /\ good (final (chargeInvoices_body this forceOperation i st w))
    /\ hits (final (chargeInvoices_body this forceOperation i st w))
       = P' ++ rest
    /\ delivered (trace (chargeInvoices_body this forceOperation i st w)) = []
    /\ skip st' - Z.of_nat (length P') = skip st - Z.of_nat (length P) - 1.
Proof using faithful.
  intros Hg Hh.
  assert (Hsel : selects (qp_filter q) i = true).
  { assert (Hin : In i (hits w)) by (rewrite Hh; apply in_elt).
    apply filter_In in Hin. tauto. }
  pose proof (faithful_scope _ _ _ _ faithful _ _ _ Hsel) as Hscope.
  rewrite chargeInvoices_body_run, Hscope.
  assert (Hstay : exists st' P',
             Ok (success st) = Ok st' /\ good w /\ hits w = P' ++ rest
             /\ skip st' - Z.of_nat (length P')
                = skip st - Z.of_nat (length P) - 1).
  { exists (success st), (P ++ [i]). rewrite <- app_assoc. simpl.
    repeat split; auto. rewrite length_app. simpl. lia. }
  destruct (negb forceOperation && isSameDay (createdOn i) (now w)).
  { destruct Hstay as (st' & P' & ? & ? & ? & ?). exists st', P'.
    unfold outcome, final, trace. simpl. auto. }
  destruct (filter_split _ _ _ _ _ Hh) as (pre & post & Hc & Hpre & Hpost).
  pose proof (faithful_charge _ _ _ _ faithful today forceOperation i w pre post
                Hg Hc Hsel) as Hcharge.
  destruct (chargeInvoice i w) as [[n|e] w1]; unfold outcome, final, trace;
    simpl.
  - destruct Hcharge as (Hg1 & Hc1 & Hn). fold q in Hn.
    assert (Hh1 : hits w1 = P ++ (if selects (qp_filter q) n then [n] else [])
                            ++ rest).
    { unfold hits. rewrite Hc1, List.filter_app. simpl.
      rewrite Hpre, Hpost. destruct (selects (qp_filter q) n); reflexivity. }
    rewrite Hn in Hh1.
    destruct (isInvoiceOutOfPeriodicOperationScope this n); simpl in Hh1.
    + exists (success (compensate st)), P. simpl. repeat split; auto. lia.
    + exists (success st), (P ++ [n]). rewrite <- app_assoc. simpl.
      repeat split; auto. rewrite length_app. simpl. lia.
  - destruct Hcharge as (Hv & Hg1 & Hc1). rewrite Hv. simpl.
    exists (failure st), (P ++ [i]).
    assert (Hh1 : hits w1 = hits w) by (unfold hits; by rewrite Hc1).
    rewrite Hh1, Hh, <- app_assoc. simpl.
    repeat split; auto. rewrite length_app. simpl. lia.
Qed.

(** A whole page. *)
Lemma chargeInvoices_page_advances (page : list BillingInvoice)
    (st : ChargeState) (w : W) (P rest : list BillingInvoice) :
  good w -> hits w = P ++ page ++ rest ->
  let run := forEach (chargeInvoices_body this forceOperation) page st w in
  exists st' P',
    outcome run = Ok st'
    /\ good (final run)
    /\ hits (final run) = P' ++ rest
    /\ delivered (trace run) = []
    /\ skip st' - Z.of_nat (length P')
       = skip st - Z.of_nat (length P) - Z.of_nat (length page).
Proof using faithful.
  revert st w P. induction page as [|i page IH]; intros st w P Hg Hh; simpl.
  - exists st, P. unfold outcome, final, trace. simpl. repeat split; auto. lia.
  - unfold bind.
    destruct (chargeInvoices_body_advances i st w P (page ++ rest) Hg Hh)
      as (st1 & P1 & Ho & Hg1 & Hh1 & Hd1 & Hs1).
    destruct (chargeInvoices_body this forceOperation i st w) as [[r1 w1] t1].
    unfold outcome, final, trace in *. simpl in *. subst r1.
    destruct (IH st1 w1 P1 Hg1 Hh1) as (st2 & P2 & Ho2 & Hg2 & Hh2 & Hd2 & Hs2).
    destruct (forEach _ page st1 w1) as [[r2 w2] t2].
    unfold outcome, final, trace in *. simpl in *. subst r2.
    exists st2, P2. rewrite delivered_app, Hd1, Hd2.
    repeat split; auto. lia.
Qed.

(** The loop from a state where [P], the matching invoices already
    visited, is what [skip] steps over: it comes to its end, and what
    its pages deliver is [R], the matching invoices not yet visited. *)
Lemma chargeInvoices_loop_exhausts (fuel : nat) (st : ChargeState) (w : W)
    (P R : list BillingInvoice) :
  0 < qp_limit q ->
  good w -> hits w = P ++ R -> (length R < fuel)%nat ->
  skip st = Z.of_nat (length P)
  \/ (R = [] /\ Z.of_nat (length P) <= skip st) ->
  let run := chargeInvoices_loop this fuel forceOperation q st w in
  (exists st', outcome run = Ok (Some st'))
  /\ delivered (trace run) = R.
Proof using faithful.
  intros HL. revert st w P R.
  induction fuel as [|fuel IH]; intros st w P R Hg Hh Hf Hs; [lia|].
  rewrite chargeInvoices_loop_S. cbv zeta. unfold bind, call.
  assert (Hskip : 0 <= skip st) by (destruct Hs as [->|[_ ?]]; lia).
  destruct (faithful_query _ _ _ _ faithful (qp_filter q)
              (mkDbParams (Some (qp_sort q)) (qp_limit q) (skip st)) w Hg)
    as [c Eq]; [exact Hskip|simpl; lia|].
  rewrite Eq. cbn [p_limit p_skip dr_result]. fold (hits w). rewrite Hh.
  set (L := Z.to_nat (qp_limit q)).
  assert (HLn : (1 <= L)%nat) by (subst L; lia).
  destruct Hs as [Hs|[-> Hs]].
  - rewrite (drop_app_length' P R) by lia.
    destruct R as [|r R0].
    + rewrite take_nil. simpl. unfold outcome, trace. simpl. eauto.
    + set (R := r :: R0) in *.
      set (page := take L R). set (R' := drop L R).
      assert (Hpage : page <> []).
      { subst page R L. destruct (Z.to_nat (qp_limit q)); [lia|discriminate]. }
      assert (HR : R = page ++ R') by (symmetry; apply take_drop).
      destruct page as [|i page0] eqn:Epage; [congruence|].
      cbn [Utils_isEmptyArray]. rewrite <- Epage in *. clear Hpage.
      rewrite HR in Hh.
      destruct (chargeInvoices_page_advances page
                  (mkChargeState (skip st + qp_limit q) (actionsDone st))
                  w P R' Hg Hh) as (st1 & P1 & Ho & Hg1 & Hh1 & Hd1 & Hs1).
      destruct (forEach _ page _ w) as [[r1 w1] t1].
      unfold outcome, final, trace in Ho, Hg1, Hh1, Hd1. simpl in *. subst r1.
      assert (Hlen : (length R' < fuel)%nat).
      { subst R'. rewrite length_drop. simpl in Hf. subst R. simpl. lia. }
      assert (Hnext : skip st1 = Z.of_nat (length P1)
                      \/ (R' = [] /\ Z.of_nat (length P1) <= skip st1)).
      { destruct (Nat.le_gt_cases L (length R)) as [Hle|Hgt].
        - left. assert (length page = L) by (subst page; by apply length_take_le).
          subst L. lia.
        - right. split.
          + subst R'. apply drop_ge. lia.
          + assert (length page = length R)
              by (subst page; rewrite take_ge; [reflexivity|lia]).
            subst L. lia. }
      destruct (IH st1 w1 P1 R' Hg1 Hh1 Hlen Hnext) as [[st' Ho'] Hd'].
      destruct (chargeInvoices_loop this fuel forceOperation q st1 w1)
        as [[r2 w2] t2].
      unfold outcome, trace in *. simpl in *. subst r2.
      split; [eauto|].
      rewrite delivered_app, Hd1, Hd'. simpl. rewrite <- HR. reflexivity.
  - rewrite app_nil_r. rewrite drop_ge by lia. rewrite take_nil.
    simpl. unfold outcome, trace. simpl. eauto.
Qed.

End Pagination.

Section PaginationOfARun.
Context {W : Type} `{Environment W}.
Variable this : Integration.

(** A run whose connectivity check passed, with a store and a provider
    that keep their contract. *)
Lemma chargeInvoices_exhausts
    (good : W -> Prop) (collection : W -> list BillingInvoice)
    (selects : InvoiceFilter -> BillingInvoice -> bool)
    (fuel : nat) (forceOperation : bool) (w w1 : W) :
  Faithful this good collection selects ->
  0 < Constants_BATCH_PAGE_SIZE ->
  checkConnection w = (Ok tt, w1) ->
  good w1 ->
  (length (List.filter
             (selects (qp_filter (preparePeriodicBillingQueryParameters this
                                    (now w1) forceOperation)))
             (collection w1)) < fuel)%nat ->
  (exists actions,
     outcome (chargeInvoices this fuel forceOperation w) = Ok (Some actions))
  /\ delivered (trace (chargeInvoices this fuel forceOperation w))
     = List.filter
         (selects (qp_filter (preparePeriodicBillingQueryParameters this
                                (now w1) forceOperation)))
         (collection w1).
Proof.
  intros Hfaith Hbatch Hconn Hgood Hfuel.
  unfold chargeInvoices, bind. rewrite chargeInvoices_run_unfold, Hconn.
  destruct (chargeInvoices_loop_exhausts this good collection selects Hfaith
              (now w1) forceOperation fuel (mkChargeState 0 (mkAction 0 0))
              w1 []
              (List.filter
                 (selects (qp_filter (preparePeriodicBillingQueryParameters
                                        this (now w1) forceOperation)))
                 (collection w1))) as [[st' Ho] Hd]; auto.
  { rewrite preparePeriodicBillingQueryParameters_limit.
    destruct forceOperation; lia. }
  destruct (chargeInvoices_loop _ _ _ _ _ w1) as [[r w2] t].
  unfold outcome, trace in *. simpl in *. subst r. simpl.
  rewrite app_nil_r. split; [eauto|exact Hd].
Qed.

(** X19.  With a store and a provider that keep their contract (the
    store answers with the slice asked for; a settlement that fails
    does so with an error value and changes nothing), a run of
    chargeInvoices whose connectivity check passed comes to its end
    and returns its counts, and its page queries deliver every invoice
    the filter selected at the start exactly once, in the order of the
    store: no invoice is stepped over and none is delivered twice,
    however many invoices leave the filter on being settled. *)
Theorem pagination_delivers_every_selected_invoice_once
    (good : W -> Prop) (collection : W -> list BillingInvoice)
    (selects : InvoiceFilter -> BillingInvoice -> bool)
    (fuel : nat) (forceOperation : bool) (w w1 : W) :
  Faithful this good collection selects ->
  0 < Constants_BATCH_PAGE_SIZE ->
  checkConnection w = (Ok tt, w1) ->
  good w1 ->
  let selected :=
    List.filter
      (selects (qp_filter (preparePeriodicBillingQueryParameters this (now w1)
                             forceOperation)))
      (collection w1) in
  (length selected < fuel)%nat ->
  let run := chargeInvoices this fuel forceOperation w in
  (exists actions, outcome run = Ok (Some actions))
  /\ delivered (trace run) = selected.
Proof.
  intros Hfaith Hbatch Hconn Hgood selected Hfuel run. subst run selected.
  by apply (chargeInvoices_exhausts good).
Qed.

(** What such a run does with the invoices selected at the start. *)
Lemma chargeInvoices_settles_selected
    (good : W -> Prop) (collection : W -> list BillingInvoice)
    (selects : InvoiceFilter -> BillingInvoice -> bool)
    (fuel : nat) (forceOperation : bool) (w w1 : W) :
  Faithful this good collection selects ->
  0 < Constants_BATCH_PAGE_SIZE ->
  checkConnection w = (Ok tt, w1) ->
  good w1 ->
  let selected :=
    List.filter
      (selects (qp_filter (preparePeriodicBillingQueryParameters this (now w1)
                             forceOperation)))
      (collection w1) in
  (length selected < fuel)%nat ->
  let run := chargeInvoices this fuel forceOperation w in
  (if forceOperation then chargedInvoices (trace run) = selected else True)
  /\ (count isCharge (trace run) + count isWarningLog (trace run))%nat
     = length selected
  /\ exists actions,
       outcome run = Ok (Some actions)
       /\ inSuccess actions + inError actions = Z.of_nat (length selected).
Proof.
  intros Hfaith Hbatch Hconn Hgood selected Hfuel run. subst run.
  destruct (chargeInvoices_exhausts good collection selects fuel forceOperation
              w w1 Hfaith Hbatch Hconn Hgood Hfuel) as [[actions Ho] Hd].
  fold selected in Hd.
  assert (Hin : List.filter (inScope this) selected = selected).
  { apply forallb_filter_id. apply forallb_forall. intros i Hi.
    subst selected. apply filter_In in Hi as [_ Hi].
    unfold inScope.
    by rewrite (faithful_scope _ _ _ _ Hfaith _ _ _ Hi). }
  pose proof (chargeInvoices_run_settled this fuel forceOperation w)
    as ((_ & _ & _ & L) & Hc).
  destruct (chargeInvoices_trace this fuel forceOperation w) as [Ht Hok].
  rewrite Ho in Hok. simpl in Hok. rewrite <- Hok in Hc.
  rewrite Ht in *.
  destruct (existsb isValuelessCharge _); [discriminate Hc|].
  destruct Hc as [C F]. rewrite Hd, Hin in F, C.
  split; [exact F|]. split; [exact C|].
  exists actions. split; [exact Ho|].
  revert Ho. unfold chargeInvoices, bind.
  rewrite chargeInvoices_run_unfold in *. rewrite Hconn in *.
  pose proof (chargeInvoices_loop_end this fuel forceOperation
                (preparePeriodicBillingQueryParameters this (now w1)
                   forceOperation)
                (mkChargeState 0 (mkAction 0 0)) w1) as [_ Hend].
  destruct (chargeInvoices_loop _ _ _ _ _ w1) as [[r w2] t].
  unfold outcome, trace in *. cbn [fst snd] in *.
  destruct r as [[st|]|e]; cbn [fst snd fmap option_fmap option_map ret];
    intros [= <-].
  destruct Hend as [_ (_ & A & _ & B)].
  rewrite !count_cons in L, C. cbn in A, B, L, C |- *.
  unfold count in *. lia.
Qed.

(** X20.  Under the same contract a forced run hands every invoice the
    filter selected at the start to [chargeInvoice] exactly once, in the
    order of the store, and counts each of them as a success or as an
    error. *)
Theorem forced_run_charges_every_selected_invoice_once
    (good : W -> Prop) (collection : W -> list BillingInvoice)
    (selects : InvoiceFilter -> BillingInvoice -> bool)
    (fuel : nat) (w w1 : W) :
  Faithful this good collection selects ->
  0 < Constants_BATCH_PAGE_SIZE ->
  checkConnection w = (Ok tt, w1) ->
  good w1 ->
  let selected :=
    List.filter
      (selects (qp_filter (preparePeriodicBillingQueryParameters this (now w1)
                             true)))
      (collection w1) in
  (length selected < fuel)%nat ->
  let run := chargeInvoices this fuel true w in
  chargedInvoices (trace run) = selected
  /\ exists actions,
       outcome run = Ok (Some actions)
       /\ inSuccess actions + inError actions = Z.of_nat (length selected).
Proof.
  intros Hfaith Hbatch Hconn Hgood selected Hfuel run. subst run.
  destruct (chargeInvoices_settles_selected good collection selects fuel true
              w w1 Hfaith Hbatch Hconn Hgood Hfuel) as (F & _ & Ha).
  split; [exact F|exact Ha].
Qed.

(** X21.  Under the same contract a regular run handles every invoice
    the filter selected at the start exactly once: it hands it to
    [chargeInvoice] or puts it off with the "too new" warning, and its
    counts add up to the number of selected invoices. *)
Theorem regular_run_handles_every_selected_invoice_once
    (good : W -> Prop) (collection : W -> list BillingInvoice)
    (selects : InvoiceFilter -> BillingInvoice -> bool)
    (fuel : nat) (w w1 : W) :
  Faithful this good collection selects ->
  0 < Constants_BATCH_PAGE_SIZE ->
  checkConnection w = (Ok tt, w1) ->
  good w1 ->
  let selected :=
    List.filter
      (selects (qp_filter (preparePeriodicBillingQueryParameters this (now w1)
                             false)))
      (collection w1) in
  (length selected < fuel)%nat ->
  let run := chargeInvoices this fuel false w in
  (count isCharge (trace run) + count isWarningLog (trace run))%nat
    = length selected
  /\ exists actions,
       outcome run = Ok (Some actions)
       /\ inSuccess actions + inError actions = Z.of_nat (length selected).
Proof.
  intros Hfaith Hbatch Hconn Hgood selected Hfuel run. subst run.
  destruct (chargeInvoices_settles_selected good collection selects fuel false
              w w1 Hfaith Hbatch Hconn Hgood Hfuel) as (_ & C & Ha).
  split; [exact C|exact Ha].
Qed.

End PaginationOfARun.

(* ===================================================================== *)
(** * The in-memory environment keeps the contract *)
(* ===================================================================== *)

Module PaginationScenario.
Import Memory.

Lemma take_min_length {A} (l : list A) (n : Z) (m : nat) :
  (length l <= m)%nat ->
  take (Z.to_nat (Z.min n (Z.of_nat m))) l = take (Z.to_nat n) l.
Proof.
  intros Hl. destruct (Z.le_gt_cases n (Z.of_nat m)) as [Hle|Hgt].
  - by rewrite Z.min_l.
  - rewrite Z.min_r by lia. rewrite !take_ge; [reflexivity|lia|lia].
Qed.

(** Replacing by id in a list without two equal ids touches one place. *)
Lemma replace_by_id (i paid : BillingInvoice) (pre post : list BillingInvoice) :
  NoDup (map invoice_id (pre ++ i :: post)) ->
  map (fun j => if String.eqb (invoice_id j) (invoice_id i) then paid else j)
    (pre ++ i :: post)
  = pre ++ paid :: post.
Proof.
  intros Hnd. rewrite map_app. simpl. rewrite String.eqb_refl.
  rewrite map_app in Hnd. simpl in Hnd.
  apply NoDup_app in Hnd as (_ & Hpre & Hpost).
  apply NoDup_cons in Hpost as [Hpost _].
  assert (Hfix : forall l : list BillingInvoice,
             invoice_id i ∉ map invoice_id l ->
             map (fun j => if String.eqb (invoice_id j) (invoice_id i)
                           then paid else j) l = l).
  { induction l as [|j l IH]; simpl; intros Hn; [reflexivity|].
    apply not_elem_of_cons in Hn as [Hne Hn].
    destruct (String.eqb_spec (invoice_id j) (invoice_id i)) as [E|E];
      [congruence|]. by rewrite IH. }
  rewrite (Hfix pre), (Hfix post); [reflexivity|exact Hpost|].
  intros Hin. apply (Hpre _ Hin). apply elem_of_cons. by left.
Qed.

(** A PAID invoice is selected by no query of the settlement. *)
Lemma paid_is_not_selected (this : Integration) today forceOperation i :
  matches (qp_filter (preparePeriodicBillingQueryParameters this today
                        forceOperation)) (setStatus PAID i) = false.
Proof.
  unfold preparePeriodicBillingQueryParameters, matches.
  destruct forceOperation; simpl;
    destruct (periodicBillingAllowed (billing (settings this))); reflexivity.
Qed.

Lemma memory_keeps_contract (this : Integration) :
  Faithful this goodMemory invoices matches.
Proof.
  split.
  - intros f p w [Hup _] _ _. simpl. unfold getInvoices. rewrite Hup.
    eexists. rewrite take_min_length; [reflexivity|].
    rewrite length_drop. lia.
  - intros today forceOperation j.
    unfold preparePeriodicBillingQueryParameters, matches,
      isInvoiceOutOfPeriodicOperationScope.
    destruct forceOperation; simpl;
      destruct (periodicBillingAllowed (billing (settings this)));
      destruct (status j); simpl; try reflexivity; discriminate.
  - intros today forceOperation i w pre post f [Hup Hnd] Hc _. simpl.
    unfold settle.
    destruct (currency i); [|split; [reflexivity|split; [by split|reflexivity]]].
    simpl. rewrite Hc in *. rewrite (replace_by_id _ _ _ _ Hnd).
    split; [split; [exact Hup|]|split; [reflexivity|]].
    + simpl. by rewrite map_app in *.
    + subst f. rewrite paid_is_not_selected. reflexivity.
Qed.

Lemma sample_world_is_good : goodMemory world.
Proof.
  split; [reflexivity|].
  apply (bool_decide_unpack _). vm_compute. exact I.
Qed.

(** Witness of X19: last month's run over the three sample invoices. *)
Lemma pagination_delivers_every_selected_invoice_once_witness :
  Faithful this goodMemory invoices matches
  /\ 0 < Constants_BATCH_PAGE_SIZE
  /\ checkConnection world = (Ok tt, world)
  /\ goodMemory world
  /\ (exists actions,
        outcome (chargeInvoices this 5 false world) = Ok (Some actions))
  /\ delivered (trace (chargeInvoices this 5 false world)) = [in1; in2; in3].
Proof.
  assert (Hb : 0 < Constants_BATCH_PAGE_SIZE) by reflexivity.
  split; [apply memory_keeps_contract|].
  split; [exact Hb|]. split; [reflexivity|].
  split; [exact sample_world_is_good|].
  apply (pagination_delivers_every_selected_invoice_once this goodMemory
           invoices matches 5 false world world
           (memory_keeps_contract this) Hb eq_refl sample_world_is_good).
  vm_compute. lia.
Defined.

Lemma todays_world_is_good : goodMemory Accounts.todaysWorld.
Proof.
  split; [reflexivity|].
  apply (bool_decide_unpack _). vm_compute. exact I.
Qed.

(** Witness of X20: a forced run, one invoice per page, over today's
    three invoices, of which the second cannot be settled. *)
Lemma forced_run_charges_every_selected_invoice_once_witness :
  Faithful this goodMemory invoices matches
  /\ 0 < Constants_BATCH_PAGE_SIZE
  /\ checkConnection Accounts.todaysWorld = (Ok tt, Accounts.todaysWorld)
  /\ goodMemory Accounts.todaysWorld
  /\ chargedInvoices (trace (chargeInvoices this 5 true Accounts.todaysWorld))
     = [Accounts.morning; Accounts.faulty; Accounts.evening]
  /\ exists actions,
       outcome (chargeInvoices this 5 true Accounts.todaysWorld)
         = Ok (Some actions)
       /\ inSuccess actions + inError actions = 3.
Proof.
  assert (Hb : 0 < Constants_BATCH_PAGE_SIZE) by reflexivity.
  split; [apply memory_keeps_contract|].
  split; [exact Hb|]. split; [reflexivity|].
  split; [exact todays_world_is_good|].
  apply (forced_run_charges_every_selected_invoice_once this goodMemory
           invoices matches 5 Accounts.todaysWorld Accounts.todaysWorld
           (memory_keeps_contract this) Hb eq_refl todays_world_is_good).
  vm_compute. lia.
Defined.

(** Witness of X21: last month's run over the three sample invoices. *)
Lemma regular_run_handles_every_selected_invoice_once_witness :
  Faithful this goodMemory invoices matches
  /\ 0 < Constants_BATCH_PAGE_SIZE
  /\ checkConnection world = (Ok tt, world)
  /\ goodMemory world
  /\ (count isCharge (trace (chargeInvoices this 5 false world))
      + count isWarningLog (trace (chargeInvoices this 5 false world)))%nat
     = 3%nat
  /\ exists actions,
       outcome (chargeInvoices this 5 false world) = Ok (Some actions)
       /\ inSuccess actions + inError actions = 3.
Proof.
  assert (Hb : 0 < Constants_BATCH_PAGE_SIZE) by reflexivity.
  split; [apply memory_keeps_contract|].
  split; [exact Hb|]. split; [reflexivity|].
  split; [exact sample_world_is_good|].
  apply (regular_run_handles_every_selected_invoice_once this goodMemory
           invoices matches 5 world world
           (memory_keeps_contract this) Hb eq_refl sample_world_is_good).
  vm_compute. lia.
Defined.

(** That run in figures: two successes, one error, and page queries at
    skip 0, 0, 1 and 1. *)
Example forced_run_of_today :
  outcome (chargeInvoices this 5 true Accounts.todaysWorld)
    = Ok (Some (mkAction 2 1))
  /\ omap (fun e => match e with
                    | EGetInvoices _ p _ => Some (p_skip p)
                    | _ => None
                    end)
       (trace (chargeInvoices this 5 true Accounts.todaysWorld))
     = [0; 0; 1; 1].
Proof. vm_compute. split; reflexivity. Qed.

End PaginationScenario.
